(** * Dada Bucks: the store's rules engine (src/store/dadaStore.ts)

    A shallow embedding of the Zustand store of the Dada Bucks front end and
    of the type declarations it works on, followed by the properties of the
    ledger: conservation of currency, the strike and forfeiture policy, the
    daily reset, savings interest, the spend-request workflow and the vault.

    Conventions of the embedding.
    - A JavaScript [number] that holds an amount of Dada Bucks, a counter or
      a quantity is a [Z]: every entry point of the user interface reads its
      numbers with [parseInt] and the catalogs hold whole numbers.  Where
      the source multiplies or divides by a fraction (the daily interest),
      the operands are IEEE 754 binary64 numbers, as every JavaScript
      [number] is, and each operation rounds to nearest, ties to even.
    - A calendar date string ['YYYY-MM-DD'] is the number of its day since
      the epoch, a [Date] is its number of milliseconds since the epoch.
    - The clock, the time zone and [Math.random] are read from an [Env]
      that every action receives.
    - An action that dereferences [undefined] (no child in [children])
      throws a TypeError: its result is [None], the store is untouched.
    - Template strings of messages and descriptions are constructors that
      carry the interpolated values. *)

From Stdlib Require Import ZArith List String Bool Lia QArith Qround SpecFloat.
From Stdlib Require Import DecimalString.
Import ListNotations.

Open Scope string_scope.
Open Scope list_scope.
Open Scope Z_scope.

(** ** Type definitions (types/index.ts) *)

Definition DateString := Z.
Definition Date := Z.

Inductive UserRole := RoleParent | RoleChild.

Module ChildProfile.
Record t := mk {
  id : string;
  name : string;
  avatar : string;
  balance : Z;
  savings : Z;
  savingsInterestAccrued : Z;
  totalEarned : Z;
  totalSpent : Z;
  strikes : Z;
  pendingEarnings : Z;
  lastInterestDate : DateString }.

(** [Partial<ChildProfile>], merged by object spread. *)
Record patch := mkPatch {
  p_id : option string;
  p_name : option string;
  p_avatar : option string;
  p_balance : option Z;
  p_savings : option Z;
  p_savingsInterestAccrued : option Z;
  p_totalEarned : option Z;
  p_totalSpent : option Z;
  p_strikes : option Z;
  p_pendingEarnings : option Z;
  p_lastInterestDate : option DateString }.
End ChildProfile.

Inductive TaskCategory := chores | hygiene | learning | helping | other.

Module Task.
Record t := mk {
  id : string;
  name : string;
  icon : string;
  payout : Z;
  dailyMax : Z;
  completions : Z;
  isActive : bool;
  category : TaskCategory }.

(** [Partial<Task>], merged by object spread. *)
Record patch := mkPatch {
  p_id : option string;
  p_name : option string;
  p_icon : option string;
  p_payout : option Z;
  p_dailyMax : option Z;
  p_completions : option Z;
  p_isActive : option bool;
  p_category : option TaskCategory }.
End Task.

Inductive SpendCategory := screenTime | treats | activities | games.

Module SpendItem.
Record t := mk {
  id : string;
  name : string;
  icon : string;
  cost : Z;
  quantity : Z;
  maxQuantity : Z;
  category : SpendCategory;
  description : option string }.
End SpendItem.

Inductive TransactionType :=
| earn | spend | refund | strike_penalty | interest
| savings_deposit | savings_withdrawal.

(** The description strings the store builds. *)
Inductive Description :=
| DescForfeited                       (* '3 strikes - All pending earnings forfeited!' *)
| DescDailyDeposit (amount : Z)       (* `Daily deposit: ${n} Dada Bucks earned today` *)
| DescInterest (amount : Z)           (* `Savings interest: +${n} Dada Bucks` *)
| DescToSavings (amount : Z)          (* `Moved ${n} DB to savings` *)
| DescFromSavings (amount : Z)        (* `Withdrew ${n} DB from savings` *)
| DescSpent (names : list string).    (* `Spent: ${names.join(', ')}` *)

Module Transaction.
Record t := mk {
  id : string;
  childId : string;
  type : TransactionType;
  amount : Z;
  description : Description;
  timestamp : Date;
  taskId : option string;
  spendItemId : option string;
  approvedBy : option string }.
End Transaction.

Inductive RequestStatus := pending | approved | denied.

Module RequestItem.
Record t := mk {
  spendItemId : string;
  name : string;
  icon : string;
  cost : Z;
  quantity : Z }.
End RequestItem.

Module SpendRequest.
Record t := mk {
  id : string;
  childId : string;
  items : list RequestItem.t;
  totalCost : Z;
  status : RequestStatus;
  requestedAt : Date;
  respondedAt : option Date;
  respondedBy : option string }.
End SpendRequest.

Module ApprovedRequestNotification.
Record t := mk {
  requestId : string;
  items : list RequestItem.t;
  totalCost : Z;
  approvedAt : Date;
  shownToChild : bool }.
End ApprovedRequestNotification.

Module Strike.
Record t := mk {
  id : string;
  childId : string;
  reason : string;
  timestamp : Date;
  day : DateString }.
End Strike.

Module Vault.
Record t := mk {
  balance : Z;
  maxBalance : Z;
  dailyAllowance : Z }.
End Vault.

Definition VAULT_MAX : Z := 1000.
Definition DAILY_SPEND_LIMIT : Z := 40.
Definition MAX_STRIKES : nat := 3.
Definition RESET_HOUR : Z := 22.

Definition DEFAULT_TASKS : list (string * string * Z * Z * bool * TaskCategory) :=
  [ ("Clean up after yourself", "🧹", 2, 5, true, chores);
    ("Make bed", "🛏️", 3, 1, true, chores);
    ("Workbook page", "📚", 5, 7, true, learning);
    ("Read a page", "📖", 3, 7, true, learning);
    ("Help with laundry", "👕", 3, 3, true, helping);
    ("Pooper scoop", "💩", 10, 1, true, chores);
    ("Wash dishes", "🍽️", 2, 3, true, chores);
    ("Wipe table", "🧽", 2, 5, true, chores);
    ("Wash hands", "🧼", 1, 10, true, hygiene);
    ("Brush teeth AM", "🪥", 5, 1, true, hygiene);
    ("Brush teeth PM", "🪥", 5, 1, true, hygiene) ].

Definition DEFAULT_SPEND_ITEMS
  : list (string * string * Z * Z * Z * SpendCategory * string) :=
  [ ("Watch a movie", "🎬", 40, 1, 1, screenTime, "Pick a movie to watch");
    ("Watch TV episode", "📺", 20, 1, 3, screenTime, "Watch your favorite show");
    ("iPad time", "📱", 1, 15, 30, screenTime, "Minutes of iPad time");
    ("Junk food", "🍪", 5, 1, 3, treats, "A yummy treat");
    ("Games", "🎮", 20, 30, 60, games, "Minutes of game time");
    ("Extra story", "📖", 15, 1, 2, activities, "Bedtime story at bedtime") ].

(** ** Record updates

    [{ ...c, field: v }] of the source, one function per field the store
    writes. *)

Module ChildUpd.
Import ChildProfile.
Definition pendingEarnings' (v : Z) (c : t) : t :=
  mk (id c) (name c) (avatar c) (balance c) (savings c)
     (savingsInterestAccrued c) (totalEarned c) (totalSpent c) (strikes c)
     v (lastInterestDate c).
Definition balance' (v : Z) (c : t) : t :=
  mk (id c) (name c) (avatar c) v (savings c)
     (savingsInterestAccrued c) (totalEarned c) (totalSpent c) (strikes c)
     (pendingEarnings c) (lastInterestDate c).
Definition savings' (v : Z) (c : t) : t :=
  mk (id c) (name c) (avatar c) (balance c) v
     (savingsInterestAccrued c) (totalEarned c) (totalSpent c) (strikes c)
     (pendingEarnings c) (lastInterestDate c).
Definition totalSpent' (v : Z) (c : t) : t :=
  mk (id c) (name c) (avatar c) (balance c) (savings c)
     (savingsInterestAccrued c) (totalEarned c) v (strikes c)
     (pendingEarnings c) (lastInterestDate c).
Definition merge (c : t) (u : patch) : t :=
  let or {A} (x : option A) (d : A) := match x with Some v => v | None => d end in
  mk (or (p_id u) (id c)) (or (p_name u) (name c)) (or (p_avatar u) (avatar c))
     (or (p_balance u) (balance c)) (or (p_savings u) (savings c))
     (or (p_savingsInterestAccrued u) (savingsInterestAccrued c))
     (or (p_totalEarned u) (totalEarned c)) (or (p_totalSpent u) (totalSpent c))
     (or (p_strikes u) (strikes c)) (or (p_pendingEarnings u) (pendingEarnings c))
     (or (p_lastInterestDate u) (lastInterestDate c)).
End ChildUpd.

Module TaskUpd.
Import Task.
Definition completions' (v : Z) (t0 : t) : t :=
  mk (id t0) (name t0) (icon t0) (payout t0) (dailyMax t0) v (isActive t0)
     (category t0).
Definition isActive' (v : bool) (t0 : t) : t :=
  mk (id t0) (name t0) (icon t0) (payout t0) (dailyMax t0) (completions t0) v
     (category t0).
Definition merge (t0 : t) (u : patch) : t :=
  let or {A} (x : option A) (d : A) := match x with Some v => v | None => d end in
  mk (or (p_id u) (id t0)) (or (p_name u) (name t0)) (or (p_icon u) (icon t0))
     (or (p_payout u) (payout t0)) (or (p_dailyMax u) (dailyMax t0))
     (or (p_completions u) (completions t0)) (or (p_isActive u) (isActive t0))
     (or (p_category u) (category t0)).
End TaskUpd.

Definition vault_balance' (v : Z) (w : Vault.t) : Vault.t :=
  Vault.mk v (Vault.maxBalance w) (Vault.dailyAllowance w).

Definition request_respond (st : RequestStatus) (at_ : Date) (r : SpendRequest.t)
  : SpendRequest.t :=
  SpendRequest.mk (SpendRequest.id r) (SpendRequest.childId r) (SpendRequest.items r)
             (SpendRequest.totalCost r) st (SpendRequest.requestedAt r) (Some at_)
             (SpendRequest.respondedBy r).

Definition notification_shown (n : ApprovedRequestNotification.t) : ApprovedRequestNotification.t :=
  ApprovedRequestNotification.mk (ApprovedRequestNotification.requestId n) (ApprovedRequestNotification.items n)
                  (ApprovedRequestNotification.totalCost n) (ApprovedRequestNotification.approvedAt n) true.

(** ** Store state (interface DadaState) *)

Record DadaState := mkState {
  currentView : UserRole;
  children : list ChildProfile.t;
  currentChildId : string;
  vault : Vault.t;
  tasks : list Task.t;
  spendItems : list SpendItem.t;
  transactions : list Transaction.t;
  pendingRequests : list SpendRequest.t;
  requestHistory : list SpendRequest.t;
  approvedNotifications : list ApprovedRequestNotification.t;
  strikes : list Strike.t;
  isParentLocked : bool;
  lastResetDate : DateString }.

(** [set({ field: v })]: the partial state is merged into the store. *)
Definition set_currentView (v : UserRole) (s : DadaState) : DadaState :=
  mkState v (children s) (currentChildId s) (vault s) (tasks s) (spendItems s)
    (transactions s) (pendingRequests s) (requestHistory s)
    (approvedNotifications s) (strikes s) (isParentLocked s) (lastResetDate s).
Definition set_children (v : list ChildProfile.t) (s : DadaState) : DadaState :=
  mkState (currentView s) v (currentChildId s) (vault s) (tasks s) (spendItems s)
    (transactions s) (pendingRequests s) (requestHistory s)
    (approvedNotifications s) (strikes s) (isParentLocked s) (lastResetDate s).
Definition set_currentChildId (v : string) (s : DadaState) : DadaState :=
  mkState (currentView s) (children s) v (vault s) (tasks s) (spendItems s)
    (transactions s) (pendingRequests s) (requestHistory s)
    (approvedNotifications s) (strikes s) (isParentLocked s) (lastResetDate s).
Definition set_vault (v : Vault.t) (s : DadaState) : DadaState :=
  mkState (currentView s) (children s) (currentChildId s) v (tasks s) (spendItems s)
    (transactions s) (pendingRequests s) (requestHistory s)
    (approvedNotifications s) (strikes s) (isParentLocked s) (lastResetDate s).
Definition set_tasks (v : list Task.t) (s : DadaState) : DadaState :=
  mkState (currentView s) (children s) (currentChildId s) (vault s) v (spendItems s)
    (transactions s) (pendingRequests s) (requestHistory s)
    (approvedNotifications s) (strikes s) (isParentLocked s) (lastResetDate s).
Definition set_transactions (v : list Transaction.t) (s : DadaState) : DadaState :=
  mkState (currentView s) (children s) (currentChildId s) (vault s) (tasks s)
    (spendItems s) v (pendingRequests s) (requestHistory s)
    (approvedNotifications s) (strikes s) (isParentLocked s) (lastResetDate s).
Definition set_pendingRequests (v : list SpendRequest.t) (s : DadaState) : DadaState :=
  mkState (currentView s) (children s) (currentChildId s) (vault s) (tasks s)
    (spendItems s) (transactions s) v (requestHistory s)
    (approvedNotifications s) (strikes s) (isParentLocked s) (lastResetDate s).
Definition set_requestHistory (v : list SpendRequest.t) (s : DadaState) : DadaState :=
  mkState (currentView s) (children s) (currentChildId s) (vault s) (tasks s)
    (spendItems s) (transactions s) (pendingRequests s) v
    (approvedNotifications s) (strikes s) (isParentLocked s) (lastResetDate s).
Definition set_approvedNotifications (v : list ApprovedRequestNotification.t) (s : DadaState)
  : DadaState :=
  mkState (currentView s) (children s) (currentChildId s) (vault s) (tasks s)
    (spendItems s) (transactions s) (pendingRequests s) (requestHistory s)
    v (strikes s) (isParentLocked s) (lastResetDate s).
Definition set_strikes (v : list Strike.t) (s : DadaState) : DadaState :=
  mkState (currentView s) (children s) (currentChildId s) (vault s) (tasks s)
    (spendItems s) (transactions s) (pendingRequests s) (requestHistory s)
    (approvedNotifications s) v (isParentLocked s) (lastResetDate s).
Definition set_isParentLocked (v : bool) (s : DadaState) : DadaState :=
  mkState (currentView s) (children s) (currentChildId s) (vault s) (tasks s)
    (spendItems s) (transactions s) (pendingRequests s) (requestHistory s)
    (approvedNotifications s) (strikes s) v (lastResetDate s).
Definition set_lastResetDate (v : DateString) (s : DadaState) : DadaState :=
  mkState (currentView s) (children s) (currentChildId s) (vault s) (tasks s)
    (spendItems s) (transactions s) (pendingRequests s) (requestHistory s)
    (approvedNotifications s) (strikes s) (isParentLocked s) v.

(** ** Results of the actions *)

Inductive Message :=
| MsgTaskNotFound                    (* 'Task not found' *)
| MsgTaskNotActive                   (* 'This task is not active' *)
| MsgCannotEarn (max : nat)          (* `Cannot earn - ${MAX_STRIKES} strikes today! ...` *)
| MsgDailyLimit (dailyMax : Z)       (* `Daily limit reached (${dailyMax}/${dailyMax})` *)
| MsgVaultEmpty                      (* 'Vault is empty! Add more Dada Bucks.' *)
| MsgGreatJob (earned : Z)           (* `Great job! ${earned} Dada Bucks will be added at 10 PM!` *)
| MsgNoCompletions                   (* 'No completions to undo' *)
| MsgUndone                          (* 'Task completion undone' *)
| MsgMaxStrikes                      (* 'Maximum strikes already reached today' *)
| MsgThreeStrikes (forfeited : Z)    (* `3 STRIKES! All pending earnings (${forfeited} DB) forfeited!` *)
| MsgStrike (count max : nat) (left : Z)
                                     (* `Strike ${count} of ${max}. ${max - count} more ...` *)
| MsgAmountPositive                  (* 'Amount must be positive' *)
| MsgNotEnoughBalance (have : Z)     (* `Not enough balance. You have ${balance} DB` *)
| MsgMovedToSavings (amount : Z)     (* `Moved ${amount} DB to savings!` *)
| MsgNotEnoughSavings (have : Z)     (* `Not enough savings. You have ${savings} DB` *)
| MsgWithdrew (amount : Z)           (* `Withdrew ${amount} DB from savings!` *)
| MsgAlreadyPending                  (* 'You already have a pending request! ...' *)
| MsgNotEnoughBucks (have need : Z)  (* `Not enough Dada Bucks! You have ${..}, need ${..}` *)
| MsgRequestSent                     (* 'Request sent to parent for approval!' *)
| MsgRequestNotFound                 (* 'Request not found' *)
| MsgChildNotFound                   (* 'Child not found' *)
| MsgNoLongerEnough                  (* 'Child no longer has enough balance' *)
| MsgApproved.                       (* 'Request approved!' *)

(** [{ success, message, earned?, forfeited?, requestId? }]: an absent
    field is [None]. *)
Record Result := mkResult {
  success : bool;
  message : Message;
  earned : option Z;
  forfeited : option Z;
  requestId : option string }.

Definition failure (m : Message) : Result := mkResult false m None None None.
Definition succeeded (m : Message) : Result := mkResult true m None None None.

Record ResetResult := mkResetResult {
  didReset : bool;
  earningsDeposited : option Z;
  interestEarned : option Z }.

(** ** The outside world: clock, time zone, random identifiers

    The time zone is given by the offset in force at the call.  The dates
    a call builds from local fields are read with that offset: the zone has
    no clock change between them and the call. *)

Record Env := mkEnv {
  now : Date;                (* new Date(), milliseconds since the epoch *)
  tzOffset : Z;              (* local time is UTC + tzOffset milliseconds *)
  random : nat -> string     (* the k-th generateId() of the call *) }.

Definition msPerHour : Z := 3600000.
Definition msPerDay : Z := 86400000.

(** [new Date().toISOString().split('T')[0]]: the date in UTC. *)
Definition getTodayDate (e : Env) : DateString := now e / msPerDay.

(** [new Date(d + 'T' + h + ':00:00')]: a date-time without offset is read
    in local time. *)
Definition localDateAtHour (e : Env) (d : DateString) (h : Z) : Date :=
  d * msPerDay + h * msPerHour - tzOffset e.

(** [const t = new Date(); t.setHours(h, 0, 0, 0)]: the local calendar day
    of the current instant, at hour [h] of the local clock. *)
Definition todayAtHour (e : Env) (h : Z) : Date :=
  localDateAtHour e ((now e + tzOffset e) / msPerDay) h.

Definition shouldResetToday (e : Env) (lastResetDate : DateString) : bool :=
  let lastReset := localDateAtHour e lastResetDate RESET_HOUR in
  let todayReset := todayAtHour e RESET_HOUR in
  if (todayReset <=? now e) && (lastReset <? todayReset) then true
  else
    let yesterdayReset := todayReset - msPerDay in
    if lastReset <? yesterdayReset then true else false.

Definition createDefaultChild (e : Env) (k : nat) (name avatar : string)
  : ChildProfile.t :=
  ChildProfile.mk (String.append "child-" (random e k)) name avatar 0 0 0 0 0 0 0 (getTodayDate e).

Definition createDefaultVault : Vault.t :=
  Vault.mk 1000 VAULT_MAX DAILY_SPEND_LIMIT.

Definition indexString (i : nat) : string :=
  NilEmpty.string_of_uint (Nat.to_uint i).

Definition withIndex {A} (l : list A) : list (nat * A) :=
  combine (seq 0 (List.length l)) l.

Definition createInitialTasks : list Task.t :=
  map (fun '(index, (name, icon, payout, dailyMax, isActive, category)) =>
         Task.mk (String.append "task-" (indexString index)) name icon payout dailyMax 0
                 isActive category)
      (withIndex DEFAULT_TASKS).

Definition createInitialSpendItems : list SpendItem.t :=
  map (fun '(index, (name, icon, cost, quantity, maxQuantity, category, descr)) =>
         SpendItem.mk (String.append "spend-" (indexString index)) name icon cost quantity
                      maxQuantity category (Some descr))
      (withIndex DEFAULT_SPEND_ITEMS).

(** The store as [create] builds it, also what [resetAll] restores. *)
Definition initialState (e : Env) : DadaState :=
  mkState RoleParent [createDefaultChild e 0 "Alex" "👧"] "" createDefaultVault
          createInitialTasks createInitialSpendItems [] [] [] [] [] false
          (getTodayDate e).

(** ** JavaScript idioms *)

Notation "a === b" := (String.eqb a b) (at level 70, no associativity).
Notation "a !== b" := (negb (String.eqb a b)) (at level 70, no associativity).

Definition isPending (st : RequestStatus) : bool :=
  match st with pending => true | _ => false end.

(** [Math.floor] and [Math.round] (halves go up) on exact rationals. *)
Definition Math_floor (x : Q) : Z := Qfloor x.
Definition Math_round (x : Q) : Z := Qfloor (x + (1 # 2)).

(** The arithmetic of [number]: binary64, that is 53 bits of precision and
    exponents up to 1024.  The operations are those of the IEEE 754
    specification of the standard library, which round the exact result to
    the nearest representable number, ties to even.  [ofZ] is a whole
    number as a [number] (exact below 2^53), [toQ] the exact value of a
    finite one; on the whole numbers below 2^53 that the store holds no
    operation used here leaves the finite numbers. *)
Module Number.
Definition prec : Z := 53.
Definition emax : Z := 1024.
Definition t := spec_float.
Definition ofZ (z : Z) : t := binary_normalize prec emax z 0 false.
Definition mul (x y : t) : t := SFmul prec emax x y.
Definition div (x y : t) : t := SFdiv prec emax x y.
Definition sub (x y : t) : t := SFsub prec emax x y.
Definition toQ (x : t) : Q :=
  match x with
  | S754_finite s m e =>
      match e with
      | Z.neg k => Qmake (cond_Zopp s (Z.pos m)) (Pos.shiftl 1 (N.pos k))
      | _ => inject_Z (cond_Zopp s (Z.pos m) * 2 ^ e)
      end
  | _ => 0%Q
  end.
(** The literal [0.01]: the binary64 number nearest to 1/100,
    5764607523034235 * 2^-59. *)
Definition one_hundredth : t := S754_finite false 5764607523034235 (-59).
End Number.

(** [children.map] with the side effects of its callback: the accumulator
    is threaded from left to right. *)
Fixpoint mapAccum {A B C} (f : A -> B -> A * C) (a : A) (l : list B)
  : A * list C :=
  match l with
  | [] => (a, [])
  | x :: l' =>
      let '(a1, y) := f a x in
      let '(a2, ys) := mapAccum f a1 l' in
      (a2, y :: ys)
  end.

(** ** Actions of the store *)

(** [children.find((c) => c.id === currentChildId) || children[0]] *)
Definition getCurrentChild (s : DadaState) : option ChildProfile.t :=
  match find (fun c => ChildProfile.id c === currentChildId s) (children s) with
  | Some c => Some c
  | None => hd_error (children s)
  end.

(** The callback [(c) => c.id === child.id] of [children.map].  Without a
    current child the array is empty and the callback never runs. *)
Definition isChild (child : option ChildProfile.t) (c : ChildProfile.t) : bool :=
  match child with
  | Some ch => ChildProfile.id c === ChildProfile.id ch
  | None => false
  end.

(** [strikes.filter((s) => s.day === today && s.childId === child.id).length].
    [child.id] is read for the strikes of today only; it throws when there
    is no current child. *)
Definition todayStrikesOf (today : DateString) (child : option ChildProfile.t)
  (l : list Strike.t) : option nat :=
  match child with
  | Some ch =>
      Some (List.length
              (filter (fun k => (Strike.day k =? today)
                                && (Strike.childId k === ChildProfile.id ch)) l))
  | None =>
      if existsb (fun k => Strike.day k =? today) l then None else Some 0%nat
  end.

(** *** View, children, parent lock, task catalog *)

Definition setView (view : UserRole) (s : DadaState) : DadaState :=
  set_currentView view s.

Definition toggleView (s : DadaState) : DadaState :=
  set_currentView
    (match currentView s with RoleParent => RoleChild | RoleChild => RoleParent end) s.

Definition addChild (e : Env) (name avatar : string) (s : DadaState)
  : string * DadaState :=
  let newChild := createDefaultChild e 0 name avatar in
  (ChildProfile.id newChild, set_children (children s ++ [newChild]) s).

Definition updateChild (childId : string) (updates : ChildProfile.patch)
  (s : DadaState) : DadaState :=
  set_children
    (map (fun c => if ChildProfile.id c === childId then ChildUpd.merge c updates else c)
         (children s)) s.

(** [newChildren[0].id] is read when the current child is the deleted one:
    it throws if no child is left. *)
Definition deleteChild (childId : string) (s : DadaState) : option DadaState :=
  if (List.length (children s) <=? 1)%nat then Some s
  else
    let newChildren := filter (fun c => ChildProfile.id c !== childId) (children s) in
    if currentChildId s === childId then
      match newChildren with
      | [] => None
      | c0 :: _ => Some (set_currentChildId (ChildProfile.id c0) (set_children newChildren s))
      end
    else Some (set_currentChildId (currentChildId s) (set_children newChildren s)).

Definition switchChild (childId : string) (s : DadaState) : DadaState :=
  set_currentChildId childId s.

Definition lockParent (s : DadaState) : DadaState := set_isParentLocked true s.

Definition unlockParent (answer : Z) (s : DadaState) : bool * DadaState :=
  let correct := 12 in
  if answer =? correct then (true, set_isParentLocked false s) else (false, s).

(** [taskData] is a task without [id] and [completions]. *)
Definition addTask (e : Env) (name icon : string) (payout dailyMax : Z)
  (isActive : bool) (category : TaskCategory) (s : DadaState) : DadaState :=
  let newTask :=
    Task.mk (String.append "task-" (random e 0)) name icon payout dailyMax 0
            isActive category in
  set_tasks (tasks s ++ [newTask]) s.

Definition updateTask (taskId : string) (updates : Task.patch) (s : DadaState)
  : DadaState :=
  set_tasks
    (map (fun task => if Task.id task === taskId then TaskUpd.merge task updates
                      else task)
         (tasks s)) s.

Definition deleteTask (taskId : string) (s : DadaState) : DadaState :=
  set_tasks (filter (fun task => Task.id task !== taskId) (tasks s)) s.

Definition toggleTaskActive (taskId : string) (s : DadaState) : DadaState :=
  set_tasks
    (map (fun task => if Task.id task === taskId
                      then TaskUpd.isActive' (negb (Task.isActive task)) task
                      else task)
         (tasks s)) s.

(** *** Task completion: earnings go to pending *)

Definition completeTask (e : Env) (taskId : string) (s : DadaState)
  : option (Result * DadaState) :=
  let child := getCurrentChild s in
  match find (fun t => Task.id t === taskId) (tasks s) with
  | None => Some (failure MsgTaskNotFound, s)
  | Some task =>
      if negb (Task.isActive task) then Some (failure MsgTaskNotActive, s)
      else
        match todayStrikesOf (getTodayDate e) child (strikes s) with
        | None => None
        | Some todayStrikes =>
            if (MAX_STRIKES <=? todayStrikes)%nat
            then Some (failure (MsgCannotEarn MAX_STRIKES), s)
            else if Task.dailyMax task <=? Task.completions task
            then Some (failure (MsgDailyLimit (Task.dailyMax task)), s)
            else if Vault.balance (vault s) <? Task.payout task
            then Some (failure MsgVaultEmpty, s)
            else
              let earned := Task.payout task in
              Some
                (mkResult true (MsgGreatJob earned) (Some earned) None None,
                 set_vault
                   (vault_balance' (Vault.balance (vault s) - earned) (vault s))
                   (set_children
                      (map (fun c =>
                              if isChild child c
                              then ChildUpd.pendingEarnings'
                                     (ChildProfile.pendingEarnings c + earned) c
                              else c)
                           (children s))
                      (set_tasks
                         (map (fun t =>
                                 if Task.id t === taskId
                                 then TaskUpd.completions' (Task.completions t + 1) t
                                 else t)
                              (tasks s))
                         s)))
        end
  end.

Definition undoTaskCompletion (taskId : string) (s : DadaState)
  : Result * DadaState :=
  let child := getCurrentChild s in
  let noCompletions := (failure MsgNoCompletions, s) in
  match find (fun t => Task.id t === taskId) (tasks s) with
  | None => noCompletions
  | Some task =>
      if Task.completions task <=? 0 then noCompletions
      else
        let earned := Task.payout task in
        (succeeded MsgUndone,
         set_vault
           (vault_balance' (Z.min VAULT_MAX (Vault.balance (vault s) + earned))
                           (vault s))
           (set_children
              (map (fun c =>
                      if isChild child c
                      then ChildUpd.pendingEarnings'
                             (Z.max 0 (ChildProfile.pendingEarnings c - earned)) c
                      else c)
                   (children s))
              (set_tasks
                 (map (fun t =>
                         if Task.id t === taskId
                         then TaskUpd.completions' (Task.completions t - 1) t
                         else t)
                      (tasks s))
                 s)))
  end.

(** *** Strike system *)

Definition addStrike (e : Env) (reason : string) (s : DadaState)
  : option (Result * DadaState) :=
  let today := getTodayDate e in
  match todayStrikesOf today (getCurrentChild s) (strikes s) with
  | None => None
  | Some todayStrikes =>
      if (MAX_STRIKES <=? todayStrikes)%nat then Some (failure MsgMaxStrikes, s)
      else
        match getCurrentChild s with
        | None => None
        | Some child =>
            let newStrike :=
              Strike.mk (String.append "strike-" (random e 0)) (ChildProfile.id child)
                        reason (now e) today in
            let newStrikeCount := (todayStrikes + 1)%nat in
            if (MAX_STRIKES <=? newStrikeCount)%nat then
              let forfeited := ChildProfile.pendingEarnings child in
              let penaltyTransaction :=
                Transaction.mk (String.append "txn-" (random e 1)) (ChildProfile.id child)
                       strike_penalty (- forfeited) DescForfeited (now e)
                       None None None in
              Some
                (mkResult true (MsgThreeStrikes forfeited) None (Some forfeited) None,
                 set_transactions
                   (if 0 <? forfeited
                    then penaltyTransaction :: transactions s
                    else transactions s)
                   (set_vault
                      (vault_balance'
                         (Z.min VAULT_MAX (Vault.balance (vault s) + forfeited))
                         (vault s))
                      (set_children
                         (map (fun c =>
                                 if ChildProfile.id c === ChildProfile.id child
                                 then ChildUpd.pendingEarnings' 0 c
                                 else c)
                              (children s))
                         (set_strikes (strikes s ++ [newStrike]) s))))
            else
              Some
                (succeeded
                   (MsgStrike newStrikeCount MAX_STRIKES
                              (Z.of_nat MAX_STRIKES - Z.of_nat newStrikeCount)),
                 set_strikes (strikes s ++ [newStrike]) s)
        end
  end.

Definition removeStrike (strikeId : string) (s : DadaState) : DadaState :=
  set_strikes (filter (fun k => Strike.id k !== strikeId) (strikes s)) s.

Definition resetStrikes (s : DadaState) : DadaState := set_strikes [] s.

(** *** Savings with interest *)

Definition calculateDailyInterest (savingsBalance : Z) : Z * Z :=
  (* 1 DB per 100 saved = 0.01 rate *)
  let dailyRate := Number.one_hundredth in
  let interest := Number.mul (Number.ofZ savingsBalance) dailyRate in
  let wholeAmount := Math_floor (Number.toQ interest) in
  let fractionalPart := Number.sub interest (Number.ofZ wholeAmount) in
  (wholeAmount,
   Math_round (Number.toQ (Number.mul fractionalPart (Number.ofZ 100)))).

Definition depositToSavings (e : Env) (amount : Z) (s : DadaState)
  : option (Result * DadaState) :=
  if amount <=? 0 then Some (failure MsgAmountPositive, s)
  else
    match getCurrentChild s with
    | None => None
    | Some child =>
        if ChildProfile.balance child <? amount
        then Some (failure (MsgNotEnoughBalance (ChildProfile.balance child)), s)
        else
          let transaction :=
            Transaction.mk (String.append "txn-" (random e 0)) (ChildProfile.id child)
                   savings_deposit (- amount) (DescToSavings amount) (now e)
                   None None None in
          Some
            (succeeded (MsgMovedToSavings amount),
             set_transactions (transaction :: transactions s)
               (set_children
                  (map (fun c =>
                          if ChildProfile.id c === ChildProfile.id child
                          then ChildUpd.savings' (ChildProfile.savings c + amount)
                                 (ChildUpd.balance' (ChildProfile.balance c - amount) c)
                          else c)
                       (children s))
                  s))
    end.

Definition withdrawFromSavings (e : Env) (amount : Z) (s : DadaState)
  : option (Result * DadaState) :=
  if amount <=? 0 then Some (failure MsgAmountPositive, s)
  else
    match getCurrentChild s with
    | None => None
    | Some child =>
        if ChildProfile.savings child <? amount
        then Some (failure (MsgNotEnoughSavings (ChildProfile.savings child)), s)
        else
          let transaction :=
            Transaction.mk (String.append "txn-" (random e 0)) (ChildProfile.id child)
                   savings_withdrawal amount (DescFromSavings amount) (now e)
                   None None None in
          Some
            (succeeded (MsgWithdrew amount),
             set_transactions (transaction :: transactions s)
               (set_children
                  (map (fun c =>
                          if ChildProfile.id c === ChildProfile.id child
                          then ChildUpd.savings' (ChildProfile.savings c - amount)
                                 (ChildUpd.balance' (ChildProfile.balance c + amount) c)
                          else c)
                       (children s))
                  s))
    end.

(** *** 10 PM daily reset *)

(** The locals the [children.map] callback of the reset writes to:
    the two totals, the transactions pushed so far and the number of
    identifiers drawn. *)
Record ResetAcc := mkResetAcc {
  totalEarningsDeposited : Z;
  totalInterestEarned : Z;
  newTransactions : list Transaction.t;
  drawn : nat }.

Definition resetChild (e : Env) (today : DateString) (acc : ResetAcc)
  (child : ChildProfile.t) : ResetAcc * ChildProfile.t :=
  (* 1. Deposit pending earnings to balance *)
  let pendingEarnings := ChildProfile.pendingEarnings child in
  let '(newBalance, newTotalEarned, acc1) :=
    if 0 <? pendingEarnings then
      (ChildProfile.balance child + pendingEarnings,
       ChildProfile.totalEarned child + pendingEarnings,
       mkResetAcc (totalEarningsDeposited acc + pendingEarnings)
                  (totalInterestEarned acc)
                  (newTransactions acc ++
                   [Transaction.mk (String.append "txn-" (random e (drawn acc)))
                           (ChildProfile.id child) earn pendingEarnings
                           (DescDailyDeposit pendingEarnings) (now e)
                           None None None])
                  (S (drawn acc)))
    else (ChildProfile.balance child, ChildProfile.totalEarned child, acc) in
  (* 2. Calculate and pay savings interest *)
  let '(wholeAmount, newAccrued) := calculateDailyInterest (ChildProfile.savings child) in
  let '(newSavings, acc2) :=
    if 0 <? wholeAmount then
      (ChildProfile.savings child + wholeAmount,
       mkResetAcc (totalEarningsDeposited acc1)
                  (totalInterestEarned acc1 + wholeAmount)
                  (newTransactions acc1 ++
                   [Transaction.mk (String.append "txn-" (random e (drawn acc1)))
                           (ChildProfile.id child) interest wholeAmount
                           (DescInterest wholeAmount) (now e)
                           None None None])
                  (S (drawn acc1)))
    else (ChildProfile.savings child, acc1) in
  (acc2,
   ChildProfile.mk (ChildProfile.id child) (ChildProfile.name child) (ChildProfile.avatar child)
            newBalance newSavings newAccrued newTotalEarned
            (ChildProfile.totalSpent child) (ChildProfile.strikes child) 0 today).

Definition checkAndPerformDailyReset (e : Env) (s : DadaState)
  : ResetResult * DadaState :=
  if negb (shouldResetToday e (lastResetDate s))
  then (mkResetResult false None None, s)
  else
    let today := getTodayDate e in
    let '(acc, updatedChildren) :=
      mapAccum (resetChild e today) (mkResetAcc 0 0 [] 0) (children s) in
    (* 3. Reset task completions *)
    let updatedTasks := map (TaskUpd.completions' 0) (tasks s) in
    (* 4. Clear strikes for new day *)
    let todayStrikes := filter (fun k => Strike.day k =? today) (strikes s) in
    (mkResetResult true (Some (totalEarningsDeposited acc))
                   (Some (totalInterestEarned acc)),
     set_transactions (newTransactions acc ++ transactions s)
       (set_lastResetDate today
          (set_strikes todayStrikes
             (set_tasks updatedTasks
                (set_children updatedChildren s))))).

(** *** Spend requests (child) *)

Definition createSpendRequest (e : Env) (items : list RequestItem.t)
  (s : DadaState) : option (Result * DadaState) :=
  match getCurrentChild s with
  | None => None
  | Some child =>
      (* Check if already has pending request *)
      let existingPending :=
        filter (fun r => (SpendRequest.childId r === ChildProfile.id child)
                         && isPending (SpendRequest.status r))
               (pendingRequests s) in
      if (0 <? List.length existingPending)%nat
      then Some (failure MsgAlreadyPending, s)
      else
        let totalCost :=
          fold_left (fun sum item =>
                       sum + RequestItem.cost item * RequestItem.quantity item)
                    items 0 in
        if ChildProfile.balance child <? totalCost
        then Some (failure (MsgNotEnoughBucks (ChildProfile.balance child) totalCost), s)
        else
          let newRequest :=
            SpendRequest.mk (String.append "req-" (random e 0)) (ChildProfile.id child) items
                       totalCost pending (now e) None None in
          Some
            (mkResult true MsgRequestSent None None (Some (SpendRequest.id newRequest)),
             set_pendingRequests (pendingRequests s ++ [newRequest]) s)
  end.

Definition cancelSpendRequest (requestId : string) (s : DadaState) : DadaState :=
  set_pendingRequests
    (filter (fun r => SpendRequest.id r !== requestId) (pendingRequests s)) s.

(** *** Spend approval (parent) *)

Definition denyRequest (e : Env) (requestId : string) (s : DadaState)
  : DadaState :=
  match find (fun r => SpendRequest.id r === requestId) (pendingRequests s) with
  | None => s
  | Some request =>
      let updatedRequest := request_respond denied (now e) request in
      set_requestHistory (updatedRequest :: requestHistory s)
        (set_pendingRequests
           (filter (fun r => SpendRequest.id r !== requestId) (pendingRequests s)) s)
  end.

Definition approveRequest (e : Env) (requestId : string) (s : DadaState)
  : Result * DadaState :=
  match find (fun r => SpendRequest.id r === requestId) (pendingRequests s) with
  | None => (failure MsgRequestNotFound, s)
  | Some request =>
      match find (fun c => ChildProfile.id c === SpendRequest.childId request) (children s) with
      | None => (failure MsgChildNotFound, s)
      | Some child =>
          if ChildProfile.balance child <? SpendRequest.totalCost request
          then (failure MsgNoLongerEnough, denyRequest e requestId s)
          else
            let transaction :=
              Transaction.mk (String.append "txn-" (random e 0)) (ChildProfile.id child) spend
                     (- SpendRequest.totalCost request)
                     (DescSpent (map RequestItem.name (SpendRequest.items request)))
                     (now e) None None None in
            let updatedRequest := request_respond approved (now e) request in
            (* Create notification for child view *)
            let notification :=
              ApprovedRequestNotification.mk (SpendRequest.id request) (SpendRequest.items request)
                              (SpendRequest.totalCost request) (now e) false in
            (succeeded MsgApproved,
             set_transactions (transaction :: transactions s)
               (set_vault
                  (vault_balance'
                     (Z.min VAULT_MAX
                            (Vault.balance (vault s) + SpendRequest.totalCost request))
                     (vault s))
                  (set_children
                     (map (fun c =>
                             if ChildProfile.id c === ChildProfile.id child
                             then ChildUpd.totalSpent'
                                    (ChildProfile.totalSpent c + SpendRequest.totalCost request)
                                    (ChildUpd.balance'
                                       (ChildProfile.balance c - SpendRequest.totalCost request) c)
                             else c)
                          (children s))
                     (set_approvedNotifications
                        (notification :: approvedNotifications s)
                        (set_requestHistory (updatedRequest :: requestHistory s)
                           (set_pendingRequests
                              (filter (fun r => SpendRequest.id r !== requestId)
                                      (pendingRequests s))
                              s))))))
      end
  end.

(** *** Approved request notifications, vault, reset *)

Definition markNotificationShown (requestId : string) (s : DadaState)
  : DadaState :=
  set_approvedNotifications
    (map (fun n => if ApprovedRequestNotification.requestId n === requestId
                   then notification_shown n else n)
         (approvedNotifications s)) s.

Definition getUnshownApprovedRequests (s : DadaState) : list ApprovedRequestNotification.t :=
  filter (fun n => negb (ApprovedRequestNotification.shownToChild n)
                   && (0 <? List.length (ApprovedRequestNotification.items n))%nat)
         (approvedNotifications s).

Definition addToVault (amount : Z) (s : DadaState) : DadaState :=
  set_vault
    (vault_balance' (Z.min VAULT_MAX (Vault.balance (vault s) + amount)) (vault s))
    s.

Definition removeFromVault (amount : Z) (s : DadaState) : bool * DadaState :=
  if Vault.balance (vault s) <? amount then (false, s)
  else
    (true,
     set_vault (vault_balance' (Vault.balance (vault s) - amount) (vault s)) s).

Definition resetAll (e : Env) (s : DadaState) : DadaState := initialState e.

(** ** The store as a transition system *)

Inductive Action :=
| SetView (view : UserRole)
| ToggleView
| AddChild (name avatar : string)
| UpdateChild (childId : string) (updates : ChildProfile.patch)
| DeleteChild (childId : string)
| SwitchChild (childId : string)
| LockParent
| UnlockParent (answer : Z)
| AddTask (name icon : string) (payout dailyMax : Z) (isActive : bool)
          (category : TaskCategory)
| UpdateTask (taskId : string) (updates : Task.patch)
| DeleteTask (taskId : string)
| ToggleTaskActive (taskId : string)
| CompleteTask (taskId : string)
| UndoTaskCompletion (taskId : string)
| AddStrike (reason : string)
| RemoveStrike (strikeId : string)
| ResetStrikes
| CheckAndPerformDailyReset
| DepositToSavings (amount : Z)
| WithdrawFromSavings (amount : Z)
| CreateSpendRequest (items : list RequestItem.t)
| CancelSpendRequest (requestId : string)
| ApproveRequest (requestId : string)
| DenyRequest (requestId : string)
| MarkNotificationShown (requestId : string)
| AddToVault (amount : Z)
| RemoveFromVault (amount : Z)
| ResetAll.

(** The store after a call that may have thrown: an exception leaves it
    as it was (no action writes before it can throw). *)
Definition stateAfter {A} (r : option (A * DadaState)) (s : DadaState)
  : DadaState :=
  match r with
  | Some (_, s') => s'
  | None => s
  end.

Definition step (e : Env) (a : Action) (s : DadaState) : DadaState :=
  match a with
  | SetView view => setView view s
  | ToggleView => toggleView s
  | AddChild name avatar => snd (addChild e name avatar s)
  | UpdateChild childId updates => updateChild childId updates s
  | DeleteChild childId =>
      match deleteChild childId s with Some s' => s' | None => s end
  | SwitchChild childId => switchChild childId s
  | LockParent => lockParent s
  | UnlockParent answer => snd (unlockParent answer s)
  | AddTask name icon payout dailyMax isActive category =>
      addTask e name icon payout dailyMax isActive category s
  | UpdateTask taskId updates => updateTask taskId updates s
  | DeleteTask taskId => deleteTask taskId s
  | ToggleTaskActive taskId => toggleTaskActive taskId s
  | CompleteTask taskId => stateAfter (completeTask e taskId s) s
  | UndoTaskCompletion taskId => snd (undoTaskCompletion taskId s)
  | AddStrike reason => stateAfter (addStrike e reason s) s
  | RemoveStrike strikeId => removeStrike strikeId s
  | ResetStrikes => resetStrikes s
  | CheckAndPerformDailyReset => snd (checkAndPerformDailyReset e s)
  | DepositToSavings amount => stateAfter (depositToSavings e amount s) s
  | WithdrawFromSavings amount => stateAfter (withdrawFromSavings e amount s) s
  | CreateSpendRequest items => stateAfter (createSpendRequest e items s) s
  | CancelSpendRequest requestId => cancelSpendRequest requestId s
  | ApproveRequest requestId => snd (approveRequest e requestId s)
  | DenyRequest requestId => denyRequest e requestId s
  | MarkNotificationShown requestId => markNotificationShown requestId s
  | AddToVault amount => addToVault amount s
  | RemoveFromVault amount => snd (removeFromVault amount s)
  | ResetAll => resetAll e s
  end.

(** A run: each call sees its own clock reading and random draws. *)
Fixpoint run (calls : list (Env * Action)) (s : DadaState) : DadaState :=
  match calls with
  | [] => s
  | (e, a) :: rest => run rest (step e a s)
  end.

(** The states the application can be in: the initial store, then any
    calls. *)
Inductive reachable : DadaState -> Prop :=
| reachable_init : forall e, reachable (initialState e)
| reachable_step : forall e a s, reachable s -> reachable (step e a s).

(** The conserved quantity of the ledger:
    [vault.balance + sum (child.balance + child.savings + child.pendingEarnings)]. *)
Definition holdings (c : ChildProfile.t) : Z :=
  ChildProfile.balance c + ChildProfile.savings c + ChildProfile.pendingEarnings c.

Definition sumHoldings (l : list ChildProfile.t) : Z :=
  fold_right (fun c acc => holdings c + acc) 0 l.

Definition totalCurrency (s : DadaState) : Z :=
  Vault.balance (vault s) + sumHoldings (children s).

(** ** Vocabulary of the properties *)

(** Today's strike count of a child, as [addStrike], [completeTask] and
    [getTodayStats] compute it. *)
Definition strikesToday (e : Env) (child : ChildProfile.t) (s : DadaState) : nat :=
  List.length
    (filter (fun k => (Strike.day k =? getTodayDate e)
                      && (Strike.childId k === ChildProfile.id child))
            (strikes s)).

(** What a forfeiture does to the store [s] whose acting child is [child]:
    the call succeeds and reports the forfeited amount, the child's pending
    earnings are 0, the vault is credited up to its cap, and one
    [strike_penalty] transaction of minus the forfeited amount heads the
    log exactly when that amount is positive. *)
Definition Forfeiture (child : ChildProfile.t) (s : DadaState) (r : Result)
  (s' : DadaState) : Prop :=
  let amount := ChildProfile.pendingEarnings child in
  success r = true
  /\ forfeited r = Some amount
  /\ getCurrentChild s'
     = Some {| ChildProfile.id := ChildProfile.id child;
               ChildProfile.name := ChildProfile.name child;
               ChildProfile.avatar := ChildProfile.avatar child;
               ChildProfile.balance := ChildProfile.balance child;
               ChildProfile.savings := ChildProfile.savings child;
               ChildProfile.savingsInterestAccrued :=
                 ChildProfile.savingsInterestAccrued child;
               ChildProfile.totalEarned := ChildProfile.totalEarned child;
               ChildProfile.totalSpent := ChildProfile.totalSpent child;
               ChildProfile.strikes := ChildProfile.strikes child;
               ChildProfile.pendingEarnings := 0;
               ChildProfile.lastInterestDate :=
                 ChildProfile.lastInterestDate child |}
  /\ Vault.balance (vault s')
     = Z.min (Vault.maxBalance (vault s)) (Vault.balance (vault s) + amount)
  /\ (0 < amount ->
      exists t, transactions s' = t :: transactions s
                /\ Transaction.type t = strike_penalty
                /\ Transaction.childId t = ChildProfile.id child
                /\ Transaction.amount t = - amount)
  /\ (amount <= 0 -> transactions s' = transactions s).

(** The pending requests of a child, as [createSpendRequest] filters
    them. *)
Definition pendingOf (childId : string) (l : list SpendRequest.t) : list SpendRequest.t :=
  filter (fun r => (SpendRequest.childId r === childId) && isPending (SpendRequest.status r)) l.

(** The calls that take the request [requestId] off the pending list: its
    approval (a stale one denies it), its denial, its cancellation; and
    [resetAll], which replaces the whole store, children included. *)
Definition releases (requestId : string) (a : Action) : bool :=
  match a with
  | ApproveRequest i | DenyRequest i | CancelSpendRequest i => i === requestId
  | ResetAll => true
  | _ => false
  end.

(** The calls that write [pendingRequests]. *)
Definition touchesRequests (a : Action) : bool :=
  match a with
  | CreateSpendRequest _ | CancelSpendRequest _ | ApproveRequest _
  | DenyRequest _ | ResetAll => true
  | _ => false
  end.

(** The calls of the conservation property: earn, undo, strike (with its
    forfeiture), approve, deny, and the vault top-up. *)
Definition isLedgerCall (a : Action) : bool :=
  match a with
  | CompleteTask _ | UndoTaskCompletion _ | AddStrike _ | ApproveRequest _
  | DenyRequest _ | AddToVault _ => true
  | _ => false
  end.

(** Whether the call [a] on [s] gets past its guards and one of its clamps
    then cuts an amount: the vault credit [Math.min(VAULT_MAX, ...)] of an
    undo, a forfeiture or an approval, or the floor [Math.max(0, ...)] of
    the pending earnings in an undo. *)
Definition clamps (e : Env) (a : Action) (s : DadaState) : bool :=
  match a with
  | UndoTaskCompletion taskId =>
      match find (fun t => Task.id t === taskId) (tasks s), getCurrentChild s with
      | Some task, Some child =>
          negb (Task.completions task <=? 0)
          && ((VAULT_MAX <? Vault.balance (vault s) + Task.payout task)
              || (ChildProfile.pendingEarnings child - Task.payout task <? 0))
      | _, _ => false
      end
  | AddStrike _ =>
      match getCurrentChild s with
      | Some child =>
          negb (MAX_STRIKES <=? strikesToday e child s)%nat
          && (MAX_STRIKES <=? strikesToday e child s + 1)%nat
          && (VAULT_MAX <? Vault.balance (vault s) + ChildProfile.pendingEarnings child)
      | None => false
      end
  | ApproveRequest i =>
      match find (fun r => SpendRequest.id r === i) (pendingRequests s) with
      | Some request =>
          match find (fun c => ChildProfile.id c === SpendRequest.childId request)
                     (children s) with
          | Some child =>
              negb (ChildProfile.balance child <? SpendRequest.totalCost request)
              && (VAULT_MAX <? Vault.balance (vault s) + SpendRequest.totalCost request)
          | None => false
          end
      | None => false
      end
  | _ => false
  end.

(** What a top-up adds to the vault. *)
Definition topUp (a : Action) (s : DadaState) : Z :=
  match a with
  | AddToVault amount =>
      Vault.balance (vault (addToVault amount s)) - Vault.balance (vault s)
  | _ => 0
  end.

(** A run of ledger calls none of which clamps, and what its top-ups add. *)
Fixpoint unclamped (calls : list (Env * Action)) (s : DadaState) : bool :=
  match calls with
  | [] => true
  | (e, a) :: rest =>
      isLedgerCall a && negb (clamps e a s) && unclamped rest (step e a s)
  end.

Fixpoint toppedUp (calls : list (Env * Action)) (s : DadaState) : Z :=
  match calls with
  | [] => 0
  | (e, a) :: rest => topUp a s + toppedUp rest (step e a s)
  end.

(** A household: at least one child, no two children with the same id. *)
Definition household (s : DadaState) : Prop :=
  children s <> [] /\ NoDup (map ChildProfile.id (children s)).

(** ** Sample worlds and stores for the examples *)

Definition env0 : Env := mkEnv 0 0 (fun _ => "a1b2c3").

(** The initial store after three strikes on the same day. *)
Definition threeStrikes : DadaState :=
  run [(env0, AddStrike "shouting"); (env0, AddStrike "hitting");
       (env0, AddStrike "lying")] (initialState env0).

(** The earn/forfeit scenario: a task worth 5 completed, then two strikes. *)
Definition twoStrikes : DadaState :=
  run [(env0, CompleteTask "task-2"); (env0, AddStrike "shouting");
       (env0, AddStrike "hitting")] (initialState env0).

Definition alexWithFive : ChildProfile.t :=
  ChildProfile.mk "child-a1b2c3" "Alex" "👧" 0 0 0 0 0 0 5 0.

(** The next day at 22:00 UTC, other random draws. *)
Definition env1 : Env :=
  mkEnv (msPerDay + 22 * msPerHour) 0 (fun _ => "z9y8x7").

Definition tvEpisode : RequestItem.t :=
  RequestItem.mk "spend-1" "Watch TV episode" "📺" 20 1.

(** Alex earns 20, the reset releases them, the parent tops the vault up
    to its cap, Alex asks for a TV episode worth 20. *)
Definition readyToApprove : DadaState :=
  run [(env0, CompleteTask "task-5"); (env0, CompleteTask "task-2");
       (env0, CompleteTask "task-2"); (env1, CheckAndPerformDailyReset);
       (env1, AddToVault 20); (env1, CreateSpendRequest [tvEpisode])]
      (initialState env0).

Definition tvRequest : SpendRequest.t :=
  SpendRequest.mk "req-z9y8x7" "child-a1b2c3" [tvEpisode] 20 pending (now env1)
             None None.

Definition alexWithTwenty : ChildProfile.t :=
  ChildProfile.mk "child-a1b2c3" "Alex" "👧" 20 0 0 20 0 0 0 1.

(** A second child asks for nothing and is then deleted: the request
    stays in the pending list. *)
Definition orphanRequest : DadaState :=
  run [(env1, AddChild "Sam" "👦"); (env1, SwitchChild "child-z9y8x7");
       (env1, CreateSpendRequest []); (env1, DeleteChild "child-z9y8x7")]
      (initialState env0).

(** Alex earns 2, then the parent tops the vault up to its cap. *)
Definition toppedUpAfterEarning : DadaState :=
  run [(env0, CompleteTask "task-0"); (env0, AddToVault 2)] (initialState env0).

(** Alex earns 2, then a second child becomes the acting child. *)
Definition siblingTakesOver : DadaState :=
  run [(env0, CompleteTask "task-0"); (env1, AddChild "Sam" "👦");
       (env1, SwitchChild "child-z9y8x7")] (initialState env0).

(** A day of ledger calls without a clamp: two tasks done, a top-up of 2,
    one completion undone, two strikes, a denial of nothing. *)
Definition ledgerDay : list (Env * Action) :=
  [(env0, CompleteTask "task-2"); (env0, CompleteTask "task-0");
   (env0, AddToVault 2); (env0, UndoTaskCompletion "task-0");
   (env0, AddStrike "shouting"); (env0, AddStrike "hitting");
   (env0, DenyRequest "req-none")].

(** ** Getters of the store and their callers *)

(** [getNextResetTime]: RESET_HOUR, local time, of the local calendar day
    of the current instant, or, when that instant has passed, of the next
    calendar day ([setDate(getDate() + 1)] keeps the time of day). *)
Definition getNextResetTime (e : Env) : Date :=
  let nextReset := todayAtHour e RESET_HOUR in
  if nextReset <=? now e
  then localDateAtHour e ((now e + tzOffset e) / msPerDay + 1) RESET_HOUR
  else nextReset.

(** A string is falsy when it is empty; [undefined] is [None]. *)
Definition truthy (x : option string) : bool :=
  match x with
  | Some v => negb (v === "")
  | None => false
  end.

(** [getChildTransactions(childId?)], with
    [childId || currentChildId || children[0]?.id] as the target. *)
Definition getChildTransactions (childId : option string) (s : DadaState)
  : list Transaction.t :=
  let targetChildId :=
    if truthy childId then childId
    else if truthy (Some (currentChildId s)) then Some (currentChildId s)
    else option_map ChildProfile.id (hd_error (children s)) in
  match targetChildId with
  | Some target => filter (fun t => Transaction.childId t === target) (transactions s)
  | None => []
  end.

(** [new Date(t).toISOString().split('T')[0]]: the UTC date of an instant. *)
Definition isoDate (t : Date) : DateString := t / msPerDay.

Module Stats.
Record t := mk {
  earned : Z;
  spent : Z;
  strikes : nat }.
End Stats.

Definition isIncome (ty : TransactionType) : bool :=
  match ty with earn | interest => true | _ => false end.

Definition isSpend (ty : TransactionType) : bool :=
  match ty with spend => true | _ => false end.

Definition sumAmounts (f : Z -> Z) (l : list Transaction.t) : Z :=
  fold_left (fun sum t => sum + f (Transaction.amount t)) l 0.

(** [getTodayStats].  [child.id] is read for the transactions and the
    strikes of today only; it throws when there is no current child. *)
Definition getTodayStats (e : Env) (s : DadaState) : option Stats.t :=
  let today := getTodayDate e in
  match getCurrentChild s with
  | Some child =>
      let todayTransactions :=
        filter (fun t => (isoDate (Transaction.timestamp t) =? today)
                         && (Transaction.childId t === ChildProfile.id child))
               (transactions s) in
      let earned :=
        sumAmounts (fun a => a)
          (filter (fun t => isIncome (Transaction.type t)) todayTransactions) in
      let spent :=
        sumAmounts Z.abs
          (filter (fun t => isSpend (Transaction.type t)) todayTransactions) in
      let todayStrikes :=
        List.length
          (filter (fun k => (Strike.day k =? today)
                            && (Strike.childId k === ChildProfile.id child))
                  (strikes s)) in
      Some (Stats.mk earned spent todayStrikes)
  | None =>
      if existsb (fun t => isoDate (Transaction.timestamp t) =? today)
                 (transactions s)
         || existsb (fun k => Strike.day k =? today) (strikes s)
      then None
      else Some (Stats.mk 0 0 0%nat)
  end.

(** SavingsSection: [const dailyInterest = Math.floor(child.savings / 100)]. *)
Definition dailyInterestShown (child : ChildProfile.t) : Z :=
  Math_floor
    (Number.toQ (Number.div (Number.ofZ (ChildProfile.savings child))
                            (Number.ofZ 100))).

(** App: [if (children.length > 0 && !currentChildId) switchChild(children[0].id)]. *)
Definition initializeCurrentChild (s : DadaState) : DadaState :=
  match children s with
  | c0 :: _ =>
      if negb (truthy (Some (currentChildId s)))
      then switchChild (ChildProfile.id c0) s
      else s
  | [] => s
  end.

(** ApprovalNotification: [handleDismissAll] marks every unshown
    notification, one call of the store per notification. *)
Definition handleDismissAll (s : DadaState) : DadaState :=
  fold_left (fun st req =>
               markNotificationShown (ApprovedRequestNotification.requestId req) st)
            (getUnshownApprovedRequests s) s.

(** ** Vocabulary of the further properties *)

(** No child owes anything, the vault is within its bounds, no task pays
    and no pending request costs a negative amount. *)
Definition solventChild (c : ChildProfile.t) : Prop :=
  0 <= ChildProfile.balance c
  /\ 0 <= ChildProfile.savings c
  /\ 0 <= ChildProfile.pendingEarnings c.

Definition solvent (s : DadaState) : Prop :=
  0 <= Vault.balance (vault s) <= VAULT_MAX
  /\ Forall solventChild (children s)
  /\ Forall (fun t => 0 <= Task.payout t) (tasks s)
  /\ Forall (fun r => 0 <= SpendRequest.totalCost r) (pendingRequests s).

Definition notNegative (x : option Z) : bool :=
  match x with
  | Some v => 0 <=? v
  | None => true
  end.

(** The calls whose arguments hold no negative amount. *)
Definition benign (a : Action) : bool :=
  match a with
  | AddTask _ _ payout _ _ _ => 0 <=? payout
  | UpdateTask _ u => notNegative (Task.p_payout u)
  | UpdateChild _ u =>
      notNegative (ChildProfile.p_balance u)
      && notNegative (ChildProfile.p_savings u)
      && notNegative (ChildProfile.p_pendingEarnings u)
  | AddToVault amount | RemoveFromVault amount => 0 <=? amount
  | CreateSpendRequest items =>
      forallb (fun i => (0 <=? RequestItem.cost i) && (0 <=? RequestItem.quantity i))
              items
  | _ => true
  end.

(** The calls that keep child ids distinct: a new child draws an id no child
    has, a patch of a child leaves its id alone. *)
Definition orderly (e : Env) (a : Action) (s : DadaState) : bool :=
  match a with
  | AddChild _ _ =>
      negb (existsb (fun c => ChildProfile.id c
                              === String.append "child-" (random e 0))
                    (children s))
  | UpdateChild _ u =>
      match ChildProfile.p_id u with Some _ => false | None => true end
  | _ => true
  end.

Fixpoint orderlyRun (calls : list (Env * Action)) (s : DadaState) : bool :=
  match calls with
  | [] => true
  | (e, a) :: rest => orderly e a s && orderlyRun rest (step e a s)
  end.

(** The whole interest and the carry the calculator returns for the savings
    of a child. *)
Definition interestOn (c : ChildProfile.t) : Z :=
  fst (calculateDailyInterest (ChildProfile.savings c)).

Definition carryOn (c : ChildProfile.t) : Z :=
  snd (calculateDailyInterest (ChildProfile.savings c)).

(** A child after the daily reset, in closed form. *)
Definition released (today : DateString) (c : ChildProfile.t) : ChildProfile.t :=
  ChildProfile.mk (ChildProfile.id c) (ChildProfile.name c) (ChildProfile.avatar c)
    (ChildProfile.balance c + Z.max 0 (ChildProfile.pendingEarnings c))
    (ChildProfile.savings c + Z.max 0 (interestOn c))
    (carryOn c)
    (ChildProfile.totalEarned c + Z.max 0 (ChildProfile.pendingEarnings c))
    (ChildProfile.totalSpent c) (ChildProfile.strikes c) 0 today.

(** The savings on which the interest arithmetic is checked value by
    value: every whole balance from 0 to [checkedSavings]. *)
Definition checkedSavings : Z := 10000.

(** For the savings [s]: the calculator returns the quotient and the
    remainder of [s] by 100, and the savings screen shows the quotient. *)
Definition interestAgrees (s : Z) : bool :=
  let '(wholeAmount, newAccrued) := calculateDailyInterest s in
  (wholeAmount =? s / 100) && (newAccrued =? s mod 100)
  && (Math_floor (Number.toQ (Number.div (Number.ofZ s) (Number.ofZ 100)))
      =? s / 100).

Fixpoint agreesFrom (s : Z) (n : nat) : bool :=
  match n with
  | O => true
  | S k => interestAgrees s && agreesFrom (s + 1) k
  end.

Definition sumOver {A} (f : A -> Z) (l : list A) : Z :=
  fold_right (fun x acc => f x + acc) 0 l.

(** The strikes of one day and one child id. *)
Definition strikesOn (day : DateString) (childId : string) (l : list Strike.t)
  : list Strike.t :=
  filter (fun k => (Strike.day k =? day) && (Strike.childId k === childId)) l.

(** A transaction that credits a child: positive, of type earn or interest. *)
Definition income (t : Transaction.t) : Prop :=
  0 < Transaction.amount t /\ isIncome (Transaction.type t) = true.

(** The calls that write [strikes]. *)
Definition touchesStrikes (a : Action) : bool :=
  match a with
  | AddStrike _ | RemoveStrike _ | ResetStrikes | CheckAndPerformDailyReset
  | ResetAll => true
  | _ => false
  end.

(** A family day: a second child arrives and acts, Alex is renamed, both
    earn, the second child is deleted again. *)
Definition familyDay : list (Env * Action) :=
  [(env0, CompleteTask "task-2"); (env1, AddChild "Sam" "👦");
   (env1, SwitchChild "child-z9y8x7");
   (env1, UpdateChild "child-a1b2c3"
            (ChildProfile.mkPatch None (Some "Alexandra") None None None None
                                  None None None None None));
   (env1, CompleteTask "task-0"); (env1, AddStrike "shouting");
   (env1, CheckAndPerformDailyReset); (env1, DepositToSavings 1);
   (env1, CreateSpendRequest []); (env1, DeleteChild "child-z9y8x7");
   (env1, AddToVault 10); (env1, RemoveFromVault 5)].

(** The initial store with a second child. *)
Definition twoChildren : DadaState :=
  run [(env1, AddChild "Sam" "👦")] (initialState env0).

(** A child with 50 to spend, 250 saved and 7 pending, at the start. *)
Definition saver : DadaState :=
  set_children
    [ChildProfile.mk "child-a1b2c3" "Alex" "👧" 50 250 0 300 0 0 7 0]
    (initialState env0).

(** Five hours west of UTC, at the local cutover of the day after the
    start: the UTC date is already the day after; and the next evening. *)
Definition envWest : Env :=
  mkEnv (2 * msPerDay + 3 * msPerHour) (- 5 * msPerHour) (fun _ => "w3s7e1").

Definition envWestNextEvening : Env :=
  mkEnv (3 * msPerDay + 3 * msPerHour) (- 5 * msPerHour) (fun _ => "w3s7e2").

(** The next evening at 22:00 UTC. *)
Definition env2 : Env :=
  mkEnv (2 * msPerDay + 22 * msPerHour) 0 (fun _ => "q4r5s6").

(** * Properties *)

(** Case analysis on the innermost scrutinee of the goal. *)
Ltac break_match :=
  match goal with
  | |- context [match ?x with _ => _ end] =>
      lazymatch x with
      | context [match _ with _ => _ end] => fail
      | _ => destruct x eqn:?
      end
  end.

(** A field an action does not write is the same after the call. *)
Ltac frame_of op := unfold op, stateAfter; repeat break_match; reflexivity.

(** ** Lists and lookups *)

Lemma find_update_same {A} (key : A -> string) (k : string) (p : A -> bool)
  (f : A -> A) (l : list A) (x : A) :
  (forall y, key (f y) = key y) ->
  find (fun y => key y === k) l = Some x ->
  find (fun y => key y === k) (map (fun y => if p y then f y else y) l)
  = Some (if p x then f x else x).
Proof.
  intros Hkey. induction l as [|y l IH]; simpl; [discriminate|].
  destruct (key y === k) eqn:Hy.
  - intros [= ->]. destruct (p x); simpl; rewrite ?Hkey, Hy; reflexivity.
  - intros H. destruct (p y); simpl; rewrite ?Hkey, Hy; auto.
Qed.

Lemma find_update_none {A} (key : A -> string) (k : string) (p : A -> bool)
  (f : A -> A) (l : list A) :
  (forall y, key (f y) = key y) ->
  find (fun y => key y === k) l = None ->
  find (fun y => key y === k) (map (fun y => if p y then f y else y) l) = None.
Proof.
  intros Hkey. induction l as [|y l IH]; simpl; [reflexivity|].
  destruct (key y === k) eqn:Hy; [discriminate|].
  intros H. destruct (p y); simpl; rewrite ?Hkey, Hy; auto.
Qed.

Lemma filter_all_true {A} (p : A -> bool) (l : list A) :
  (forall x, In x l -> p x = true) -> filter p l = l.
Proof.
  induction l as [|x l IH]; simpl; intros H; [reflexivity|].
  rewrite (H x (or_introl eq_refl)). f_equal. apply IH. intros; apply H; auto.
Qed.

Lemma find_some_in_eqb {A} (key : A -> string) (k : string) (l : list A) (x : A) :
  find (fun y => key y === k) l = Some x -> In x l /\ key x = k.
Proof.
  intros H. apply find_some in H. destruct H as [Hin Hk].
  split; [assumption|]. now apply String.eqb_eq.
Qed.

Lemma state_eta (s : DadaState) :
  mkState (currentView s) (children s) (currentChildId s) (vault s) (tasks s)
    (spendItems s) (transactions s) (pendingRequests s) (requestHistory s)
    (approvedNotifications s) (strikes s) (isParentLocked s) (lastResetDate s) = s.
Proof. destruct s; reflexivity. Qed.

(** ** Interest calculator *)

Lemma agreesFrom_sound (n : nat) (s x : Z) :
  agreesFrom s n = true -> s <= x < s + Z.of_nat n -> interestAgrees x = true.
Proof.
  revert s. induction n as [|n IH]; intros s Hall Hx; [lia|].
  cbn [agreesFrom] in Hall. apply andb_true_iff in Hall.
  destruct Hall as [Hs Hrest].
  destruct (Z.eq_dec x s) as [->|Hne]; [exact Hs|].
  apply (IH (s + 1)); [exact Hrest | lia].
Qed.

(** Every whole balance from 0 to [checkedSavings], one by one. *)
Lemma interest_checked :
  agreesFrom 0 (Z.to_nat (checkedSavings + 1)) = true.
Proof. vm_cast_no_check (eq_refl true). Qed.

Lemma interestAgrees_checked (s : Z) :
  0 <= s <= checkedSavings -> interestAgrees s = true.
Proof.
  intros Hs. apply (agreesFrom_sound _ 0 s interest_checked).
  rewrite Z2Nat.id by (unfold checkedSavings; lia). lia.
Qed.

Lemma calculateDailyInterest_div_mod (savingsBalance : Z) :
  0 <= savingsBalance <= checkedSavings ->
  calculateDailyInterest savingsBalance
  = (savingsBalance / 100, savingsBalance mod 100).
Proof.
  intros Hs. pose proof (interestAgrees_checked savingsBalance Hs) as Hok.
  unfold interestAgrees in Hok.
  destruct (calculateDailyInterest savingsBalance) as [wholeAmount newAccrued].
  apply andb_true_iff in Hok. destruct Hok as [Hok _].
  apply andb_true_iff in Hok. destruct Hok as [Hw Ha].
  apply Z.eqb_eq in Hw. apply Z.eqb_eq in Ha. now subst.
Qed.

Lemma dailyInterestShown_div (child : ChildProfile.t) :
  0 <= ChildProfile.savings child <= checkedSavings ->
  dailyInterestShown child = ChildProfile.savings child / 100.
Proof.
  intros Hs.
  pose proof (interestAgrees_checked (ChildProfile.savings child) Hs) as Hok.
  unfold interestAgrees in Hok.
  destruct (calculateDailyInterest (ChildProfile.savings child)) as [w a].
  apply andb_true_iff in Hok. destruct Hok as [_ Hshown].
  apply Z.eqb_eq in Hshown. exact Hshown.
Qed.



(** ** Vault *)

(** C9, as stated, fails: [addToVault] has no lower clamp and
    [removeFromVault] accepts a negative amount.  From the initial vault of
    1000, adding -1001 leaves -1 and removing -5 leaves 1005. *)
Lemma vault_leaves_range_on_negative_amount :
  Vault.balance (vault (initialState env0)) = 1000
  /\ Vault.maxBalance (vault (initialState env0)) = 1000
  /\ Vault.balance (vault (addToVault (-1001) (initialState env0))) = -1
  /\ removeFromVault (-5) (initialState env0)
     = (true, set_vault (Vault.mk 1005 1000 40) (initialState env0)).
Proof. repeat split. Qed.

(** C9, amended.  For an amount that is not negative and a vault within
    [0, maxBalance] (with [maxBalance] the constant VAULT_MAX the store
    clamps with): [addToVault] yields [min(maxBalance, balance + amount)],
    [removeFromVault] answers false and changes nothing when the amount
    exceeds the balance and subtracts it otherwise; both leave the balance
    within [0, maxBalance]. *)
Theorem vault_adjust_within_bounds (amount : Z) (s : DadaState) :
  0 <= amount ->
  0 <= Vault.balance (vault s) <= Vault.maxBalance (vault s) ->
  Vault.maxBalance (vault s) = VAULT_MAX ->
  (let s' := addToVault amount s in
   Vault.balance (vault s')
   = Z.min (Vault.maxBalance (vault s)) (Vault.balance (vault s) + amount)
   /\ Vault.maxBalance (vault s') = Vault.maxBalance (vault s)
   /\ 0 <= Vault.balance (vault s') <= Vault.maxBalance (vault s'))
  /\ (let ok := fst (removeFromVault amount s) in
      let s' := snd (removeFromVault amount s) in
      (Vault.balance (vault s) < amount -> ok = false /\ s' = s)
      /\ (amount <= Vault.balance (vault s) ->
          ok = true
          /\ Vault.balance (vault s') = Vault.balance (vault s) - amount)
      /\ Vault.maxBalance (vault s') = Vault.maxBalance (vault s)
      /\ 0 <= Vault.balance (vault s') <= Vault.maxBalance (vault s')).
Proof.
  intros Hamount Hrange Hmax. split.
  - unfold addToVault; simpl. rewrite Hmax in *. repeat split; lia.
  - unfold removeFromVault.
    destruct (Vault.balance (vault s) <? amount) eqn:Hlt; simpl.
    + apply Z.ltb_lt in Hlt. repeat split; auto; lia.
    + apply Z.ltb_ge in Hlt. repeat split; auto; lia.
Qed.

Lemma vault_adjust_within_bounds_witness :
  Vault.balance (vault (addToVault 50 (snd (removeFromVault 80 (initialState env0)))))
  = 970
  /\ fst (removeFromVault 2000 (initialState env0)) = false.
Proof.
  split.
  - apply (vault_adjust_within_bounds 50
             (snd (removeFromVault 80 (initialState env0)))).
    + lia.
    + vm_compute. split; discriminate.
    + reflexivity.
  - apply (vault_adjust_within_bounds 2000 (initialState env0)).
    + lia.
    + vm_compute. split; discriminate.
    + reflexivity.
    + vm_compute. reflexivity.
Defined.

(** ** Cancelling a request *)

(** C10. [cancelSpendRequest] keeps the pending requests whose id differs
    from [requestId] and writes nothing else: children, vault, transaction
    log and request history are as before, no history record is made, and
    without a pending request of that id the store is unchanged. *)
Theorem cancelSpendRequest_frame (requestId : string) (s : DadaState) :
  let s' := cancelSpendRequest requestId s in
  pendingRequests s'
  = filter (fun r => SpendRequest.id r !== requestId) (pendingRequests s)
  /\ (forall r, In r (pendingRequests s') <->
                In r (pendingRequests s) /\ SpendRequest.id r <> requestId)
  /\ ((forall r, In r (pendingRequests s) -> SpendRequest.id r <> requestId) -> s' = s)
  /\ children s' = children s
  /\ vault s' = vault s
  /\ transactions s' = transactions s
  /\ requestHistory s' = requestHistory s
  /\ s' = set_pendingRequests (pendingRequests s') s.
Proof.
  assert (Hin : forall r,
             In r (filter (fun r => SpendRequest.id r !== requestId) (pendingRequests s))
             <-> In r (pendingRequests s) /\ SpendRequest.id r <> requestId).
  { intros r. rewrite filter_In, negb_true_iff, String.eqb_neq. tauto. }
  cbv zeta. split; [reflexivity|]. split; [exact Hin|].
  split; [|repeat split].
  intros Hnone. unfold cancelSpendRequest.
  rewrite filter_all_true.
  - unfold set_pendingRequests. apply state_eta.
  - intros r Hr. apply negb_true_iff, String.eqb_neq. auto.
Qed.

(** ** The acting child *)

Lemma currentChild_update (cid : string) (p : ChildProfile.t -> bool)
  (f : ChildProfile.t -> ChildProfile.t) (l : list ChildProfile.t) (child : ChildProfile.t) :
  (forall c, ChildProfile.id (f c) = ChildProfile.id c) ->
  match find (fun c => ChildProfile.id c === cid) l with
  | Some c => Some c
  | None => hd_error l
  end = Some child ->
  match find (fun c => ChildProfile.id c === cid)
             (map (fun c => if p c then f c else c) l) with
  | Some c => Some c
  | None => hd_error (map (fun c => if p c then f c else c) l)
  end = Some (if p child then f child else child).
Proof.
  intros Hid. destruct (find _ l) as [c|] eqn:Hfind.
  - intros [= ->]. now rewrite (find_update_same ChildProfile.id cid p f l child Hid Hfind).
  - rewrite (find_update_none ChildProfile.id cid p f l Hid Hfind).
    destruct l as [|c l]; simpl; [discriminate|]. now intros [= ->].
Qed.

Lemma getCurrentChild_in (s : DadaState) (child : ChildProfile.t) :
  getCurrentChild s = Some child -> In child (children s).
Proof.
  unfold getCurrentChild. destruct (find _ (children s)) eqn:Hfind.
  - intros [= ->]. now apply find_some in Hfind.
  - destruct (children s); simpl; [discriminate|]. intros [= ->]. now left.
Qed.

Lemma todayStrikesOf_current (e : Env) (s : DadaState) (child : ChildProfile.t) :
  getCurrentChild s = Some child ->
  todayStrikesOf (getTodayDate e) (getCurrentChild s) (strikes s)
  = Some (strikesToday e child s).
Proof. intros ->. reflexivity. Qed.

Lemma todayStrikesOf_some_child (today : DateString) (child : option ChildProfile.t)
  (l : list Strike.t) (n : nat) :
  todayStrikesOf today child l = Some n -> (0 < n)%nat -> child <> None.
Proof.
  destruct child; [discriminate|]. simpl.
  destruct (existsb _ l); [discriminate|]. intros [= <-]. lia.
Qed.

(** ** Strikes *)

(** C7. With the acting child's strike count of the day at MAX_STRIKES (or
    above), [addStrike] fails and the store is unchanged: no strike record,
    no forfeiture, no transaction. *)
Theorem addStrike_at_cap_is_noop (e : Env) (reason : string) (s : DadaState)
  (n : nat) :
  todayStrikesOf (getTodayDate e) (getCurrentChild s) (strikes s) = Some n ->
  (MAX_STRIKES <= n)%nat ->
  addStrike e reason s = Some (failure MsgMaxStrikes, s)
  /\ success (failure MsgMaxStrikes) = false
  /\ step e (AddStrike reason) s = s.
Proof.
  intros Hcount Hcap.
  assert (H : addStrike e reason s = Some (failure MsgMaxStrikes, s)).
  { unfold addStrike. rewrite Hcount.
    apply Nat.leb_le in Hcap. now rewrite Hcap. }
  split; [exact H|]. split; [reflexivity|].
  simpl. now rewrite H.
Qed.

Lemma addStrike_at_cap_is_noop_witness :
  addStrike env0 "again" threeStrikes = Some (failure MsgMaxStrikes, threeStrikes).
Proof.
  refine (proj1 (addStrike_at_cap_is_noop env0 "again" threeStrikes 3 _ _)).
  - vm_compute. reflexivity.
  - unfold MAX_STRIKES. lia.
Defined.

Lemma strikesToday_frame (e : Env) (child : ChildProfile.t) (s s' : DadaState) :
  strikes s' = strikes s -> strikesToday e child s' = strikesToday e child s.
Proof. unfold strikesToday. now intros ->. Qed.

Lemma strikesToday_after_strike (e e' : Env) (child : ChildProfile.t) (s : DadaState)
  (i reason : string) (t : Date) :
  getTodayDate e = getTodayDate e' ->
  strikesToday e' child
    (set_strikes
       (strikes s ++ [Strike.mk i (ChildProfile.id child) reason t (getTodayDate e)]) s)
  = S (strikesToday e' child s).
Proof.
  intros Hday. unfold strikesToday; simpl.
  rewrite filter_app, length_app; simpl.
  rewrite Hday, Z.eqb_refl, String.eqb_refl; simpl. lia.
Qed.

Lemma addStrike_below_cap (e : Env) (reason : string) (s : DadaState)
  (child : ChildProfile.t) :
  getCurrentChild s = Some child ->
  (S (strikesToday e child s) < MAX_STRIKES)%nat ->
  exists r,
    addStrike e reason s
    = Some (r, set_strikes
                 (strikes s ++
                  [Strike.mk (String.append "strike-" (random e 0)) (ChildProfile.id child)
                             reason (now e) (getTodayDate e)]) s)
    /\ success r = true /\ forfeited r = None.
Proof.
  intros Hchild Hlt. unfold addStrike.
  rewrite (todayStrikesOf_current e s child Hchild), Hchild.
  fold (strikesToday e child s).
  destruct (Nat.leb_spec MAX_STRIKES (strikesToday e child s)); [lia|].
  destruct (Nat.leb_spec MAX_STRIKES (strikesToday e child s + 1)); [lia|].
  eexists. split; [reflexivity|]. split; reflexivity.
Qed.

Lemma addStrike_reaching_cap (e : Env) (reason : string) (s : DadaState)
  (child : ChildProfile.t) :
  getCurrentChild s = Some child ->
  S (strikesToday e child s) = MAX_STRIKES ->
  exists r s',
    addStrike e reason s = Some (r, s')
    /\ success r = true
    /\ forfeited r = Some (ChildProfile.pendingEarnings child)
    /\ currentChildId s' = currentChildId s
    /\ children s'
       = map (fun c => if ChildProfile.id c === ChildProfile.id child
                       then ChildUpd.pendingEarnings' 0 c else c)
             (children s)
    /\ vault s'
       = vault_balance'
           (Z.min VAULT_MAX
                  (Vault.balance (vault s) + ChildProfile.pendingEarnings child))
           (vault s)
    /\ transactions s'
       = (if 0 <? ChildProfile.pendingEarnings child
          then Transaction.mk (String.append "txn-" (random e 1))
                 (ChildProfile.id child) strike_penalty
                 (- ChildProfile.pendingEarnings child) DescForfeited (now e)
                 None None None :: transactions s
          else transactions s)
    /\ strikesToday e child s' = MAX_STRIKES.
Proof.
  intros Hchild Hcount. unfold addStrike.
  rewrite (todayStrikesOf_current e s child Hchild), Hchild.
  destruct (Nat.leb_spec MAX_STRIKES (strikesToday e child s)); [lia|].
  destruct (Nat.leb_spec MAX_STRIKES (strikesToday e child s + 1)); [|lia].
  eexists. eexists. split; [reflexivity|].
  do 6 (split; [reflexivity|]).
  rewrite <- Hcount.
  rewrite <- (strikesToday_after_strike e e child s
                (String.append "strike-" (random e 0)) reason (now e) eq_refl).
  apply strikesToday_frame. reflexivity.
Qed.

Lemma strikesToday_resetStrikes (e : Env) (child : ChildProfile.t) (s : DadaState) :
  strikesToday e child (resetStrikes s) = 0%nat.
Proof. reflexivity. Qed.

(** C2. When [addStrike] brings the acting child's count of the day to
    MAX_STRIKES, the child's pending earnings become 0, the vault is credited
    with them up to [maxBalance], and a [strike_penalty] transaction of the
    forfeited amount is logged if and only if that amount is positive.
    After [resetStrikes], three fresh strikes of the same day forfeit again:
    the first two change nothing but the strike ledger, the third is a
    forfeiture. *)
Theorem addStrike_forfeits_on_reaching_cap (e1 e2 e3 : Env)
  (reason r1 r2 r3 : string) (s : DadaState) (child : ChildProfile.t) :
  getCurrentChild s = Some child ->
  Vault.maxBalance (vault s) = VAULT_MAX ->
  (S (strikesToday e3 child s) = MAX_STRIKES ->
   exists r s',
     addStrike e3 reason s = Some (r, s')
     /\ Forfeiture child s r s'
     /\ strikesToday e3 child s' = MAX_STRIKES)
  /\ (getTodayDate e1 = getTodayDate e3 ->
      getTodayDate e2 = getTodayDate e3 ->
      let s0 := resetStrikes s in
      let s1 := step e1 (AddStrike r1) s0 in
      let s2 := step e2 (AddStrike r2) s1 in
      children s2 = children s
      /\ vault s2 = vault s
      /\ transactions s2 = transactions s
      /\ exists r s3,
          addStrike e3 r3 s2 = Some (r, s3)
          /\ Forfeiture child s r s3
          /\ strikesToday e3 child s3 = MAX_STRIKES).
Proof.
  intros Hchild Hmax.
  assert (Hforfeit : forall e why s0,
             getCurrentChild s0 = Some child ->
             Vault.maxBalance (vault s0) = VAULT_MAX ->
             S (strikesToday e child s0) = MAX_STRIKES ->
             exists r s',
               addStrike e why s0 = Some (r, s')
               /\ Forfeiture child s0 r s'
               /\ strikesToday e child s' = MAX_STRIKES).
  { intros e why s0 Hc0 Hm0 Hn0.
    destruct (addStrike_reaching_cap e why s0 child Hc0 Hn0)
      as (r & s' & Hrun & Hsucc & Hamount & Hcur & Hch & Hv & Ht & Hn).
    exists r, s'. split; [exact Hrun|]. split; [|exact Hn].
    unfold Forfeiture; cbv zeta.
    split; [exact Hsucc|]. split; [exact Hamount|]. split.
    - unfold getCurrentChild in *. rewrite Hcur, Hch.
      pose proof (currentChild_update (currentChildId s0)
                    (fun c => ChildProfile.id c === ChildProfile.id child)
                    (ChildUpd.pendingEarnings' 0) (children s0) child
                    (fun c => eq_refl) Hc0) as Hupd.
      cbv beta in Hupd. rewrite String.eqb_refl in Hupd. exact Hupd.
    - split; [rewrite Hv; simpl; now rewrite Hm0|]. rewrite Ht. split.
      + intros Hpos. apply Z.ltb_lt in Hpos. rewrite Hpos.
        eexists. split; [reflexivity|]. repeat split.
      + intros Hle. apply Z.ltb_ge in Hle. now rewrite Hle. }
  split.
  - intros Hcount. now apply Hforfeit.
  - intros Hd1 Hd2 s0 s1 s2.
    assert (Hchild0 : getCurrentChild s0 = Some child) by exact Hchild.
    destruct (addStrike_below_cap e1 r1 s0 child Hchild0) as (q1 & Hs1 & _).
    { unfold s0. rewrite strikesToday_resetStrikes. unfold MAX_STRIKES. lia. }
    assert (Es1 : s1 = set_strikes
                         (strikes s0 ++
                          [Strike.mk (String.append "strike-" (random e1 0))
                                     (ChildProfile.id child) r1 (now e1) (getTodayDate e1)])
                         s0).
    { unfold s1, step. now rewrite Hs1. }
    assert (Hchild1 : getCurrentChild s1 = Some child) by (rewrite Es1; exact Hchild).
    assert (Hn1 : forall e, getTodayDate e = getTodayDate e3 ->
                            strikesToday e child s1 = 1%nat).
    { intros e He. rewrite Es1, strikesToday_after_strike by congruence.
      unfold s0. now rewrite strikesToday_resetStrikes. }
    destruct (addStrike_below_cap e2 r2 s1 child Hchild1) as (q2 & Hs2 & _).
    { rewrite (Hn1 e2 Hd2). unfold MAX_STRIKES. lia. }
    assert (Es2 : s2 = set_strikes
                         (strikes s1 ++
                          [Strike.mk (String.append "strike-" (random e2 0))
                                     (ChildProfile.id child) r2 (now e2) (getTodayDate e2)])
                         s1).
    { unfold s2, step. now rewrite Hs2. }
    assert (Hchild2 : getCurrentChild s2 = Some child) by (rewrite Es2; exact Hchild1).
    assert (Hn2 : strikesToday e3 child s2 = 2%nat).
    { rewrite Es2, strikesToday_after_strike by congruence.
      now rewrite (Hn1 e3 eq_refl). }
    assert (Hframe : children s2 = children s /\ vault s2 = vault s
                     /\ transactions s2 = transactions s).
    { rewrite Es2, Es1. repeat split. }
    destruct Hframe as (Hc & Hv & Ht).
    split; [exact Hc|]. split; [exact Hv|]. split; [exact Ht|].
    destruct (Hforfeit e3 r3 s2 Hchild2) as (r & s3 & H3 & Hf & Hn3).
    { now rewrite Hv. }
    { now rewrite Hn2. }
    exists r, s3. split; [exact H3|]. split; [|exact Hn3].
    unfold Forfeiture in *. now rewrite Hv, Ht in Hf.
Qed.

Lemma addStrike_forfeits_on_reaching_cap_witness :
  (exists r s',
     addStrike env0 "lying" twoStrikes = Some (r, s')
     /\ Forfeiture alexWithFive twoStrikes r s'
     /\ strikesToday env0 alexWithFive s' = MAX_STRIKES)
  /\ map ChildProfile.pendingEarnings (children twoStrikes) = [5]
  /\ Vault.balance (vault twoStrikes) = 995
  /\ option_map
       (fun rs => (forfeited (fst rs),
                   map ChildProfile.pendingEarnings (children (snd rs)),
                   Vault.balance (vault (snd rs)),
                   map Transaction.amount (transactions (snd rs))))
       (addStrike env0 "lying" twoStrikes)
     = Some (Some 5, [0], 1000, [-5]).
Proof.
  split.
  - refine (proj1 (addStrike_forfeits_on_reaching_cap env0 env0 env0
                     "lying" "x" "y" "z" twoStrikes alexWithFive _ _) _);
      vm_compute; reflexivity.
  - vm_compute. repeat split.
Defined.

(** ** Task completion *)



(** ** Approval of a spend request *)

Lemma denyRequest_found (e : Env) (requestId : string) (s : DadaState)
  (request : SpendRequest.t) :
  find (fun r => SpendRequest.id r === requestId) (pendingRequests s) = Some request ->
  let s' := denyRequest e requestId s in
  pendingRequests s'
  = filter (fun r => SpendRequest.id r !== requestId) (pendingRequests s)
  /\ requestHistory s' = request_respond denied (now e) request :: requestHistory s
  /\ children s' = children s
  /\ vault s' = vault s
  /\ transactions s' = transactions s
  /\ approvedNotifications s' = approvedNotifications s.
Proof. intros Hfind. unfold denyRequest. rewrite Hfind. repeat split. Qed.

(** C5, amended.  [approveRequest] fails without any change when no pending
    request has the id, and also when the request's child is no longer among
    the children.  For a request whose child exists: when [totalCost]
    exceeds the child's balance the request is denied (moved to the history
    with status [denied], nothing else changes) and failure is reported;
    otherwise the child's balance is debited by [totalCost], [totalSpent]
    grows by [totalCost], the vault becomes
    [min(maxBalance, balance + totalCost)], one [spend] transaction heads
    the log, the request moves to the history as [approved] and one
    notification with [shownToChild = false] is created. *)
Theorem approveRequest_spec (e : Env) (requestId : string) (s : DadaState) :
  Vault.maxBalance (vault s) = VAULT_MAX ->
  (find (fun r => SpendRequest.id r === requestId) (pendingRequests s) = None ->
   approveRequest e requestId s = (failure MsgRequestNotFound, s))
  /\ forall request,
      find (fun r => SpendRequest.id r === requestId) (pendingRequests s) = Some request ->
      (find (fun c => ChildProfile.id c === SpendRequest.childId request) (children s) = None ->
       approveRequest e requestId s = (failure MsgChildNotFound, s))
      /\ forall child,
          find (fun c => ChildProfile.id c === SpendRequest.childId request) (children s)
          = Some child ->
          (ChildProfile.balance child < SpendRequest.totalCost request ->
           let r := fst (approveRequest e requestId s) in
           let s' := snd (approveRequest e requestId s) in
           success r = false
           /\ s' = denyRequest e requestId s
           /\ pendingRequests s'
              = filter (fun r => SpendRequest.id r !== requestId) (pendingRequests s)
           /\ requestHistory s'
              = {| SpendRequest.id := SpendRequest.id request;
                   SpendRequest.childId := SpendRequest.childId request;
                   SpendRequest.items := SpendRequest.items request;
                   SpendRequest.totalCost := SpendRequest.totalCost request;
                   SpendRequest.status := denied;
                   SpendRequest.requestedAt := SpendRequest.requestedAt request;
                   SpendRequest.respondedAt := Some (now e);
                   SpendRequest.respondedBy := SpendRequest.respondedBy request |}
                :: requestHistory s
           /\ children s' = children s
           /\ vault s' = vault s
           /\ transactions s' = transactions s
           /\ approvedNotifications s' = approvedNotifications s)
          /\ (SpendRequest.totalCost request <= ChildProfile.balance child ->
              let r := fst (approveRequest e requestId s) in
              let s' := snd (approveRequest e requestId s) in
              success r = true
              /\ find (fun c => ChildProfile.id c === SpendRequest.childId request) (children s')
                 = Some {| ChildProfile.id := ChildProfile.id child;
                            ChildProfile.name := ChildProfile.name child;
                            ChildProfile.avatar := ChildProfile.avatar child;
                            ChildProfile.balance := ChildProfile.balance child - SpendRequest.totalCost request;
                            ChildProfile.savings := ChildProfile.savings child;
                            ChildProfile.savingsInterestAccrued := ChildProfile.savingsInterestAccrued child;
                            ChildProfile.totalEarned := ChildProfile.totalEarned child;
                            ChildProfile.totalSpent := ChildProfile.totalSpent child + SpendRequest.totalCost request;
                            ChildProfile.strikes := ChildProfile.strikes child;
                            ChildProfile.pendingEarnings := ChildProfile.pendingEarnings child;
                            ChildProfile.lastInterestDate := ChildProfile.lastInterestDate child |}
              /\ Vault.balance (vault s')
                 = Z.min (Vault.maxBalance (vault s))
                         (Vault.balance (vault s) + SpendRequest.totalCost request)
              /\ (exists t,
                    transactions s' = t :: transactions s
                    /\ Transaction.type t = spend
                    /\ Transaction.childId t = ChildProfile.id child
                    /\ Transaction.amount t = - SpendRequest.totalCost request)
              /\ pendingRequests s'
                 = filter (fun r => SpendRequest.id r !== requestId) (pendingRequests s)
              /\ requestHistory s'
                 = {| SpendRequest.id := SpendRequest.id request;
                      SpendRequest.childId := SpendRequest.childId request;
                      SpendRequest.items := SpendRequest.items request;
                      SpendRequest.totalCost := SpendRequest.totalCost request;
                      SpendRequest.status := approved;
                      SpendRequest.requestedAt := SpendRequest.requestedAt request;
                      SpendRequest.respondedAt := Some (now e);
                      SpendRequest.respondedBy := SpendRequest.respondedBy request |}
                   :: requestHistory s
              /\ (exists n,
                    approvedNotifications s' = n :: approvedNotifications s
                    /\ ApprovedRequestNotification.requestId n = SpendRequest.id request
                    /\ ApprovedRequestNotification.items n = SpendRequest.items request
                    /\ ApprovedRequestNotification.totalCost n = SpendRequest.totalCost request
                    /\ ApprovedRequestNotification.approvedAt n = now e
                    /\ ApprovedRequestNotification.shownToChild n = false)).
Proof.
  intros Hmax. split.
  - intros Hnone. unfold approveRequest. now rewrite Hnone.
  - intros request Hreq. split.
    + intros Hnone. unfold approveRequest. now rewrite Hreq, Hnone.
    + intros child Hchild. split.
      * intros Hlt. unfold approveRequest. rewrite Hreq, Hchild.
        apply Z.ltb_lt in Hlt. rewrite Hlt. cbv zeta. cbn [fst snd].
        split; [reflexivity|]. split; [reflexivity|].
        exact (denyRequest_found e requestId s request Hreq).
      * intros Hle. unfold approveRequest. rewrite Hreq, Hchild.
        apply Z.ltb_ge in Hle. rewrite Hle. cbv zeta. cbn [fst snd].
        split; [reflexivity|]. split.
        { simpl.
          pose proof (find_update_same ChildProfile.id (SpendRequest.childId request)
                        (fun c => ChildProfile.id c === ChildProfile.id child)
                        (fun c => ChildUpd.totalSpent'
                                    (ChildProfile.totalSpent c + SpendRequest.totalCost request)
                                    (ChildUpd.balance'
                                       (ChildProfile.balance c - SpendRequest.totalCost request) c))
                        (children s) child (fun c => eq_refl) Hchild) as Hupd.
          cbv beta in Hupd. rewrite String.eqb_refl in Hupd. exact Hupd. }
        split; [simpl; now rewrite Hmax|].
        split; [eexists; split; [reflexivity|]; repeat split|].
        split; [reflexivity|]. split; [reflexivity|].
        eexists; split; [reflexivity|]; repeat split.
Qed.

(** C5, as stated, fails on the vault credit: with the vault at its cap an
    approved request of 20 leaves the vault balance at 1000, not 1020.  It
    is also silent on a request whose child was deleted: the approval fails
    and the request stays pending. *)
Lemma approveRequest_credit_is_capped :
  find (fun r => SpendRequest.id r === "req-z9y8x7") (pendingRequests readyToApprove)
  = Some tvRequest
  /\ Vault.balance (vault readyToApprove) = 1000
  /\ success (fst (approveRequest env1 "req-z9y8x7" readyToApprove)) = true
  /\ Vault.balance (vault (snd (approveRequest env1 "req-z9y8x7" readyToApprove)))
     = 1000
  /\ map SpendRequest.id (pendingRequests orphanRequest) = ["req-z9y8x7"]
  /\ approveRequest env1 "req-z9y8x7" orphanRequest
     = (failure MsgChildNotFound, orphanRequest).
Proof. vm_compute. repeat split. Qed.

Lemma approveRequest_spec_witness :
  let res := approveRequest env1 "req-z9y8x7" readyToApprove in
  (success (fst res) = true
   /\ find (fun c => ChildProfile.id c === "child-a1b2c3") (children (snd res))
      = Some (ChildProfile.mk "child-a1b2c3" "Alex" "👧" 0 0 0 20 20 0 0 1)
   /\ requestHistory (snd res)
      = [SpendRequest.mk "req-z9y8x7" "child-a1b2c3" [tvEpisode] 20 approved
                         (now env1) (Some (now env1)) None])
  /\ children readyToApprove = [alexWithTwenty]
  /\ map ChildProfile.balance (children (snd res)) = [0]
  /\ map ChildProfile.totalSpent (children (snd res)) = [20]
  /\ map SpendRequest.status (requestHistory (snd res)) = [approved]
  /\ map Transaction.amount (transactions (snd res)) = [-20; 20].
Proof.
  cbv zeta. split; [|vm_compute; repeat split].
  destruct (approveRequest_spec env1 "req-z9y8x7" readyToApprove eq_refl)
    as [_ Hfound].
  destruct (Hfound tvRequest eq_refl) as [_ Hchild].
  destruct (Hchild alexWithTwenty eq_refl) as [_ Hok].
  destruct Hok as (Hsucc & Hbal & _ & _ & _ & Hhist & _).
  - vm_compute. discriminate.
  - split; [exact Hsucc|]. split; [exact Hbal | exact Hhist].
Defined.

(** ** Daily reset *)

Lemma shouldResetToday_after_reset (e : Env) :
  tzOffset e <= 22 * msPerHour ->
  shouldResetToday e (getTodayDate e) = false.
Proof.
  intros Htz. unfold shouldResetToday, todayAtHour, localDateAtHour, getTodayDate.
  unfold RESET_HOUR, msPerHour, msPerDay in *.
  assert (Hnow : now e = 86400000 * (now e / 86400000) + now e mod 86400000)
    by (apply Z.div_mod; lia).
  assert (Hnowb : 0 <= now e mod 86400000 < 86400000)
    by (apply Z.mod_pos_bound; lia).
  assert (Hloc : now e + tzOffset e
                 = 86400000 * ((now e + tzOffset e) / 86400000)
                   + (now e + tzOffset e) mod 86400000)
    by (apply Z.div_mod; lia).
  assert (Hlocb : 0 <= (now e + tzOffset e) mod 86400000 < 86400000)
    by (apply Z.mod_pos_bound; lia).
  set (today := now e / 86400000) in *.
  set (localDay := (now e + tzOffset e) / 86400000) in *.
  destruct (Z.leb_spec (localDay * 86400000 + 22 * 3600000 - tzOffset e) (now e));
    destruct (Z.ltb_spec (today * 86400000 + 22 * 3600000 - tzOffset e)
                         (localDay * 86400000 + 22 * 3600000 - tzOffset e));
    destruct (Z.ltb_spec (today * 86400000 + 22 * 3600000 - tzOffset e)
                         (localDay * 86400000 + 22 * 3600000 - tzOffset e - 86400000));
    simpl; try reflexivity; lia.
Qed.

Lemma checkAndPerformDailyReset_cases (e : Env) (s : DadaState) :
  (shouldResetToday e (lastResetDate s) = false
   /\ checkAndPerformDailyReset e s = (mkResetResult false None None, s))
  \/ (shouldResetToday e (lastResetDate s) = true
      /\ didReset (fst (checkAndPerformDailyReset e s)) = true
      /\ lastResetDate (snd (checkAndPerformDailyReset e s)) = getTodayDate e).
Proof.
  unfold checkAndPerformDailyReset.
  destruct (shouldResetToday e (lastResetDate s)); simpl.
  - right. destruct (mapAccum _ _ _) as [acc updatedChildren]. repeat split.
  - left. split; reflexivity.
Qed.

(** C4. At a fixed instant, in any time zone up to 22 hours ahead of UTC
    (all civil zones lie between UTC-12 and UTC+14), two calls of
    [checkAndPerformDailyReset] in a row reset at most once: when the first
    call resets it sets [lastResetDate] to today and the second call answers
    [didReset: false] and changes nothing; when the first call does not
    reset, neither call changes anything. *)
Theorem checkAndPerformDailyReset_idempotent (e e' : Env) (s : DadaState) :
  tzOffset e <= 22 * msPerHour ->
  now e' = now e ->
  tzOffset e' = tzOffset e ->
  let first := checkAndPerformDailyReset e s in
  let second := checkAndPerformDailyReset e' (snd first) in
  didReset (fst second) = false
  /\ snd second = snd first
  /\ (didReset (fst first) = true -> lastResetDate (snd first) = getTodayDate e)
  /\ (didReset (fst first) = false -> snd first = s).
Proof.
  intros Htz Hnow Htz' first second.
  assert (Hsame : forall d, shouldResetToday e' d = shouldResetToday e d).
  { intros d. unfold shouldResetToday, todayAtHour, localDateAtHour.
    now rewrite Hnow, Htz'. }
  assert (Hsecond : second = (mkResetResult false None None, snd first)).
  { unfold second.
    destruct (checkAndPerformDailyReset_cases e s) as [[Hno Hres] | (Hyes & _ & Hdate)];
      fold first in Hres || fold first in Hdate.
    - rewrite Hres; simpl. unfold checkAndPerformDailyReset.
      now rewrite Hsame, Hno.
    - unfold checkAndPerformDailyReset at 1.
      now rewrite Hdate, Hsame, (shouldResetToday_after_reset e Htz). }
  rewrite Hsecond; simpl. split; [reflexivity|]. split; [reflexivity|].
  destruct (checkAndPerformDailyReset_cases e s) as [[Hno Hres] | (Hyes & Hdid & Hdate)];
    fold first in Hres || fold first in Hdid, Hdate.
  - rewrite Hres; simpl. split; [discriminate | reflexivity].
  - split; [intros _; exact Hdate | rewrite Hdid; discriminate].
Qed.

Lemma checkAndPerformDailyReset_idempotent_witness :
  didReset (fst (checkAndPerformDailyReset env1 twoStrikes)) = true
  /\ didReset
       (fst (checkAndPerformDailyReset env1
               (snd (checkAndPerformDailyReset env1 twoStrikes)))) = false.
Proof.
  split; [reflexivity|].
  apply (checkAndPerformDailyReset_idempotent env1 env1 twoStrikes).
  - vm_compute. discriminate.
  - reflexivity.
  - reflexivity.
Defined.

(** ** Spend requests: one pending request per child *)

Lemma step_frame_requests (e : Env) (a : Action) (s : DadaState) :
  touchesRequests a = false ->
  pendingRequests (step e a s) = pendingRequests s.
Proof.
  destruct a; simpl; try discriminate; intros _.
  all: try reflexivity.
  - frame_of deleteChild.
  - frame_of unlockParent.
  - frame_of completeTask.
  - frame_of undoTaskCompletion.
  - frame_of addStrike.
  - frame_of checkAndPerformDailyReset.
  - frame_of depositToSavings.
  - frame_of withdrawFromSavings.
  - frame_of removeFromVault.
Qed.

Lemma filter_filter_length {A} (p q : A -> bool) (l : list A) :
  (List.length (filter q (filter p l)) <= List.length (filter q l))%nat.
Proof.
  induction l as [|x l IH]; simpl; [lia|].
  destruct (p x); simpl; destruct (q x); simpl; lia.
Qed.

Lemma pendingOf_snoc_other (childId : string) (l : list SpendRequest.t) (r : SpendRequest.t) :
  SpendRequest.childId r <> childId ->
  pendingOf childId (l ++ [r]) = pendingOf childId l.
Proof.
  intros Hne. unfold pendingOf. rewrite filter_app; simpl.
  apply String.eqb_neq in Hne. rewrite Hne; simpl. apply app_nil_r.
Qed.

Lemma pendingOf_in (r : SpendRequest.t) (l : list SpendRequest.t) :
  In r l -> SpendRequest.status r = pending -> In r (pendingOf (SpendRequest.childId r) l).
Proof.
  intros Hin Hst. apply filter_In. split; [assumption|].
  now rewrite String.eqb_refl, Hst.
Qed.

Lemma createSpendRequest_cases (e : Env) (items : list RequestItem.t)
  (s : DadaState) :
  pendingRequests (step e (CreateSpendRequest items) s) = pendingRequests s
  \/ exists child r,
      getCurrentChild s = Some child
      /\ pendingOf (ChildProfile.id child) (pendingRequests s) = []
      /\ SpendRequest.childId r = ChildProfile.id child
      /\ pendingRequests (step e (CreateSpendRequest items) s)
         = pendingRequests s ++ [r].
Proof.
  simpl. unfold createSpendRequest.
  destruct (getCurrentChild s) as [child|]; [|now left].
  fold (pendingOf (ChildProfile.id child) (pendingRequests s)).
  destruct (pendingOf (ChildProfile.id child) (pendingRequests s)) eqn:Hnone;
    simpl; [|now left].
  destruct (ChildProfile.balance child <? _); simpl; [now left|].
  right. exists child. eexists.
  split; [reflexivity|]. split; [exact Hnone|]. split; [|reflexivity].
  reflexivity.
Qed.

Lemma denyRequest_cases (e : Env) (requestId : string) (s : DadaState) :
  denyRequest e requestId s = s
  \/ pendingRequests (denyRequest e requestId s)
     = filter (fun r => SpendRequest.id r !== requestId) (pendingRequests s).
Proof. unfold denyRequest. destruct (find _ _); [now right | now left]. Qed.

Lemma approveRequest_cases (e : Env) (requestId : string) (s : DadaState) :
  pendingRequests (snd (approveRequest e requestId s)) = pendingRequests s
  \/ pendingRequests (snd (approveRequest e requestId s))
     = filter (fun r => SpendRequest.id r !== requestId) (pendingRequests s).
Proof.
  unfold approveRequest.
  destruct (find _ (pendingRequests s)) eqn:Hreq; [|now left].
  destruct (find _ (children s)); [|now left].
  destruct (ChildProfile.balance _ <? _); simpl; [|now right].
  destruct (denyRequest_cases e requestId s) as [-> | ->]; [now left | now right].
Qed.

Lemma step_keeps_exclusive (e : Env) (a : Action) (s : DadaState) :
  (forall childId, (List.length (pendingOf childId (pendingRequests s)) <= 1)%nat) ->
  forall childId,
    (List.length (pendingOf childId (pendingRequests (step e a s))) <= 1)%nat.
Proof.
  intros Hinv childId.
  assert (Hfilter : forall p,
             (List.length (pendingOf childId (filter p (pendingRequests s))) <= 1)%nat).
  { intros p. unfold pendingOf.
    etransitivity; [apply filter_filter_length | apply Hinv]. }
  destruct (touchesRequests a) eqn:Htouch.
  - destruct a; try discriminate.
    + match goal with
      | |- context [CreateSpendRequest ?items] =>
          destruct (createSpendRequest_cases e items s)
            as [-> | (child & r & _ & Hnone & Hr & ->)]; [apply Hinv|]
      end.
      destruct (String.eqb_spec (SpendRequest.childId r) childId) as [Heq | Hne].
      * unfold pendingOf. rewrite filter_app, length_app.
        fold (pendingOf childId (pendingRequests s)).
        rewrite <- Heq, Hr, Hnone. simpl.
        destruct (_ && _); simpl; lia.
      * rewrite pendingOf_snoc_other by assumption. apply Hinv.
    + apply Hfilter.
    + simpl.
      match goal with
      | |- context [approveRequest e ?i s] =>
          destruct (approveRequest_cases e i s) as [-> | ->]
      end; [apply Hinv | apply Hfilter].
    + simpl.
      match goal with
      | |- context [denyRequest e ?i s] =>
          destruct (denyRequest_cases e i s) as [-> | ->]
      end; [apply Hinv | apply Hfilter].
    + simpl. lia.
  - rewrite step_frame_requests by assumption. apply Hinv.
Qed.

Lemma step_keeps_request (e : Env) (a : Action) (s : DadaState) (r : SpendRequest.t) :
  In r (pendingRequests s) ->
  releases (SpendRequest.id r) a = false ->
  In r (pendingRequests (step e a s)).
Proof.
  intros Hin Hrel.
  assert (Hfilter : forall i, (i === SpendRequest.id r) = false ->
             In r (filter (fun q => SpendRequest.id q !== i) (pendingRequests s))).
  { intros i Hi. apply filter_In. split; [assumption|].
    rewrite String.eqb_sym. now rewrite Hi. }
  destruct (touchesRequests a) eqn:Htouch.
  - destruct a; try discriminate.
    + match goal with
      | |- context [CreateSpendRequest ?items] =>
          destruct (createSpendRequest_cases e items s)
            as [-> | (child & q & _ & _ & _ & ->)]; [assumption|]
      end.
      apply in_or_app. now left.
    + now apply Hfilter.
    + simpl.
      match goal with
      | |- context [approveRequest e ?i s] =>
          destruct (approveRequest_cases e i s) as [-> | ->]
      end; [assumption | now apply Hfilter].
    + simpl.
      match goal with
      | |- context [denyRequest e ?i s] =>
          destruct (denyRequest_cases e i s) as [-> | ->]
      end; [assumption | now apply Hfilter].
  - now rewrite step_frame_requests.
Qed.

(** C8. In every reachable store each child has at most one pending
    request.  [createSpendRequest] fails and leaves the store as it is
    whenever the acting child has a pending request, and it keeps failing
    for that child after any calls other than the approval, denial or
    cancellation of that request (and [resetAll], which replaces every
    child by a new one): the request is still pending. *)
Theorem request_exclusivity :
  (forall s, reachable s ->
     forall childId,
       (List.length (pendingOf childId (pendingRequests s)) <= 1)%nat)
  /\ (forall e items s child,
        getCurrentChild s = Some child ->
        pendingOf (ChildProfile.id child) (pendingRequests s) <> [] ->
        createSpendRequest e items s = Some (failure MsgAlreadyPending, s))
  /\ (forall calls s r,
        In r (pendingRequests s) ->
        SpendRequest.status r = pending ->
        forallb (fun call => negb (releases (SpendRequest.id r) (snd call))) calls = true ->
        let s' := run calls s in
        In r (pendingRequests s')
        /\ forall e items child,
            getCurrentChild s' = Some child ->
            ChildProfile.id child = SpendRequest.childId r ->
            createSpendRequest e items s' = Some (failure MsgAlreadyPending, s')).
Proof.
  assert (Hfail : forall e items s child,
             getCurrentChild s = Some child ->
             pendingOf (ChildProfile.id child) (pendingRequests s) <> [] ->
             createSpendRequest e items s = Some (failure MsgAlreadyPending, s)).
  { intros e items s child Hchild Hsome. unfold createSpendRequest.
    rewrite Hchild. fold (pendingOf (ChildProfile.id child) (pendingRequests s)).
    destruct (pendingOf (ChildProfile.id child) (pendingRequests s)); [congruence|].
    reflexivity. }
  split; [|split; [exact Hfail|]].
  - intros s Hreach. induction Hreach as [e | e a s _ IH].
    + intros childId. simpl. lia.
    + now apply step_keeps_exclusive.
  - intros calls. induction calls as [|[e a] calls IH]; intros s r Hin Hst Hcalls s'.
    + split; [exact Hin|]. intros e items child Hchild Hid.
      apply (Hfail e items s child Hchild). rewrite Hid.
      intros Hnil. pose proof (pendingOf_in r _ Hin Hst) as Hr.
      unfold s' in Hnil; simpl in Hnil. now rewrite Hnil in Hr.
    + simpl in Hcalls. apply andb_true_iff in Hcalls. destruct Hcalls as [Ha Hrest].
      apply negb_true_iff in Ha. simpl in Ha.
      apply (IH (step e a s) r); [|assumption|assumption].
      now apply step_keeps_request.
Qed.

(** ** Conservation of currency *)

(** C1, as stated, fails.  After a top-up to the cap, undoing a completion
    worth 2 takes 2 from the child and adds nothing to the full vault: the
    total falls from 1002 to 1000.  When another child undoes a completion
    the vault is credited and nobody pays: the total rises from 1000 to 1002.
    An approval of 20 with the vault at its cap lowers the total by 20. *)
Lemma conservation_broken_by_clamps :
  totalCurrency toppedUpAfterEarning = 1002
  /\ totalCurrency (step env0 (UndoTaskCompletion "task-0") toppedUpAfterEarning)
     = 1000
  /\ totalCurrency siblingTakesOver = 1000
  /\ totalCurrency (step env0 (UndoTaskCompletion "task-0") siblingTakesOver)
     = 1002
  /\ totalCurrency readyToApprove = 1020
  /\ totalCurrency (step env1 (ApproveRequest "req-z9y8x7") readyToApprove)
     = 1000.
Proof. vm_compute. repeat split. Qed.

Lemma getCurrentChild_none (s : DadaState) :
  getCurrentChild s = None -> children s = [].
Proof.
  unfold getCurrentChild. destruct (find _ _); [discriminate|].
  now destruct (children s).
Qed.

Lemma map_update_ids (p : ChildProfile.t -> bool) (f : ChildProfile.t -> ChildProfile.t)
  (l : list ChildProfile.t) :
  (forall c, ChildProfile.id (f c) = ChildProfile.id c) ->
  map ChildProfile.id (map (fun c => if p c then f c else c) l) = map ChildProfile.id l.
Proof.
  intros Hid. rewrite map_map. apply map_ext. intros c.
  destruct (p c); [apply Hid | reflexivity].
Qed.

Lemma sumHoldings_untouched (k : string) (f : ChildProfile.t -> ChildProfile.t)
  (l : list ChildProfile.t) :
  ~ In k (map ChildProfile.id l) ->
  sumHoldings (map (fun c => if ChildProfile.id c === k then f c else c) l)
  = sumHoldings l.
Proof.
  induction l as [|c l IH]; simpl; [reflexivity|]. intros Hnot.
  destruct (String.eqb_spec (ChildProfile.id c) k) as [Heq | _]; [tauto|].
  rewrite IH by tauto. reflexivity.
Qed.

Lemma sumHoldings_update (child : ChildProfile.t) (f : ChildProfile.t -> ChildProfile.t)
  (l : list ChildProfile.t) :
  NoDup (map ChildProfile.id l) ->
  In child l ->
  sumHoldings (map (fun c => if ChildProfile.id c === ChildProfile.id child then f c else c) l)
  = sumHoldings l - holdings child + holdings (f child).
Proof.
  induction l as [|c l IH]; simpl; [tauto|].
  intros Hnodup Hin. inversion Hnodup as [|? ? Hnotin Hrest]; subst.
  destruct Hin as [-> | Hin].
  - rewrite String.eqb_refl, sumHoldings_untouched by assumption. lia.
  - destruct (String.eqb_spec (ChildProfile.id c) (ChildProfile.id child)) as [Heq | _].
    + exfalso. apply Hnotin. rewrite Heq. now apply in_map.
    + rewrite IH by assumption. lia.
Qed.

(** The books after a call that updates one child and the vault. *)
Lemma ledger_update (s s' : DadaState) (child : ChildProfile.t)
  (f : ChildProfile.t -> ChildProfile.t) (d : Z) :
  household s ->
  In child (children s) ->
  (forall c, ChildProfile.id (f c) = ChildProfile.id c) ->
  children s'
  = map (fun c => if ChildProfile.id c === ChildProfile.id child then f c else c) (children s) ->
  holdings (f child) = holdings child + d ->
  Vault.balance (vault s') = Vault.balance (vault s) - d ->
  totalCurrency s' = totalCurrency s /\ household s'.
Proof.
  intros [Hne Hnodup] Hin Hid Hchildren Hhold Hvault. split.
  - unfold totalCurrency. rewrite Hchildren, Hvault.
    rewrite sumHoldings_update by assumption. lia.
  - unfold household. rewrite Hchildren. split.
    + destruct (children s); [congruence | discriminate].
    + now rewrite map_update_ids.
Qed.

Lemma ledger_frame (s s' : DadaState) :
  household s ->
  children s' = children s ->
  vault s' = vault s ->
  totalCurrency s' = totalCurrency s /\ household s'.
Proof.
  intros Hh Hc Hv. unfold totalCurrency, household. now rewrite Hc, Hv.
Qed.

(** A call that writes neither the children nor the vault keeps the books. *)
Ltac ledger_unchanged := apply ledger_frame; [assumption | reflexivity | reflexivity].

Lemma household_current_child (s : DadaState) :
  household s -> exists child, getCurrentChild s = Some child.
Proof.
  intros [Hne _]. destruct (getCurrentChild s) eqn:Hchild; [eauto|].
  now apply getCurrentChild_none in Hchild.
Qed.

Lemma completeTask_conserves (e : Env) (taskId : string) (s : DadaState) :
  household s ->
  totalCurrency (step e (CompleteTask taskId) s) = totalCurrency s
  /\ household (step e (CompleteTask taskId) s).
Proof.
  intros Hh. destruct (household_current_child s Hh) as [child Hchild].
  cbn [step]. unfold completeTask. rewrite Hchild.
  destruct (find _ (tasks s)) as [task|]; [|ledger_unchanged].
  destruct (negb (Task.isActive task)); [ledger_unchanged|].
  cbn [todayStrikesOf].
  destruct (MAX_STRIKES <=? _)%nat; [ledger_unchanged|].
  destruct (Task.dailyMax task <=? _); [ledger_unchanged|].
  destruct (Vault.balance (vault s) <? _); [ledger_unchanged|].
  cbn [stateAfter].
  apply (ledger_update s _ child
           (fun c => ChildUpd.pendingEarnings'
                       (ChildProfile.pendingEarnings c + Task.payout task) c)
           (Task.payout task)).
  - assumption.
  - now apply getCurrentChild_in.
  - reflexivity.
  - reflexivity.
  - unfold holdings; simpl. lia.
  - reflexivity.
Qed.

Lemma undoTaskCompletion_conserves (e : Env) (taskId : string) (s : DadaState) :
  household s ->
  clamps e (UndoTaskCompletion taskId) s = false ->
  totalCurrency (step e (UndoTaskCompletion taskId) s) = totalCurrency s
  /\ household (step e (UndoTaskCompletion taskId) s).
Proof.
  intros Hh. destruct (household_current_child s Hh) as [child Hchild].
  cbn [step clamps]. unfold undoTaskCompletion. rewrite Hchild.
  destruct (find _ (tasks s)) as [task|]; [|intros _; ledger_unchanged].
  destruct (Task.completions task <=? 0); [intros _; ledger_unchanged|].
  cbn [negb andb snd]. intros Hclamp.
  apply orb_false_iff in Hclamp. destruct Hclamp as [Hcap Hfloor].
  apply Z.ltb_ge in Hcap, Hfloor.
  apply (ledger_update s _ child
           (fun c => ChildUpd.pendingEarnings'
                       (Z.max 0 (ChildProfile.pendingEarnings c - Task.payout task)) c)
           (- Task.payout task)).
  - assumption.
  - now apply getCurrentChild_in.
  - reflexivity.
  - reflexivity.
  - unfold holdings; simpl. lia.
  - simpl. lia.
Qed.

Lemma addStrike_conserves (e : Env) (reason : string) (s : DadaState) :
  household s ->
  clamps e (AddStrike reason) s = false ->
  totalCurrency (step e (AddStrike reason) s) = totalCurrency s
  /\ household (step e (AddStrike reason) s).
Proof.
  intros Hh. destruct (household_current_child s Hh) as [child Hchild].
  cbn [step clamps]. unfold addStrike. rewrite Hchild. cbn [todayStrikesOf].
  fold (strikesToday e child s).
  destruct (MAX_STRIKES <=? strikesToday e child s)%nat; [intros _; ledger_unchanged|].
  destruct (MAX_STRIKES <=? strikesToday e child s + 1)%nat;
    [|intros _; ledger_unchanged].
  cbn [negb andb stateAfter]. intros Hcap. apply Z.ltb_ge in Hcap.
  apply (ledger_update s _ child (ChildUpd.pendingEarnings' 0)
           (- ChildProfile.pendingEarnings child)).
  - assumption.
  - now apply getCurrentChild_in.
  - reflexivity.
  - reflexivity.
  - unfold holdings; simpl. lia.
  - simpl. lia.
Qed.

Lemma denyRequest_conserves (e : Env) (i : string) (s : DadaState) :
  household s ->
  totalCurrency (denyRequest e i s) = totalCurrency s
  /\ household (denyRequest e i s).
Proof.
  intros Hh. unfold denyRequest. destruct (find _ _); ledger_unchanged.
Qed.

Lemma approveRequest_conserves (e : Env) (i : string) (s : DadaState) :
  household s ->
  clamps e (ApproveRequest i) s = false ->
  totalCurrency (step e (ApproveRequest i) s) = totalCurrency s
  /\ household (step e (ApproveRequest i) s).
Proof.
  intros Hh. cbn [step clamps]. unfold approveRequest.
  destruct (find _ (pendingRequests s)) as [request|]; [|intros _; ledger_unchanged].
  destruct (find _ (children s)) as [child|] eqn:Hchild;
    [|intros _; ledger_unchanged].
  destruct (ChildProfile.balance child <? SpendRequest.totalCost request);
    [intros _; now apply denyRequest_conserves|].
  cbn [negb andb snd]. intros Hcap. apply Z.ltb_ge in Hcap.
  apply (ledger_update s _ child
           (fun c => ChildUpd.totalSpent'
                       (ChildProfile.totalSpent c + SpendRequest.totalCost request)
                       (ChildUpd.balance'
                          (ChildProfile.balance c - SpendRequest.totalCost request) c))
           (- SpendRequest.totalCost request)).
  - assumption.
  - now apply find_some in Hchild.
  - reflexivity.
  - reflexivity.
  - unfold holdings; simpl. lia.
  - simpl. lia.
Qed.

Lemma ledger_step (e : Env) (a : Action) (s : DadaState) :
  household s ->
  isLedgerCall a = true ->
  clamps e a s = false ->
  totalCurrency (step e a s) = totalCurrency s + topUp a s
  /\ household (step e a s).
Proof.
  intros Hh Hcall Hclamp. destruct a; try discriminate; cbn [topUp].
  - rewrite Z.add_0_r. now apply completeTask_conserves.
  - rewrite Z.add_0_r. now apply undoTaskCompletion_conserves.
  - rewrite Z.add_0_r. now apply addStrike_conserves.
  - rewrite Z.add_0_r. now apply approveRequest_conserves.
  - rewrite Z.add_0_r. now apply denyRequest_conserves.
  - split; [|exact Hh]. unfold totalCurrency; simpl. lia.
Qed.

(** C1, amended.  In a household (at least one child, distinct child ids),
    along every sequence of completeTask, undoTaskCompletion, addStrike,
    approveRequest, denyRequest and addToVault calls in which no clamp cuts
    an amount (no vault credit above maxBalance, no undo below 0 pending
    earnings), [vault.balance + sum (balance + savings + pendingEarnings)]
    changes by the top-ups of [addToVault] and by nothing else. *)
Theorem conservation_unless_clamped (calls : list (Env * Action))
  (s : DadaState) :
  household s ->
  unclamped calls s = true ->
  totalCurrency (run calls s) = totalCurrency s + toppedUp calls s
  /\ household (run calls s).
Proof.
  revert s. induction calls as [|[e a] calls IH]; intros s Hh Hrun; simpl.
  - split; [lia | exact Hh].
  - simpl in Hrun. apply andb_true_iff in Hrun. destruct Hrun as [Hhead Hrest].
    apply andb_true_iff in Hhead. destruct Hhead as [Hcall Hclamp].
    apply negb_true_iff in Hclamp.
    destruct (ledger_step e a s Hh Hcall Hclamp) as [Hstep Hh'].
    destruct (IH (step e a s) Hh' Hrest) as [Htotal Hh''].
    split; [lia | exact Hh''].
Qed.

Lemma conservation_unless_clamped_witness :
  totalCurrency (run ledgerDay (initialState env0))
  = totalCurrency (initialState env0) + toppedUp ledgerDay (initialState env0).
Proof.
  refine (proj1 (conservation_unless_clamped ledgerDay (initialState env0) _ _)).
  - split; [discriminate|]. simpl. constructor; [intros []|constructor].
  - vm_compute. reflexivity.
Defined.

(** ** The vault cap

    No action writes [maxBalance]: in every reachable store it is the
    constant the clamps use, which is what the properties above assume. *)

Lemma step_maxBalance (e : Env) (a : Action) (s : DadaState) :
  Vault.maxBalance (vault s) = VAULT_MAX ->
  Vault.maxBalance (vault (step e a s)) = VAULT_MAX.
Proof.
  intros Hmax. destruct a; cbn [step]; try exact Hmax; try reflexivity.
  - unfold deleteChild; repeat break_match; exact Hmax.
  - unfold unlockParent; repeat break_match; exact Hmax.
  - unfold completeTask, stateAfter; repeat break_match; exact Hmax.
  - unfold undoTaskCompletion; repeat break_match; exact Hmax.
  - unfold addStrike, stateAfter; repeat break_match; exact Hmax.
  - unfold checkAndPerformDailyReset; repeat break_match; exact Hmax.
  - unfold depositToSavings, stateAfter; repeat break_match; exact Hmax.
  - unfold withdrawFromSavings, stateAfter; repeat break_match; exact Hmax.
  - unfold createSpendRequest, stateAfter; repeat break_match; exact Hmax.
  - unfold approveRequest, denyRequest; repeat break_match; exact Hmax.
  - unfold denyRequest; repeat break_match; exact Hmax.
  - unfold removeFromVault; repeat break_match; exact Hmax.
Qed.

Lemma reachable_maxBalance (s : DadaState) :
  reachable s -> Vault.maxBalance (vault s) = VAULT_MAX.
Proof.
  induction 1 as [e | e a s _ IH]; [reflexivity | now apply step_maxBalance].
Qed.

(** ** The reset and the books

    The daily reset moves pending earnings into the balance, which keeps
    the total, and pays savings interest out of nowhere: the total grows by
    the interest the call reports. *)

Lemma resetChild_holdings (e : Env) (today : DateString) (acc : ResetAcc)
  (child : ChildProfile.t) :
  0 <= ChildProfile.pendingEarnings child ->
  holdings (snd (resetChild e today acc child)) - holdings child
  = totalInterestEarned (fst (resetChild e today acc child))
    - totalInterestEarned acc.
Proof.
  intros Hpending. unfold resetChild.
  destruct (Z.ltb_spec 0 (ChildProfile.pendingEarnings child));
    destruct (calculateDailyInterest (ChildProfile.savings child)) as [wholeAmount newAccrued];
    destruct (0 <? wholeAmount); unfold holdings; simpl; lia.
Qed.

Lemma mapAccum_resetChild_holdings (e : Env) (today : DateString)
  (l : list ChildProfile.t) (acc : ResetAcc) :
  Forall (fun c => 0 <= ChildProfile.pendingEarnings c) l ->
  sumHoldings (snd (mapAccum (resetChild e today) acc l)) - sumHoldings l
  = totalInterestEarned (fst (mapAccum (resetChild e today) acc l))
    - totalInterestEarned acc.
Proof.
  revert acc. induction l as [|c l IH]; intros acc Hall; simpl; [lia|].
  inversion Hall as [|? ? Hc Hl]; subst.
  pose proof (resetChild_holdings e today acc c Hc) as Hstep.
  destruct (resetChild e today acc c) as [acc1 c'].
  specialize (IH acc1 Hl).
  destruct (mapAccum (resetChild e today) acc1 l) as [acc2 l'].
  simpl in *. lia.
Qed.

(** X1. When [checkAndPerformDailyReset] resets a store whose pending earnings
    are not negative, the vault is untouched and the total currency grows by
    exactly the [interestEarned] it reports. *)
Theorem reset_adds_the_interest (e : Env) (s : DadaState) :
  Forall (fun c => 0 <= ChildProfile.pendingEarnings c) (children s) ->
  shouldResetToday e (lastResetDate s) = true ->
  let res := checkAndPerformDailyReset e s in
  didReset (fst res) = true
  /\ vault (snd res) = vault s
  /\ exists paid,
      interestEarned (fst res) = Some paid
      /\ totalCurrency (snd res) = totalCurrency s + paid.
Proof.
  intros Hall Hdue. cbv zeta. unfold checkAndPerformDailyReset. rewrite Hdue.
  cbn [negb].
  pose proof (mapAccum_resetChild_holdings e (getTodayDate e) (children s)
                (mkResetAcc 0 0 [] 0) Hall) as Hsum.
  destruct (mapAccum _ _ (children s)) as [acc updatedChildren].
  cbn [fst snd] in *. split; [reflexivity|]. split; [reflexivity|].
  eexists. split; [reflexivity|].
  unfold totalCurrency; simpl in *. lia.
Qed.

(** * Further properties of the store *)

(** ** When a reset is due *)

(** Quotient and remainder of an instant by the length of a day. *)
Ltac day_of x :=
  let q := fresh "day" in
  let r := fresh "ms" in
  let Hq := fresh "Hday" in
  let Hr := fresh "Hms" in
  assert (Hq : x = 86400000 * (x / 86400000) + x mod 86400000)
    by (apply Z.div_mod; lia);
  assert (Hr : 0 <= x mod 86400000 < 86400000)
    by (apply Z.mod_pos_bound; lia);
  set (q := x / 86400000) in *; set (r := x mod 86400000) in *.

Lemma shouldResetToday_threshold (e : Env) (lastResetDate : DateString) :
  shouldResetToday e lastResetDate = true
  <-> localDateAtHour e (lastResetDate + 1) RESET_HOUR <= now e.
Proof.
  unfold shouldResetToday, todayAtHour, localDateAtHour, RESET_HOUR,
    msPerHour, msPerDay.
  day_of (now e + tzOffset e).
  destruct (Z.leb_spec (day * 86400000 + 22 * 3600000 - tzOffset e) (now e));
    destruct (Z.ltb_spec (lastResetDate * 86400000 + 22 * 3600000 - tzOffset e)
                         (day * 86400000 + 22 * 3600000 - tzOffset e));
    destruct (Z.ltb_spec (lastResetDate * 86400000 + 22 * 3600000 - tzOffset e)
                         (day * 86400000 + 22 * 3600000 - tzOffset e - 86400000));
    simpl; split; intros H2; try reflexivity; try discriminate; lia.
Qed.

(** X3. The two tests of [shouldResetToday] amount to one threshold: a reset
    is due exactly from RESET_HOUR, local time, of the day after
    [lastResetDate]. *)
Theorem shouldResetToday_due_iff (e : Env) (lastResetDate : DateString) :
  shouldResetToday e lastResetDate = true
  <-> localDateAtHour e (lastResetDate + 1) RESET_HOUR <= now e.
Proof. apply shouldResetToday_threshold. Qed.


Lemma didReset_is_shouldResetToday (e : Env) (s : DadaState) :
  didReset (fst (checkAndPerformDailyReset e s))
  = shouldResetToday e (lastResetDate s).
Proof.
  destruct (checkAndPerformDailyReset_cases e s) as [[-> ->] | (-> & -> & _)];
    reflexivity.
Qed.

Lemma lastResetDate_after_reset (e : Env) (s : DadaState) :
  shouldResetToday e (lastResetDate s) = true ->
  lastResetDate (snd (checkAndPerformDailyReset e s)) = getTodayDate e.
Proof.
  intros Hdue.
  destruct (checkAndPerformDailyReset_cases e s) as [[Hno _] | (_ & _ & ->)];
    [congruence | reflexivity].
Qed.

(** X5. Where the UTC date and the local date agree at the instant of a reset
    made at or after the local cutover (any zone from UTC to UTC+22, for
    one), the next reset happens exactly from the instant
    [getNextResetTime] announced. *)
Theorem next_reset_at_announced_time (e e' : Env) (s : DadaState) :
  shouldResetToday e (lastResetDate s) = true ->
  todayAtHour e RESET_HOUR <= now e ->
  getTodayDate e = (now e + tzOffset e) / msPerDay ->
  tzOffset e' = tzOffset e ->
  didReset (fst (checkAndPerformDailyReset e'
                   (snd (checkAndPerformDailyReset e s)))) = true
  <-> getNextResetTime e <= now e'.
Proof.
  intros Hdue Hpast Hsame Htz.
  rewrite didReset_is_shouldResetToday, (lastResetDate_after_reset e s Hdue).
  rewrite shouldResetToday_threshold, Hsame.
  unfold getNextResetTime.
  apply Z.leb_le in Hpast. rewrite Hpast.
  unfold todayAtHour, localDateAtHour. rewrite Htz.
  unfold msPerDay, msPerHour, RESET_HOUR. lia.
Qed.

(** X6. West of UTC-2 the UTC date is already tomorrow's at the local cutover:
    a reset made at or after the cutover records tomorrow's date, and the
    next reset is due a full day after the instant [getNextResetTime]
    announced, the cutover in between is passed over. *)
Theorem next_reset_skips_a_day_west (e e' : Env) (s : DadaState) :
  shouldResetToday e (lastResetDate s) = true ->
  todayAtHour e RESET_HOUR <= now e ->
  - 24 * msPerHour < tzOffset e <= - 2 * msPerHour ->
  tzOffset e' = tzOffset e ->
  didReset (fst (checkAndPerformDailyReset e'
                   (snd (checkAndPerformDailyReset e s)))) = true
  <-> getNextResetTime e + msPerDay <= now e'.
Proof.
  intros Hdue Hpast Hwest Htz.
  rewrite didReset_is_shouldResetToday, (lastResetDate_after_reset e s Hdue).
  rewrite shouldResetToday_threshold.
  unfold getNextResetTime.
  pose proof Hpast as Hpast'. apply Z.leb_le in Hpast'. rewrite Hpast'.
  unfold getTodayDate, todayAtHour, localDateAtHour in *. rewrite Htz.
  unfold msPerDay, msPerHour, RESET_HOUR in *.
  day_of (now e + tzOffset e). day_of (now e).
  assert (day0 = day + 1) by lia. lia.
Qed.

Lemma next_reset_at_announced_time_witness :
  didReset (fst (checkAndPerformDailyReset env2
                   (snd (checkAndPerformDailyReset env1 twoStrikes)))) = true
  <-> getNextResetTime env1 <= now env2.
Proof.
  apply (next_reset_at_announced_time env1 env2 twoStrikes).
  - reflexivity.
  - vm_compute. discriminate.
  - reflexivity.
  - reflexivity.
Defined.

Lemma next_reset_skips_a_day_west_witness :
  didReset (fst (checkAndPerformDailyReset envWestNextEvening
                   (snd (checkAndPerformDailyReset envWest twoStrikes)))) = true
  <-> getNextResetTime envWest + msPerDay <= now envWestNextEvening.
Proof.
  apply (next_reset_skips_a_day_west envWest envWestNextEvening twoStrikes).
  - reflexivity.
  - vm_compute. discriminate.
  - vm_compute. split; [reflexivity | discriminate].
  - reflexivity.
Defined.

(** ** Savings *)

Lemma getCurrentChild_update (s s' : DadaState) (child : ChildProfile.t)
  (f : ChildProfile.t -> ChildProfile.t) :
  (forall c, ChildProfile.id (f c) = ChildProfile.id c) ->
  getCurrentChild s = Some child ->
  currentChildId s' = currentChildId s ->
  children s'
  = map (fun c => if ChildProfile.id c === ChildProfile.id child then f c else c)
        (children s) ->
  getCurrentChild s' = Some (f child).
Proof.
  intros Hid Hchild Hcur Hchildren. unfold getCurrentChild in *.
  rewrite Hcur, Hchildren.
  pose proof (currentChild_update (currentChildId s)
                (fun c => ChildProfile.id c === ChildProfile.id child) f
                (children s) child Hid Hchild) as Hupd.
  cbv beta in Hupd. now rewrite String.eqb_refl in Hupd.
Qed.

(** X7. [depositToSavings] refuses an amount that is not positive or exceeds
    the acting child's balance and leaves the store as it is; otherwise it
    moves the amount from the balance to the savings, leaves the vault alone
    and logs one [savings_deposit] transaction of minus the amount. *)
Theorem depositToSavings_spec (e : Env) (amount : Z) (s : DadaState)
  (child : ChildProfile.t) :
  getCurrentChild s = Some child ->
  (amount <= 0 \/ ChildProfile.balance child < amount ->
   exists m, depositToSavings e amount s = Some (failure m, s))
  /\ (0 < amount <= ChildProfile.balance child ->
      exists r s',
        depositToSavings e amount s = Some (r, s')
        /\ success r = true
        /\ getCurrentChild s'
           = Some (ChildUpd.savings' (ChildProfile.savings child + amount)
                     (ChildUpd.balance' (ChildProfile.balance child - amount) child))
        /\ vault s' = vault s
        /\ exists t,
            transactions s' = t :: transactions s
            /\ Transaction.type t = savings_deposit
            /\ Transaction.childId t = ChildProfile.id child
            /\ Transaction.amount t = - amount).
Proof.
  intros Hchild. unfold depositToSavings. rewrite Hchild. split.
  - intros Hbad. destruct (Z.leb_spec amount 0); [eauto|].
    destruct (Z.ltb_spec (ChildProfile.balance child) amount); [eauto | lia].
  - intros Hok. destruct (Z.leb_spec amount 0); [lia|].
    destruct (Z.ltb_spec (ChildProfile.balance child) amount); [lia|].
    eexists. eexists. split; [reflexivity|]. split; [reflexivity|].
    split; [|split; [reflexivity|]].
    + apply (getCurrentChild_update s _ child
               (fun c => ChildUpd.savings' (ChildProfile.savings c + amount)
                           (ChildUpd.balance' (ChildProfile.balance c - amount) c)));
        [reflexivity | assumption | reflexivity | reflexivity].
    + eexists. split; [reflexivity|]. repeat split.
Qed.

(** X8. [withdrawFromSavings] refuses an amount that is not positive or exceeds
    the acting child's savings and leaves the store as it is; otherwise it
    moves the amount from the savings to the balance, leaves the vault alone
    and logs one [savings_withdrawal] transaction of the amount. *)
Theorem withdrawFromSavings_spec (e : Env) (amount : Z) (s : DadaState)
  (child : ChildProfile.t) :
  getCurrentChild s = Some child ->
  (amount <= 0 \/ ChildProfile.savings child < amount ->
   exists m, withdrawFromSavings e amount s = Some (failure m, s))
  /\ (0 < amount <= ChildProfile.savings child ->
      exists r s',
        withdrawFromSavings e amount s = Some (r, s')
        /\ success r = true
        /\ getCurrentChild s'
           = Some {| ChildProfile.id := ChildProfile.id child;
                      ChildProfile.name := ChildProfile.name child;
                      ChildProfile.avatar := ChildProfile.avatar child;
                      ChildProfile.balance := ChildProfile.balance child + amount;
                      ChildProfile.savings := ChildProfile.savings child - amount;
                      ChildProfile.savingsInterestAccrued := ChildProfile.savingsInterestAccrued child;
                      ChildProfile.totalEarned := ChildProfile.totalEarned child;
                      ChildProfile.totalSpent := ChildProfile.totalSpent child;
                      ChildProfile.strikes := ChildProfile.strikes child;
                      ChildProfile.pendingEarnings := ChildProfile.pendingEarnings child;
                      ChildProfile.lastInterestDate := ChildProfile.lastInterestDate child |}
        /\ vault s' = vault s
        /\ exists t,
            transactions s' = t :: transactions s
            /\ Transaction.type t = savings_withdrawal
            /\ Transaction.childId t = ChildProfile.id child
            /\ Transaction.amount t = amount).
Proof.
  intros Hchild. unfold withdrawFromSavings. rewrite Hchild. split.
  - intros Hbad. destruct (Z.leb_spec amount 0); [eauto|].
    destruct (Z.ltb_spec (ChildProfile.savings child) amount); [eauto | lia].
  - intros Hok. destruct (Z.leb_spec amount 0); [lia|].
    destruct (Z.ltb_spec (ChildProfile.savings child) amount); [lia|].
    eexists. eexists. split; [reflexivity|]. split; [reflexivity|].
    split; [|split; [reflexivity|]].
    + apply (getCurrentChild_update s _ child
               (fun c => ChildUpd.savings' (ChildProfile.savings c - amount)
                           (ChildUpd.balance' (ChildProfile.balance c + amount) c)));
        [reflexivity | assumption | reflexivity | reflexivity].
    + eexists. split; [reflexivity|]. repeat split.
Qed.

Lemma depositToSavings_spec_witness :
  exists r s',
    depositToSavings env0 30 saver = Some (r, s')
    /\ success r = true
    /\ getCurrentChild s'
       = Some (ChildProfile.mk "child-a1b2c3" "Alex" "👧" 20 280 0 300 0 0 7 0).
Proof.
  destruct (depositToSavings_spec env0 30 saver
              (ChildProfile.mk "child-a1b2c3" "Alex" "👧" 50 250 0 300 0 0 7 0)
              eq_refl) as [_ Hok].
  destruct Hok as (r & s' & Hrun & Hsucc & Hchild & _).
  - vm_compute. split; [reflexivity | discriminate].
  - exists r, s'. split; [exact Hrun|]. split; [exact Hsucc | exact Hchild].
Defined.

Lemma withdrawFromSavings_spec_witness :
  (exists m, withdrawFromSavings env0 251 saver = Some (failure m, saver))
  /\ (exists r s',
        withdrawFromSavings env0 30 saver = Some (r, s')
        /\ success r = true
        /\ getCurrentChild s'
           = Some (ChildProfile.mk "child-a1b2c3" "Alex" "👧" 80 220 0 300 0 0 7 0)
        /\ exists t, transactions s' = t :: transactions saver
                     /\ Transaction.type t = savings_withdrawal
                     /\ Transaction.amount t = 30)
  /\ option_map
       (fun rs => (map ChildProfile.balance (children (snd rs)),
                   map ChildProfile.savings (children (snd rs)),
                   map Transaction.amount (transactions (snd rs))))
       (withdrawFromSavings env0 30 saver)
     = Some ([80], [220], [30]).
Proof.
  split; [|split; [|vm_compute; reflexivity]].
  - destruct (withdrawFromSavings_spec env0 251 saver
                (ChildProfile.mk "child-a1b2c3" "Alex" "👧" 50 250 0 300 0 0 7 0)
                eq_refl) as [Hbad _].
    apply Hbad. right. vm_compute. reflexivity.
  - destruct (withdrawFromSavings_spec env0 30 saver
                (ChildProfile.mk "child-a1b2c3" "Alex" "👧" 50 250 0 300 0 0 7 0)
                eq_refl) as [_ Hok].
    destruct Hok as (r & s' & Hrun & Hsucc & Hchild & _ & t & Ht & Htype & _ & Hamt).
    + vm_compute. split; [reflexivity | discriminate].
    + exists r, s'. split; [exact Hrun|]. split; [exact Hsucc|].
      split; [exact Hchild|]. exists t. split; [exact Ht|].
      split; [exact Htype | exact Hamt].
Defined.

Lemma depositToSavings_ok (e : Env) (amount : Z) (s : DadaState)
  (child : ChildProfile.t) :
  getCurrentChild s = Some child ->
  0 < amount <= ChildProfile.balance child ->
  step e (DepositToSavings amount) s
  = set_transactions
      (Transaction.mk (String.append "txn-" (random e 0)) (ChildProfile.id child)
                      savings_deposit (- amount) (DescToSavings amount) (now e)
                      None None None :: transactions s)
      (set_children
         (map (fun c =>
                 if ChildProfile.id c === ChildProfile.id child
                 then ChildUpd.savings' (ChildProfile.savings c + amount)
                        (ChildUpd.balance' (ChildProfile.balance c - amount) c)
                 else c)
              (children s)) s).
Proof.
  intros Hchild Hok. cbn [step]. unfold depositToSavings. rewrite Hchild.
  destruct (Z.leb_spec amount 0); [lia|].
  destruct (Z.ltb_spec (ChildProfile.balance child) amount); [lia|]. reflexivity.
Qed.

Lemma withdrawFromSavings_ok (e : Env) (amount : Z) (s : DadaState)
  (child : ChildProfile.t) :
  getCurrentChild s = Some child ->
  0 < amount <= ChildProfile.savings child ->
  step e (WithdrawFromSavings amount) s
  = set_transactions
      (Transaction.mk (String.append "txn-" (random e 0)) (ChildProfile.id child)
                      savings_withdrawal amount (DescFromSavings amount) (now e)
                      None None None :: transactions s)
      (set_children
         (map (fun c =>
                 if ChildProfile.id c === ChildProfile.id child
                 then ChildUpd.savings' (ChildProfile.savings c - amount)
                        (ChildUpd.balance' (ChildProfile.balance c + amount) c)
                 else c)
              (children s)) s).
Proof.
  intros Hchild Hok. cbn [step]. unfold withdrawFromSavings. rewrite Hchild.
  destruct (Z.leb_spec amount 0); [lia|].
  destruct (Z.ltb_spec (ChildProfile.savings child) amount); [lia|]. reflexivity.
Qed.

(** X9. A deposit followed by the withdrawal of the same amount gives every
    child its balance and savings back and never touches the vault; the log
    keeps both moves, which cancel. *)
Theorem savings_round_trip (e1 e2 : Env) (amount : Z) (s : DadaState)
  (child : ChildProfile.t) :
  getCurrentChild s = Some child ->
  0 < amount <= ChildProfile.balance child ->
  0 <= ChildProfile.savings child ->
  let s2 := step e2 (WithdrawFromSavings amount)
                 (step e1 (DepositToSavings amount) s) in
  children s2 = children s
  /\ vault s2 = vault s
  /\ exists t2 t1,
      transactions s2 = t2 :: t1 :: transactions s
      /\ Transaction.type t1 = savings_deposit
      /\ Transaction.type t2 = savings_withdrawal
      /\ Transaction.amount t1 + Transaction.amount t2 = 0.
Proof.
  intros Hchild Hok Hsav. cbv zeta.
  rewrite (depositToSavings_ok e1 amount s child Hchild Hok).
  set (f1 := fun c => ChildUpd.savings' (ChildProfile.savings c + amount)
                        (ChildUpd.balance' (ChildProfile.balance c - amount) c)).
  set (s1 := set_transactions _ _).
  assert (Hchild1 : getCurrentChild s1 = Some (f1 child)).
  { apply (getCurrentChild_update s s1 child f1);
      [reflexivity | assumption | reflexivity | reflexivity]. }
  rewrite (withdrawFromSavings_ok e2 amount s1 (f1 child) Hchild1)
    by (unfold f1; simpl; lia).
  split; [|split; [reflexivity|]].
  - cbn [children set_transactions set_children s1]. rewrite map_map.
    rewrite <- (map_id (children s)) at 2. apply map_ext. intros c.
    unfold f1. cbn [ChildProfile.id ChildUpd.savings' ChildUpd.balance'].
    destruct (ChildProfile.id c === ChildProfile.id child) eqn:Hc;
      cbn [ChildProfile.id ChildUpd.savings' ChildUpd.balance']; rewrite Hc;
      [|reflexivity].
    destruct c; unfold ChildUpd.savings', ChildUpd.balance'; simpl. f_equal; lia.
  - eexists. eexists. split; [reflexivity|]. simpl. repeat split. lia.
Qed.

Lemma savings_round_trip_witness :
  children (step env1 (WithdrawFromSavings 30)
              (step env0 (DepositToSavings 30) saver)) = children saver.
Proof.
  refine (proj1 (savings_round_trip env0 env1 30 saver
                   (ChildProfile.mk "child-a1b2c3" "Alex" "👧" 50 250 0 300 0 0 7 0)
                   eq_refl _ _)).
  - vm_compute. split; [reflexivity | discriminate].
  - vm_compute. discriminate.
Defined.

(** X10. Moving money between balance and savings keeps the books: in a
    household the total currency is the same after [depositToSavings] and
    after [withdrawFromSavings], whatever the amount. *)
Theorem savings_moves_conserve (e : Env) (amount : Z) (s : DadaState) :
  household s ->
  totalCurrency (step e (DepositToSavings amount) s) = totalCurrency s
  /\ totalCurrency (step e (WithdrawFromSavings amount) s) = totalCurrency s.
Proof.
  intros Hh. destruct (household_current_child s Hh) as [child Hchild]. split.
  - cbn [step]. unfold depositToSavings. rewrite Hchild.
    destruct (amount <=? 0); [reflexivity|].
    destruct (ChildProfile.balance child <? amount); [reflexivity|].
    cbn [stateAfter].
    apply (ledger_update s _ child
             (fun c => ChildUpd.savings' (ChildProfile.savings c + amount)
                         (ChildUpd.balance' (ChildProfile.balance c - amount) c)) 0);
      [assumption | now apply getCurrentChild_in | reflexivity | reflexivity
      | unfold holdings; simpl; lia | simpl; lia].
  - cbn [step]. unfold withdrawFromSavings. rewrite Hchild.
    destruct (amount <=? 0); [reflexivity|].
    destruct (ChildProfile.savings child <? amount); [reflexivity|].
    cbn [stateAfter].
    apply (ledger_update s _ child
             (fun c => ChildUpd.savings' (ChildProfile.savings c - amount)
                         (ChildUpd.balance' (ChildProfile.balance c + amount) c)) 0);
      [assumption | now apply getCurrentChild_in | reflexivity | reflexivity
      | unfold holdings; simpl; lia | simpl; lia].
Qed.

Lemma savings_moves_conserve_witness :
  totalCurrency (step env0 (DepositToSavings 30) saver) = totalCurrency saver.
Proof.
  refine (proj1 (savings_moves_conserve env0 30 saver _)).
  split; [discriminate|]. simpl. constructor; [intros []|constructor].
Defined.

(** ** Spend requests: creation, settlement, notification *)

Lemma fold_left_sum {A} (f : A -> Z) (l : list A) (a : Z) :
  fold_left (fun sum x => sum + f x) l a = a + sumOver f l.
Proof.
  revert a. induction l as [|x l IH]; intros a; simpl; [lia|].
  rewrite IH. lia.
Qed.

(** X11. For an acting child without a pending request, [createSpendRequest]
    prices the cart at the sum of [cost * quantity].  A cart above the
    balance is refused and nothing changes; otherwise one pending request
    with that total and these items is appended for the child, and neither
    the children nor the vault nor the log are written: nothing is debited
    before the approval. *)
Theorem createSpendRequest_spec (e : Env) (items : list RequestItem.t)
  (s : DadaState) (child : ChildProfile.t) :
  getCurrentChild s = Some child ->
  pendingOf (ChildProfile.id child) (pendingRequests s) = [] ->
  let total :=
    sumOver (fun i => RequestItem.cost i * RequestItem.quantity i) items in
  (ChildProfile.balance child < total ->
   exists m, createSpendRequest e items s = Some (failure m, s))
  /\ (total <= ChildProfile.balance child ->
      exists r s' request,
        createSpendRequest e items s = Some (r, s')
        /\ success r = true
        /\ requestId r = Some (SpendRequest.id request)
        /\ pendingRequests s' = pendingRequests s ++ [request]
        /\ SpendRequest.childId request = ChildProfile.id child
        /\ SpendRequest.items request = items
        /\ SpendRequest.totalCost request = total
        /\ SpendRequest.status request = pending
        /\ children s' = children s
        /\ vault s' = vault s
        /\ transactions s' = transactions s
        /\ requestHistory s' = requestHistory s).
Proof.
  intros Hchild Hnone total. unfold createSpendRequest. rewrite Hchild.
  fold (pendingOf (ChildProfile.id child) (pendingRequests s)). rewrite Hnone.
  cbn [List.length Nat.ltb Nat.leb].
  rewrite fold_left_sum, Z.add_0_l. fold total. split.
  - intros Hlt. apply Z.ltb_lt in Hlt. rewrite Hlt. eauto.
  - intros Hle. apply Z.ltb_ge in Hle. rewrite Hle.
    eexists. eexists. eexists. split; [reflexivity|]. repeat split.
Qed.

Lemma createSpendRequest_spec_witness :
  exists r s' request,
    createSpendRequest env1 [tvEpisode] saver = Some (r, s')
    /\ success r = true
    /\ pendingRequests s' = [request]
    /\ SpendRequest.totalCost request = 20
    /\ children s' = children saver.
Proof.
  destruct (createSpendRequest_spec env1 [tvEpisode] saver
              (ChildProfile.mk "child-a1b2c3" "Alex" "👧" 50 250 0 300 0 0 7 0)
              eq_refl eq_refl) as [_ Hok].
  destruct Hok as (r & s' & request & Hrun & Hsucc & _ & Hpending & _ & _
                   & Htotal & _ & Hchildren & _).
  - vm_compute. discriminate.
  - exists r, s', request. repeat split; assumption.
Defined.

Lemma find_filter_out {A} (key : A -> string) (k : string) (l : list A) :
  find (fun x => key x === k) (filter (fun x => key x !== k) l) = None.
Proof.
  induction l as [|x l IH]; simpl; [reflexivity|].
  destruct (key x === k) eqn:Hx; simpl; [assumption|]. now rewrite Hx.
Qed.

Lemma settled_when_not_found (e : Env) (i : string) (s : DadaState) :
  find (fun r => SpendRequest.id r === i) (pendingRequests s) = None ->
  approveRequest e i s = (failure MsgRequestNotFound, s)
  /\ denyRequest e i s = s.
Proof.
  intros Hnone. unfold approveRequest, denyRequest. now rewrite Hnone.
Qed.

(** X12. A settled request is gone for good.  After [denyRequest],
    [cancelSpendRequest], or an [approveRequest] that did not stop at a
    missing child, no pending request has the id any more: a further
    approval answers 'Request not found' and, like a further denial,
    changes nothing. *)
Theorem settled_request_is_gone (e e' : Env) (i : string) (s : DadaState) :
  let gone s' :=
    find (fun r => SpendRequest.id r === i) (pendingRequests s') = None
    /\ approveRequest e' i s' = (failure MsgRequestNotFound, s')
    /\ denyRequest e' i s' = s' in
  gone (denyRequest e i s)
  /\ gone (cancelSpendRequest i s)
  /\ (message (fst (approveRequest e i s)) <> MsgChildNotFound ->
      gone (snd (approveRequest e i s))).
Proof.
  cbv zeta.
  assert (Hgone : forall s', find (fun r => SpendRequest.id r === i)
                                  (pendingRequests s') = None ->
                  find (fun r => SpendRequest.id r === i) (pendingRequests s') = None
                  /\ approveRequest e' i s' = (failure MsgRequestNotFound, s')
                  /\ denyRequest e' i s' = s').
  { intros s' Hnone. split; [exact Hnone|]. now apply settled_when_not_found. }
  assert (Hdeny : find (fun r => SpendRequest.id r === i)
                       (pendingRequests (denyRequest e i s)) = None).
  { unfold denyRequest.
    destruct (find _ (pendingRequests s)) eqn:Hfind; [|exact Hfind].
    apply (find_filter_out SpendRequest.id). }
  split; [now apply Hgone|]. split.
  - apply Hgone. apply (find_filter_out SpendRequest.id).
  - intros Hmsg. apply Hgone. revert Hmsg. unfold approveRequest.
    destruct (find _ (pendingRequests s)) eqn:Hfind; [|intros _; exact Hfind].
    destruct (find _ (children s)); [|simpl; congruence].
    destruct (_ <? _); intros _; [exact Hdeny|].
    apply (find_filter_out SpendRequest.id).
Qed.

(** X13. The transaction log and the request history are append-only: after any
    call but [resetAll] the former log and history are still there, below
    what the call has added. *)
Theorem log_is_append_only (e : Env) (a : Action) (s : DadaState) :
  a <> ResetAll ->
  (exists added, transactions (step e a s) = added ++ transactions s)
  /\ (exists added, requestHistory (step e a s) = added ++ requestHistory s).
Proof.
  intros Hnot.
  assert (Hnil : forall s', transactions s' = transactions s ->
                            requestHistory s' = requestHistory s ->
             (exists added, transactions s' = added ++ transactions s)
             /\ (exists added, requestHistory s' = added ++ requestHistory s)).
  { intros s' -> ->. split; exists []; reflexivity. }
  destruct a; cbn [step]; try (apply Hnil; reflexivity); try congruence.
  - unfold deleteChild. repeat break_match; apply Hnil; reflexivity.
  - unfold unlockParent. repeat break_match; apply Hnil; reflexivity.
  - unfold completeTask, stateAfter. repeat break_match; apply Hnil; reflexivity.
  - unfold undoTaskCompletion. repeat break_match; apply Hnil; reflexivity.
  - unfold addStrike, stateAfter.
    repeat break_match; try (apply Hnil; reflexivity).
    split; [refine (ex_intro _ [_] _) | exists []]; reflexivity.
  - unfold checkAndPerformDailyReset.
    repeat break_match; try (apply Hnil; reflexivity).
    split; [eexists | exists []]; reflexivity.
  - unfold depositToSavings, stateAfter.
    repeat break_match; try (apply Hnil; reflexivity).
    split; [refine (ex_intro _ [_] _) | exists []]; reflexivity.
  - unfold withdrawFromSavings, stateAfter.
    repeat break_match; try (apply Hnil; reflexivity).
    split; [refine (ex_intro _ [_] _) | exists []]; reflexivity.
  - unfold createSpendRequest, stateAfter.
    repeat break_match; apply Hnil; reflexivity.
  - unfold approveRequest, denyRequest.
    repeat break_match; try (apply Hnil; reflexivity).
    + split; [exists [] | refine (ex_intro _ [_] _)]; reflexivity.
    + split; refine (ex_intro _ [_] _); reflexivity.
  - unfold denyRequest. repeat break_match; try (apply Hnil; reflexivity).
    split; [exists [] | refine (ex_intro _ [_] _)]; reflexivity.
  - unfold removeFromVault. repeat break_match; apply Hnil; reflexivity.
Qed.

Lemma log_is_append_only_witness :
  exists added,
    transactions (step env1 (ApproveRequest "req-z9y8x7") readyToApprove)
    = added ++ transactions readyToApprove.
Proof.
  refine (proj1 (log_is_append_only env1 (ApproveRequest "req-z9y8x7")
                   readyToApprove _)).
  discriminate.
Defined.

(** ** Approval notifications *)

Lemma getUnshown_after_mark (i : string) (s : DadaState) :
  getUnshownApprovedRequests (markNotificationShown i s)
  = filter (fun n => ApprovedRequestNotification.requestId n !== i)
           (getUnshownApprovedRequests s).
Proof.
  unfold getUnshownApprovedRequests, markNotificationShown; simpl.
  induction (approvedNotifications s) as [|n l IH]; simpl; [reflexivity|].
  destruct (ApprovedRequestNotification.requestId n === i) eqn:Hn.
  - cbn [notification_shown ApprovedRequestNotification.shownToChild negb andb].
    destruct (negb _ && _); simpl; [rewrite Hn; simpl|]; exact IH.
  - destruct (negb _ && _); simpl; [rewrite Hn; simpl; f_equal|]; exact IH.
Qed.

Lemma dismiss_all_clears (l : list ApprovedRequestNotification.t) :
  forall s,
    (forall n, In n (getUnshownApprovedRequests s) ->
               In (ApprovedRequestNotification.requestId n)
                  (map ApprovedRequestNotification.requestId l)) ->
    getUnshownApprovedRequests
      (fold_left (fun st req =>
                    markNotificationShown
                      (ApprovedRequestNotification.requestId req) st) l s) = [].
Proof.
  induction l as [|r l IH]; intros s Hcover; simpl.
  - destruct (getUnshownApprovedRequests s) as [|n rest]; [reflexivity|].
    destruct (Hcover n (or_introl eq_refl)).
  - apply IH. intros n Hn. rewrite getUnshown_after_mark in Hn.
    apply filter_In in Hn. destruct Hn as [Hin Hne].
    apply negb_true_iff, String.eqb_neq in Hne.
    destruct (Hcover n Hin) as [Heq | Hrest]; [congruence | exact Hrest].
Qed.

(** X14. Acknowledging notifications: [markNotificationShown] takes exactly the
    notifications of that request out of the unshown list and keeps the
    others in order; marking twice is marking once; [handleDismissAll]
    leaves no unshown notification; and neither drops a notification. *)
Theorem notifications_acknowledged (i : string) (s : DadaState) :
  getUnshownApprovedRequests (markNotificationShown i s)
  = filter (fun n => ApprovedRequestNotification.requestId n !== i)
           (getUnshownApprovedRequests s)
  /\ markNotificationShown i (markNotificationShown i s)
     = markNotificationShown i s
  /\ getUnshownApprovedRequests (handleDismissAll s) = []
  /\ map ApprovedRequestNotification.requestId
         (approvedNotifications (markNotificationShown i s))
     = map ApprovedRequestNotification.requestId (approvedNotifications s).
Proof.
  split; [apply getUnshown_after_mark|]. split; [|split].
  - unfold markNotificationShown; simpl.
    assert (Htwice : forall l : list ApprovedRequestNotification.t,
               map (fun n => if ApprovedRequestNotification.requestId n === i
                             then notification_shown n else n)
                   (map (fun n => if ApprovedRequestNotification.requestId n === i
                                  then notification_shown n else n) l)
               = map (fun n => if ApprovedRequestNotification.requestId n === i
                               then notification_shown n else n) l).
    { intros l. rewrite map_map. apply map_ext. intros n.
      destruct (ApprovedRequestNotification.requestId n === i) eqn:Hn; simpl;
        now rewrite Hn. }
    unfold set_approvedNotifications; simpl. now rewrite Htwice.
  - unfold handleDismissAll. apply dismiss_all_clears.
    intros n Hn. now apply in_map.
  - unfold markNotificationShown; simpl. rewrite map_map. apply map_ext.
    intros n. now destruct (_ === _).
Qed.

(** X15. A successful approval is announced to the child exactly when the
    request has items: its notification then heads the unshown list.  An
    approved request without items is never announced. *)
Theorem approval_is_announced (e : Env) (i : string) (s : DadaState) :
  success (fst (approveRequest e i s)) = true ->
  exists request,
    find (fun r => SpendRequest.id r === i) (pendingRequests s) = Some request
    /\ let s' := snd (approveRequest e i s) in
       match SpendRequest.items request with
       | [] => getUnshownApprovedRequests s' = getUnshownApprovedRequests s
       | _ :: _ =>
           exists n,
             getUnshownApprovedRequests s' = n :: getUnshownApprovedRequests s
             /\ ApprovedRequestNotification.requestId n = SpendRequest.id request
             /\ ApprovedRequestNotification.items n = SpendRequest.items request
             /\ ApprovedRequestNotification.totalCost n
                = SpendRequest.totalCost request
       end.
Proof.
  unfold approveRequest.
  destruct (find _ (pendingRequests s)) as [request|]; [|discriminate].
  destruct (find _ (children s)) as [child|]; [|discriminate].
  destruct (_ <? _); [discriminate|]. intros _.
  exists request. split; [reflexivity|]. cbv zeta. cbn [snd].
  unfold getUnshownApprovedRequests; simpl.
  destruct (SpendRequest.items request) as [|item rest]; simpl; [reflexivity|].
  eexists. split; [reflexivity|]. repeat split.
Qed.

Lemma approval_is_announced_witness :
  exists request,
    find (fun r => SpendRequest.id r === "req-z9y8x7")
         (pendingRequests readyToApprove) = Some request
    /\ let s' := snd (approveRequest env1 "req-z9y8x7" readyToApprove) in
       match SpendRequest.items request with
       | [] => getUnshownApprovedRequests s'
               = getUnshownApprovedRequests readyToApprove
       | _ :: _ =>
           exists n,
             getUnshownApprovedRequests s'
             = n :: getUnshownApprovedRequests readyToApprove
             /\ ApprovedRequestNotification.requestId n = SpendRequest.id request
             /\ ApprovedRequestNotification.items n = SpendRequest.items request
             /\ ApprovedRequestNotification.totalCost n
                = SpendRequest.totalCost request
       end.
Proof.
  apply (approval_is_announced env1 "req-z9y8x7" readyToApprove). reflexivity.
Defined.

(** ** The strike ledger stays bounded *)

Lemma step_frame_strikes (e : Env) (a : Action) (s : DadaState) :
  touchesStrikes a = false -> strikes (step e a s) = strikes s.
Proof.
  destruct a; simpl; try discriminate; intros _.
  all: try reflexivity.
  - frame_of deleteChild.
  - frame_of unlockParent.
  - frame_of completeTask.
  - frame_of undoTaskCompletion.
  - frame_of depositToSavings.
  - frame_of withdrawFromSavings.
  - frame_of createSpendRequest.
  - unfold approveRequest, denyRequest. repeat break_match; reflexivity.
  - frame_of denyRequest.
  - frame_of removeFromVault.
Qed.

Lemma addStrike_strikes (e : Env) (reason : string) (s : DadaState) :
  strikes (step e (AddStrike reason) s) = strikes s
  \/ exists child k,
      getCurrentChild s = Some child
      /\ (strikesToday e child s < MAX_STRIKES)%nat
      /\ Strike.day k = getTodayDate e
      /\ Strike.childId k = ChildProfile.id child
      /\ strikes (step e (AddStrike reason) s) = strikes s ++ [k].
Proof.
  cbn [step]. unfold addStrike.
  destruct (getCurrentChild s) as [child|] eqn:Hchild.
  - cbn [todayStrikesOf]. fold (strikesToday e child s).
    destruct (Nat.leb_spec MAX_STRIKES (strikesToday e child s)); [now left|].
    right. exists child. eexists.
    split; [reflexivity|]. split; [assumption|].
    destruct (MAX_STRIKES <=? _)%nat; cbn [stateAfter];
      (split; [|split; [|reflexivity]]); reflexivity.
  - left. unfold todayStrikesOf. repeat break_match; reflexivity.
Qed.

Lemma step_keeps_strikes_bounded (e : Env) (a : Action) (s : DadaState) :
  (forall day childId,
      (List.length (strikesOn day childId (strikes s)) <= MAX_STRIKES)%nat) ->
  forall day childId,
    (List.length (strikesOn day childId (strikes (step e a s))) <= MAX_STRIKES)%nat.
Proof.
  intros Hinv day childId.
  assert (Hfilter : forall p,
             (List.length (strikesOn day childId (filter p (strikes s)))
              <= MAX_STRIKES)%nat).
  { intros p. unfold strikesOn.
    etransitivity; [apply filter_filter_length | apply Hinv]. }
  destruct (touchesStrikes a) eqn:Htouch.
  - destruct a; try discriminate.
    + match goal with
      | |- context [AddStrike ?reason] =>
          destruct (addStrike_strikes e reason s)
            as [-> | (child & k & _ & Hlt & Hday & Hid & ->)]; [apply Hinv|]
      end.
      unfold strikesOn. rewrite filter_app, length_app. simpl.
      destruct ((Strike.day k =? day) && (Strike.childId k === childId)) eqn:Hk;
        simpl; [|rewrite Nat.add_0_r; apply Hinv].
      apply andb_true_iff in Hk. destruct Hk as [Hd Hc].
      apply Z.eqb_eq in Hd. apply String.eqb_eq in Hc.
      unfold strikesToday in Hlt. rewrite <- Hd, <- Hc, Hday, Hid. lia.
    + apply Hfilter.
    + simpl. unfold MAX_STRIKES. lia.
    + cbn [step]. unfold checkAndPerformDailyReset.
      repeat break_match; cbn [snd]; first [apply Hinv | apply Hfilter].
    + simpl. unfold MAX_STRIKES. lia.
  - rewrite step_frame_strikes by assumption. apply Hinv.
Qed.

(** X16. Whatever is called, starting from the initial store, no child id ever
    has more than MAX_STRIKES strikes on one day. *)
Theorem strikes_stay_bounded (e0 : Env) (calls : list (Env * Action))
  (day : DateString) (childId : string) :
  (List.length (strikesOn day childId (strikes (run calls (initialState e0))))
   <= MAX_STRIKES)%nat.
Proof.
  assert (Hrun : forall calls s,
             (forall day childId,
                 (List.length (strikesOn day childId (strikes s)) <= MAX_STRIKES)%nat) ->
             forall day childId,
               (List.length (strikesOn day childId (strikes (run calls s)))
                <= MAX_STRIKES)%nat).
  { clear. intros calls. induction calls as [|[e a] calls IH]; intros s Hinv.
    - exact Hinv.
    - simpl. apply IH. now apply step_keeps_strikes_bounded. }
  apply Hrun. intros d c. simpl. unfold MAX_STRIKES. lia.
Qed.

(** ** The household is kept *)

Lemma household_frame (s s' : DadaState) :
  household s -> children s' = children s -> household s'.
Proof. unfold household. now intros Hh ->. Qed.

Lemma household_update (s s' : DadaState) (p : ChildProfile.t -> bool)
  (f : ChildProfile.t -> ChildProfile.t) :
  household s ->
  children s' = map (fun c => if p c then f c else c) (children s) ->
  (forall c, ChildProfile.id (f c) = ChildProfile.id c) ->
  household s'.
Proof.
  intros [Hne Hnodup] Hchildren Hid. unfold household. rewrite Hchildren. split.
  - destruct (children s); [congruence | discriminate].
  - now rewrite map_update_ids.
Qed.

Lemma mapAccum_resetChild_ids (e : Env) (today : DateString)
  (l : list ChildProfile.t) (acc : ResetAcc) :
  map ChildProfile.id (snd (mapAccum (resetChild e today) acc l))
  = map ChildProfile.id l.
Proof.
  revert acc. induction l as [|c l IH]; intros acc; simpl; [reflexivity|].
  assert (Hc : ChildProfile.id (snd (resetChild e today acc c)) = ChildProfile.id c).
  { unfold resetChild. repeat break_match; reflexivity. }
  destruct (resetChild e today acc c) as [acc1 c'].
  specialize (IH acc1). destruct (mapAccum _ acc1 l) as [acc2 l'].
  simpl in *. now rewrite Hc, IH.
Qed.

Lemma distinct_ids_after_filter (keep : ChildProfile.t -> bool)
  (l : list ChildProfile.t) :
  NoDup (map ChildProfile.id l) ->
  NoDup (map ChildProfile.id (filter keep l)).
Proof.
  induction l as [|c l IH]; simpl; intros Hnd; [exact Hnd|].
  inversion Hnd as [|? ? Hnot Hrest]; subst.
  destruct (keep c); simpl; [|now apply IH].
  constructor; [|now apply IH].
  rewrite in_map_iff. intros (c' & Hid & Hin). apply filter_In in Hin.
  apply Hnot. rewrite <- Hid. apply in_map. tauto.
Qed.

Lemma two_children_survive (k : string) (l : list ChildProfile.t) :
  NoDup (map ChildProfile.id l) ->
  (1 < List.length l)%nat ->
  filter (fun c => ChildProfile.id c !== k) l <> [].
Proof.
  destruct l as [|a [|b l]]; simpl; try lia. intros Hnd _.
  inversion Hnd as [|? ? Hnot _]; subst.
  destruct (String.eqb_spec (ChildProfile.id a) k) as [Ha | Ha]; simpl;
    [|discriminate].
  destruct (String.eqb_spec (ChildProfile.id b) k) as [Hb | Hb]; simpl;
    [|discriminate].
  exfalso. apply Hnot. left. congruence.
Qed.

Lemma deleteChild_household (childId : string) (s : DadaState) :
  household s ->
  exists s', deleteChild childId s = Some s' /\ household s'.
Proof.
  intros [Hne Hnd]. unfold deleteChild.
  destruct (Nat.leb_spec (List.length (children s)) 1).
  - exists s. split; [reflexivity | now split].
  - pose proof (two_children_survive childId (children s) Hnd ltac:(lia)) as Hleft.
    assert (Hh : forall s', children s'
                            = filter (fun c => ChildProfile.id c !== childId)
                                     (children s) -> household s').
    { intros s' Hs'. unfold household. rewrite Hs'. split; [assumption|].
      now apply distinct_ids_after_filter. }
    destruct (currentChildId s === childId).
    + destruct (filter _ (children s)) as [|c0 rest] eqn:Hf; [congruence|].
      eexists. split; [reflexivity|]. apply Hh.
      first [reflexivity | simpl; now rewrite Hf].
    + eexists. split; [reflexivity|]. now apply Hh.
Qed.

Lemma step_keeps_household (e : Env) (a : Action) (s : DadaState) :
  household s -> orderly e a s = true -> household (step e a s).
Proof.
  intros Hh Hord.
  assert (Hframe : forall s', children s' = children s -> household s')
    by (intros s'; apply household_frame; assumption).
  destruct a; cbn [step]; try (apply Hframe; reflexivity).
  - destruct Hh as [Hne Hnd]. unfold household; simpl. split.
    + destruct (children s); discriminate.
    + rewrite map_app; simpl. cbn [orderly] in Hord.
      apply negb_true_iff in Hord.
      apply NoDup_app; [assumption | repeat constructor; intros [] |].
      intros x Hx [<- | []]. apply in_map_iff in Hx.
      destruct Hx as (c & Hc & Hin).
      assert (Hex : existsb (fun c => ChildProfile.id c
                                      === String.append "child-" (random e 0))
                            (children s) = true).
      { apply existsb_exists. exists c. split; [assumption|].
        now apply String.eqb_eq. }
      congruence.
  - cbn [orderly] in Hord.
    destruct (ChildProfile.p_id updates) eqn:Hp; [discriminate|].
    apply (household_update s _ (fun c => ChildProfile.id c === childId)
             (fun c => ChildUpd.merge c updates)); [assumption | reflexivity|].
    intros c. unfold ChildUpd.merge. simpl. now rewrite Hp.
  - destruct (deleteChild_household childId s Hh) as (s' & -> & Hs'). exact Hs'.
  - unfold unlockParent. break_match; apply Hframe; reflexivity.
  - now apply completeTask_conserves.
  - unfold undoTaskCompletion. repeat break_match; cbn [snd];
      try (apply Hframe; reflexivity).
    all: eapply household_update; [eassumption | reflexivity|]; reflexivity.
  - unfold addStrike, stateAfter. repeat break_match;
      try (apply Hframe; reflexivity).
    all: eapply household_update; [eassumption | reflexivity|]; reflexivity.
  - unfold checkAndPerformDailyReset.
    destruct (negb _); [apply Hframe; reflexivity|].
    pose proof (mapAccum_resetChild_ids e (getTodayDate e) (children s)
                  (mkResetAcc 0 0 [] 0)) as Hids.
    destruct (mapAccum _ _ (children s)) as [acc updatedChildren].
    cbn [snd] in *. destruct Hh as [Hne Hnd]. unfold household; simpl.
    rewrite Hids. split; [|assumption].
    intros ->. destruct (children s); [congruence | discriminate].
  - unfold depositToSavings, stateAfter. repeat break_match;
      try (apply Hframe; reflexivity).
    all: eapply household_update; [eassumption | reflexivity|]; reflexivity.
  - unfold withdrawFromSavings, stateAfter. repeat break_match;
      try (apply Hframe; reflexivity).
    all: eapply household_update; [eassumption | reflexivity|]; reflexivity.
  - unfold createSpendRequest, stateAfter. repeat break_match;
      apply Hframe; reflexivity.
  - unfold approveRequest, denyRequest. repeat break_match; cbn [snd];
      try (apply Hframe; reflexivity).
    all: eapply household_update; [eassumption | reflexivity|]; reflexivity.
  - unfold denyRequest. break_match; apply Hframe; reflexivity.
  - unfold removeFromVault. break_match; apply Hframe; reflexivity.
  - split; [discriminate|]. simpl. constructor; [intros []|constructor].
Qed.

(** X17. Starting from a household, calls that draw unused child ids and patch
    no child id keep the household: there is always at least one child, no
    two children share an id, and the acting child exists, so no action
    throws for want of a child. *)
Theorem household_is_kept (calls : list (Env * Action)) (s : DadaState) :
  household s ->
  orderlyRun calls s = true ->
  household (run calls s)
  /\ exists child, getCurrentChild (run calls s) = Some child.
Proof.
  intros Hh Hrun.
  assert (Hkept : household (run calls s)).
  { revert s Hh Hrun. induction calls as [|[e a] calls IH]; intros s Hh Hrun.
    - exact Hh.
    - simpl in *. apply andb_true_iff in Hrun. destruct Hrun as [Hord Hrest].
      apply IH; [|assumption]. now apply step_keeps_household. }
  split; [exact Hkept | now apply household_current_child].
Qed.

Lemma household_is_kept_witness :
  exists child, getCurrentChild (run familyDay (initialState env0)) = Some child.
Proof.
  refine (proj2 (household_is_kept familyDay (initialState env0) _ _)).
  - split; [discriminate|]. simpl. constructor; [intros []|constructor].
  - vm_compute. reflexivity.
Defined.

Lemma find_filter_other {A} (key : A -> string) (k d : string) (l : list A) :
  k <> d ->
  find (fun x => key x === k) (filter (fun x => key x !== d) l)
  = find (fun x => key x === k) l.
Proof.
  intros Hne. induction l as [|x l IH]; simpl; [reflexivity|].
  destruct (String.eqb_spec (key x) d) as [Hd | Hd]; simpl.
  - destruct (String.eqb_spec (key x) k); [congruence | exact IH].
  - destruct (key x === k); [reflexivity | exact IH].
Qed.

(** X18. [deleteChild] in a household never throws and never deletes the last
    child.  With a single child nothing changes; otherwise exactly the
    children with another id stay, an acting child that is not the deleted
    one remains the acting child, and the pending requests, strikes,
    transactions and the vault are not touched: what the deleted child
    owned or had asked for is not settled. *)
Theorem deleteChild_keeps_a_child (childId : string) (s : DadaState) :
  household s ->
  exists s',
    deleteChild childId s = Some s'
    /\ household s'
    /\ ((List.length (children s) <= 1)%nat -> s' = s)
    /\ ((1 < List.length (children s))%nat ->
        children s' = filter (fun c => ChildProfile.id c !== childId) (children s))
    /\ (forall child,
          getCurrentChild s = Some child ->
          ChildProfile.id child <> childId ->
          getCurrentChild s' = Some child)
    /\ pendingRequests s' = pendingRequests s
    /\ strikes s' = strikes s
    /\ transactions s' = transactions s
    /\ vault s' = vault s.
Proof.
  intros Hh. destruct (deleteChild_household childId s Hh) as (s' & Hs' & Hh').
  exists s'. split; [exact Hs'|]. split; [exact Hh'|].
  unfold deleteChild in Hs'.
  destruct (Nat.leb_spec (List.length (children s)) 1) as [Hone | Hmany].
  - injection Hs' as <-. repeat split; trivial. lia.
  - split; [lia|].
    assert (Hkeep : forall child,
               In child (children s) -> ChildProfile.id child <> childId ->
               In child (filter (fun c => ChildProfile.id c !== childId)
                                (children s))).
    { intros child Hin Hne. apply filter_In. split; [assumption|].
      now apply negb_true_iff, String.eqb_neq. }
    destruct (String.eqb_spec (currentChildId s) childId) as [Hcur | Hcur].
    + destruct (filter _ (children s)) as [|c0 rest] eqn:Hf; [discriminate|].
      injection Hs' as <-. split; [intros _; exact (eq_sym Hf) || reflexivity|].
      split; [|repeat split].
      intros child Hchild Hne. unfold getCurrentChild in *. simpl.
      destruct (find _ (children s)) as [c|] eqn:Hfind.
      * injection Hchild as ->. apply find_some_in_eqb in Hfind. intuition congruence.
      * destruct (children s) as [|c1 l1] eqn:Hl; [discriminate|].
        simpl in Hchild. injection Hchild as ->. simpl in Hf.
        apply String.eqb_neq in Hne. rewrite Hne in Hf. simpl in Hf.
        injection Hf as <- <-. simpl. now rewrite String.eqb_refl.
    + injection Hs' as <-. split; [reflexivity|]. split; [|repeat split].
      intros child Hchild Hne. unfold getCurrentChild in *. simpl.
      rewrite find_filter_other by assumption.
      destruct (find _ (children s)) as [c|] eqn:Hfind; [exact Hchild|].
      destruct (children s) as [|c1 l1] eqn:Hl; [discriminate|].
      simpl in Hchild. injection Hchild as ->. simpl.
      apply String.eqb_neq in Hne. now rewrite Hne.
Qed.

Lemma deleteChild_keeps_a_child_witness :
  exists s',
    deleteChild "child-z9y8x7" twoChildren = Some s'
    /\ household s'.
Proof.
  destruct (deleteChild_keeps_a_child "child-z9y8x7" twoChildren)
    as (s' & Hrun & Hh & _).
  - split; [discriminate|]. simpl.
    constructor; [intros [H | []]; discriminate|].
    constructor; [intros []|constructor].
  - exists s'. split; assumption.
Defined.

(** ** Nobody goes below zero *)

Lemma Forall_update {A} (P : A -> Prop) (p : A -> bool) (f : A -> A)
  (l : list A) :
  Forall P l ->
  (forall x, In x l -> P x -> p x = true -> P (f x)) ->
  Forall P (map (fun x => if p x then f x else x) l).
Proof.
  induction l as [|x l IH]; simpl; intros Hall Hf; [constructor|].
  inversion Hall as [|? ? Hx Hl]; subst. constructor.
  - destruct (p x) eqn:Hp; [apply Hf; auto | assumption].
  - apply IH; [assumption|]. intros y Hy. apply Hf. now right.
Qed.

Lemma Forall_filter_keep {A} (P : A -> Prop) (p : A -> bool) (l : list A) :
  Forall P l -> Forall P (filter p l).
Proof.
  intros Hall. apply Forall_forall. intros x Hx. apply filter_In in Hx.
  rewrite Forall_forall in Hall. now apply Hall.
Qed.

Lemma same_id_same_child (l : list ChildProfile.t) (c child : ChildProfile.t) :
  NoDup (map ChildProfile.id l) ->
  In c l -> In child l -> ChildProfile.id c = ChildProfile.id child -> c = child.
Proof.
  induction l as [|x l IH]; simpl; [tauto|].
  intros Hnd Hc Hchild Hid. inversion Hnd as [|? ? Hnot Hrest]; subst.
  destruct Hc as [-> | Hc], Hchild as [-> | Hchild]; trivial.
  - exfalso. apply Hnot. rewrite Hid. now apply in_map.
  - exfalso. apply Hnot. rewrite <- Hid. now apply in_map.
  - now apply IH.
Qed.

Lemma sumOver_nonneg {A} (f : A -> Z) (l : list A) :
  Forall (fun x => 0 <= f x) l -> 0 <= sumOver f l.
Proof. induction 1; simpl; lia. Qed.

Lemma resetChild_solvent (e : Env) (today : DateString) (acc : ResetAcc)
  (c : ChildProfile.t) :
  solventChild c -> solventChild (snd (resetChild e today acc c)).
Proof.
  intros (Hb & Hs & Hp). unfold resetChild, solventChild.
  destruct (Z.ltb_spec 0 (ChildProfile.pendingEarnings c));
    destruct (calculateDailyInterest (ChildProfile.savings c)) as [w a];
    destruct (Z.ltb_spec 0 w); simpl; lia.
Qed.

Lemma mapAccum_resetChild_solvent (e : Env) (today : DateString)
  (l : list ChildProfile.t) (acc : ResetAcc) :
  Forall solventChild l ->
  Forall solventChild (snd (mapAccum (resetChild e today) acc l)).
Proof.
  revert acc. induction l as [|c l IH]; intros acc Hall; simpl; [constructor|].
  inversion Hall as [|? ? Hc Hl]; subst.
  pose proof (resetChild_solvent e today acc c Hc) as Hc'.
  destruct (resetChild e today acc c) as [acc1 c'].
  specialize (IH acc1 Hl). destruct (mapAccum _ acc1 l) as [acc2 l'].
  simpl in *. now constructor.
Qed.

Lemma initialState_solvent (e : Env) : solvent (initialState e).
Proof.
  unfold solvent; simpl. split; [unfold VAULT_MAX; lia|]. split; [|split].
  - repeat constructor; simpl; lia.
  - repeat constructor; simpl; lia.
  - constructor.
Qed.

Lemma solvent_frame (s s' : DadaState) :
  solvent s ->
  vault s' = vault s -> children s' = children s -> tasks s' = tasks s ->
  pendingRequests s' = pendingRequests s ->
  solvent s'.
Proof. unfold solvent. now intros Hs -> -> -> ->. Qed.

Ltac solvent_unchanged :=
  eapply solvent_frame; [eassumption | reflexivity ..].

Lemma find_task_payout (taskId : string) (s : DadaState) (task : Task.t) :
  solvent s ->
  find (fun t => Task.id t === taskId) (tasks s) = Some task ->
  0 <= Task.payout task.
Proof.
  intros (_ & _ & Ht & _) Hfind. apply find_some in Hfind.
  rewrite Forall_forall in Ht. now apply Ht.
Qed.

Lemma current_child_solvent (s : DadaState) (child : ChildProfile.t) :
  solvent s -> In child (children s) -> solventChild child.
Proof.
  intros (_ & Hc & _) Hin. rewrite Forall_forall in Hc. now apply Hc.
Qed.

Lemma completeTask_solvent (e : Env) (taskId : string) (s : DadaState) :
  solvent s -> solvent (step e (CompleteTask taskId) s).
Proof.
  intros Hs. cbn [step]. unfold completeTask.
  destruct (find _ (tasks s)) as [task|] eqn:Hfind; [|solvent_unchanged].
  pose proof (find_task_payout taskId s task Hs Hfind) as Hpay.
  destruct (negb _); [solvent_unchanged|].
  destruct (todayStrikesOf _ _ _); [|solvent_unchanged].
  destruct (_ <=? _)%nat; [solvent_unchanged|].
  destruct (_ <=? _); [solvent_unchanged|].
  destruct (Z.ltb_spec (Vault.balance (vault s)) (Task.payout task));
    [solvent_unchanged|].
  destruct Hs as (Hv & Hc & Ht & Hr). unfold solvent; simpl.
  split; [lia|]. split; [|split; [|assumption]].
  - apply Forall_update; [assumption|].
    intros c _ (Hb & Hsv & Hp) _. unfold solventChild; simpl. lia.
  - apply Forall_update; [assumption|]. intros t _ Hp _. exact Hp.
Qed.

Lemma undoTaskCompletion_solvent (taskId : string) (s : DadaState) :
  solvent s -> solvent (snd (undoTaskCompletion taskId s)).
Proof.
  intros Hs. unfold undoTaskCompletion.
  destruct (find _ (tasks s)) as [task|] eqn:Hfind; [|solvent_unchanged].
  pose proof (find_task_payout taskId s task Hs Hfind) as Hpay.
  destruct (_ <=? _); [solvent_unchanged|].
  destruct Hs as (Hv & Hc & Ht & Hr). unfold solvent; simpl.
  split; [unfold VAULT_MAX in *; lia|]. split; [|split; [|assumption]].
  - apply Forall_update; [assumption|].
    intros c _ (Hb & Hsv & Hp) _. unfold solventChild; simpl. lia.
  - apply Forall_update; [assumption|]. intros t _ Hp _. exact Hp.
Qed.

Lemma addStrike_solvent (e : Env) (reason : string) (s : DadaState) :
  solvent s -> solvent (step e (AddStrike reason) s).
Proof.
  intros Hs. cbn [step]. unfold addStrike.
  destruct (todayStrikesOf _ _ _); [|solvent_unchanged].
  destruct (_ <=? _)%nat; [solvent_unchanged|].
  destruct (getCurrentChild s) as [child|] eqn:Hchild; [|solvent_unchanged].
  destruct (_ <=? _)%nat; [|solvent_unchanged].
  destruct (current_child_solvent s child Hs (getCurrentChild_in s child Hchild))
    as (_ & _ & Hpending).
  destruct Hs as (Hv & Hc & Ht & Hr). unfold solvent; simpl.
  split; [unfold VAULT_MAX in *; lia|]. split; [|split; assumption].
  apply Forall_update; [assumption|].
  intros c _ (Hb & Hsv & Hp) _. unfold solventChild; simpl. lia.
Qed.

Lemma depositToSavings_solvent (e : Env) (amount : Z) (s : DadaState) :
  household s -> solvent s -> solvent (step e (DepositToSavings amount) s).
Proof.
  intros [_ Hnd] Hs. cbn [step]. unfold depositToSavings.
  destruct (Z.leb_spec amount 0); [solvent_unchanged|].
  destruct (getCurrentChild s) as [child|] eqn:Hchild; [|solvent_unchanged].
  destruct (Z.ltb_spec (ChildProfile.balance child) amount); [solvent_unchanged|].
  pose proof (getCurrentChild_in s child Hchild) as Hin.
  destruct Hs as (Hv & Hc & Ht & Hr). unfold solvent; simpl.
  split; [assumption|]. split; [|split; assumption].
  apply Forall_update; [assumption|].
  intros c Hc' (Hb & Hsv & Hp) Hid. apply String.eqb_eq in Hid.
  rewrite (same_id_same_child (children s) c child Hnd Hc' Hin Hid) in *.
  unfold solventChild; simpl. lia.
Qed.

Lemma withdrawFromSavings_solvent (e : Env) (amount : Z) (s : DadaState) :
  household s -> solvent s -> solvent (step e (WithdrawFromSavings amount) s).
Proof.
  intros [_ Hnd] Hs. cbn [step]. unfold withdrawFromSavings.
  destruct (Z.leb_spec amount 0); [solvent_unchanged|].
  destruct (getCurrentChild s) as [child|] eqn:Hchild; [|solvent_unchanged].
  destruct (Z.ltb_spec (ChildProfile.savings child) amount); [solvent_unchanged|].
  pose proof (getCurrentChild_in s child Hchild) as Hin.
  destruct Hs as (Hv & Hc & Ht & Hr). unfold solvent; simpl.
  split; [assumption|]. split; [|split; assumption].
  apply Forall_update; [assumption|].
  intros c Hc' (Hb & Hsv & Hp) Hid. apply String.eqb_eq in Hid.
  rewrite (same_id_same_child (children s) c child Hnd Hc' Hin Hid) in *.
  unfold solventChild; simpl. lia.
Qed.

Lemma denyRequest_solvent (e : Env) (i : string) (s : DadaState) :
  solvent s -> solvent (denyRequest e i s).
Proof.
  intros Hs. unfold denyRequest. destruct (find _ _); [|assumption].
  destruct Hs as (Hv & Hc & Ht & Hr). unfold solvent; simpl.
  split; [assumption|]. split; [assumption|]. split; [assumption|].
  now apply Forall_filter_keep.
Qed.

Lemma approveRequest_solvent (e : Env) (i : string) (s : DadaState) :
  household s -> solvent s -> solvent (snd (approveRequest e i s)).
Proof.
  intros [_ Hnd] Hs. unfold approveRequest.
  destruct (find _ (pendingRequests s)) as [request|] eqn:Hreq; [|assumption].
  destruct (find _ (children s)) as [child|] eqn:Hchild; [|assumption].
  destruct (Z.ltb_spec (ChildProfile.balance child) (SpendRequest.totalCost request));
    [now apply denyRequest_solvent|].
  apply find_some in Hreq, Hchild. destruct Hreq as [Hreq _], Hchild as [Hin _].
  destruct Hs as (Hv & Hc & Ht & Hr).
  assert (Hcost : 0 <= SpendRequest.totalCost request)
    by (rewrite Forall_forall in Hr; now apply Hr).
  unfold solvent; simpl.
  split; [unfold VAULT_MAX in *; lia|]. split; [|split; [assumption|]].
  - apply Forall_update; [assumption|].
    intros c Hc' (Hb & Hsv & Hp) Hid. apply String.eqb_eq in Hid.
    rewrite (same_id_same_child (children s) c child Hnd Hc' Hin Hid) in *.
    unfold solventChild; simpl. lia.
  - now apply Forall_filter_keep.
Qed.

Lemma createSpendRequest_solvent (e : Env) (items : list RequestItem.t)
  (s : DadaState) :
  benign (CreateSpendRequest items) = true ->
  solvent s -> solvent (step e (CreateSpendRequest items) s).
Proof.
  intros Hitems Hs. cbn [step]. unfold createSpendRequest.
  destruct (getCurrentChild s) as [child|]; [|solvent_unchanged].
  destruct (_ <? _)%nat; [solvent_unchanged|].
  destruct (_ <? _); [solvent_unchanged|].
  destruct Hs as (Hv & Hc & Ht & Hr). unfold solvent; simpl.
  split; [assumption|]. split; [assumption|]. split; [assumption|].
  apply Forall_app. split; [assumption|]. constructor; [|constructor]. simpl.
  rewrite fold_left_sum. apply Z.add_nonneg_nonneg; [lia|].
  apply sumOver_nonneg. cbn [benign] in Hitems.
  rewrite forallb_forall in Hitems. apply Forall_forall. intros item Hin.
  specialize (Hitems item Hin). apply andb_true_iff in Hitems.
  destruct Hitems as [Hcost Hq]. apply Z.leb_le in Hcost, Hq. nia.
Qed.

Lemma checkAndPerformDailyReset_solvent (e : Env) (s : DadaState) :
  solvent s -> solvent (snd (checkAndPerformDailyReset e s)).
Proof.
  intros Hs. unfold checkAndPerformDailyReset.
  destruct (negb _); [assumption|].
  destruct Hs as (Hv & Hc & Ht & Hr).
  pose proof (mapAccum_resetChild_solvent e (getTodayDate e) (children s)
                (mkResetAcc 0 0 [] 0) Hc) as Hc'.
  destruct (mapAccum _ _ (children s)) as [acc updatedChildren].
  unfold solvent; simpl in *.
  split; [assumption|]. split; [assumption|]. split; [|assumption].
  apply Forall_forall. intros t Ht'. apply in_map_iff in Ht'.
  destruct Ht' as (t0 & <- & Hin). rewrite Forall_forall in Ht.
  change (0 <= Task.payout t0). now apply Ht.
Qed.

Lemma step_keeps_solvent (e : Env) (a : Action) (s : DadaState) :
  household s -> solvent s -> benign a = true -> solvent (step e a s).
Proof.
  intros Hh Hs Hben.
  destruct a; cbn [step]; try solvent_unchanged.
  - (* addChild *)
    destruct Hs as (Hv & Hc & Ht & Hr). unfold solvent; simpl.
    split; [assumption|]. split; [|split; assumption].
    apply Forall_app. split; [assumption|].
    repeat constructor; simpl; lia.
  - (* updateChild *)
    cbn [benign] in Hben. apply andb_true_iff in Hben. destruct Hben as [Hben Hp'].
    apply andb_true_iff in Hben. destruct Hben as [Hb' Hs'].
    destruct Hs as (Hv & Hc & Ht & Hr). unfold solvent; simpl.
    split; [assumption|]. split; [|split; assumption].
    apply Forall_update; [assumption|].
    intros c _ (Hb & Hsv & Hp) _. unfold solventChild, ChildUpd.merge; simpl.
    destruct (ChildProfile.p_balance updates), (ChildProfile.p_savings updates),
      (ChildProfile.p_pendingEarnings updates); simpl in *;
      rewrite ?Z.leb_le in *; lia.
  - (* deleteChild *)
    unfold deleteChild. repeat break_match; try assumption.
    all: destruct Hs as (Hv & Hc & Ht & Hr); unfold solvent; simpl;
      (split; [assumption|]); (split; [|split; assumption]).
    + match goal with
      | H : filter _ _ = _ |- _ => rewrite <- H
      end. now apply Forall_filter_keep.
    + now apply Forall_filter_keep.
  - (* unlockParent *)
    unfold unlockParent. break_match; solvent_unchanged.
  - (* addTask *)
    cbn [benign] in Hben. apply Z.leb_le in Hben.
    destruct Hs as (Hv & Hc & Ht & Hr). unfold solvent; simpl.
    split; [assumption|]. split; [assumption|]. split; [|assumption].
    apply Forall_app. split; [assumption|]. now repeat constructor.
  - (* updateTask *)
    cbn [benign] in Hben.
    destruct Hs as (Hv & Hc & Ht & Hr). unfold solvent; simpl.
    split; [assumption|]. split; [assumption|]. split; [|assumption].
    apply Forall_update; [assumption|].
    intros t _ Hp _. unfold TaskUpd.merge; simpl.
    destruct (Task.p_payout updates); simpl in *; [now apply Z.leb_le | exact Hp].
  - (* deleteTask *)
    destruct Hs as (Hv & Hc & Ht & Hr). unfold solvent; simpl.
    split; [assumption|]. split; [assumption|]. split; [|assumption].
    now apply Forall_filter_keep.
  - (* toggleTaskActive *)
    destruct Hs as (Hv & Hc & Ht & Hr). unfold solvent; simpl.
    split; [assumption|]. split; [assumption|]. split; [|assumption].
    apply Forall_update; [assumption|]. intros t _ Hp _. exact Hp.
  - now apply completeTask_solvent.
  - now apply undoTaskCompletion_solvent.
  - now apply addStrike_solvent.
  - now apply checkAndPerformDailyReset_solvent.
  - now apply depositToSavings_solvent.
  - now apply withdrawFromSavings_solvent.
  - now apply createSpendRequest_solvent.
  - (* cancelSpendRequest *)
    destruct Hs as (Hv & Hc & Ht & Hr). unfold solvent; simpl.
    split; [assumption|]. split; [assumption|]. split; [assumption|].
    now apply Forall_filter_keep.
  - now apply approveRequest_solvent.
  - now apply denyRequest_solvent.
  - (* addToVault *)
    cbn [benign] in Hben. apply Z.leb_le in Hben.
    destruct Hs as (Hv & Hc & Ht & Hr). unfold solvent; simpl.
    split; [unfold VAULT_MAX in *; lia|]. now repeat split.
  - (* removeFromVault *)
    cbn [benign] in Hben. apply Z.leb_le in Hben. unfold removeFromVault.
    destruct (Z.ltb_spec (Vault.balance (vault s)) amount); [assumption|].
    destruct Hs as (Hv & Hc & Ht & Hr). unfold solvent; simpl.
    split; [lia|]. now repeat split.
  - apply initialState_solvent.
Qed.

(** X19. Starting from a solvent household, as the initial store is one, calls
    that keep child ids distinct and carry no negative amount never drive a
    balance, a savings account or pending earnings below zero, nor the
    vault out of [0, VAULT_MAX]. *)
Theorem nobody_goes_below_zero (calls : list (Env * Action)) (s : DadaState) :
  household s ->
  solvent s ->
  orderlyRun calls s = true ->
  forallb (fun call => benign (snd call)) calls = true ->
  solvent (run calls s).
Proof.
  revert s. induction calls as [|[e a] calls IH]; intros s Hh Hs Hord Hben.
  - exact Hs.
  - simpl in *. apply andb_true_iff in Hord, Hben.
    destruct Hord as [Hord Hrest], Hben as [Hben Hbens].
    apply IH; try assumption.
    + now apply step_keeps_household.
    + now apply step_keeps_solvent.
Qed.

Lemma nobody_goes_below_zero_witness :
  solvent (run familyDay (initialState env0)).
Proof.
  apply (nobody_goes_below_zero familyDay (initialState env0)).
  - split; [discriminate|]. simpl. constructor; [intros []|constructor].
  - apply initialState_solvent.
  - vm_compute. reflexivity.
  - vm_compute. reflexivity.
Defined.

(** ** Undoing a completion *)

Lemma child_eta (c : ChildProfile.t) :
  ChildProfile.mk (ChildProfile.id c) (ChildProfile.name c) (ChildProfile.avatar c)
    (ChildProfile.balance c) (ChildProfile.savings c)
    (ChildProfile.savingsInterestAccrued c) (ChildProfile.totalEarned c)
    (ChildProfile.totalSpent c) (ChildProfile.strikes c)
    (ChildProfile.pendingEarnings c) (ChildProfile.lastInterestDate c) = c.
Proof. now destruct c. Qed.

Lemma map_update_twice {A} (p : A -> bool) (f g : A -> A) (l : list A) :
  (forall x, p x = true -> p (f x) = true) ->
  (forall x, In x l -> p x = true -> g (f x) = x) ->
  map (fun x => if p x then g x else x) (map (fun x => if p x then f x else x) l)
  = l.
Proof.
  intros Hp Hgf. rewrite map_map. rewrite <- (map_id l) at 2.
  apply map_ext_in. intros x Hx. destruct (p x) eqn:Hpx.
  - rewrite (Hp x Hpx). now apply Hgf.
  - now rewrite Hpx.
Qed.

(** X20. Undo is the inverse of a completion: in a solvent store, right after a
    successful [completeTask] of a task whose completion count was not
    negative, [undoTaskCompletion] of that task succeeds and gives back
    the very store from before the completion. *)
Theorem undo_reverts_completion (e : Env) (taskId : string) (s s1 : DadaState)
  (r : Result) (task : Task.t) :
  solvent s ->
  find (fun t => Task.id t === taskId) (tasks s) = Some task ->
  0 <= Task.completions task ->
  completeTask e taskId s = Some (r, s1) ->
  success r = true ->
  undoTaskCompletion taskId s1 = (succeeded MsgUndone, s).
Proof.
  intros (Hv & Hc & _ & _) Hfind Hcount Hrun Hsucc.
  unfold completeTask in Hrun. rewrite Hfind in Hrun.
  destruct (negb _); [injection Hrun as <- _; discriminate|].
  destruct (todayStrikesOf _ _ _); [|discriminate].
  destruct (_ <=? _)%nat; [injection Hrun as <- _; discriminate|].
  destruct (_ <=? _); [injection Hrun as <- _; discriminate|].
  destruct (_ <? _); [injection Hrun as <- _; discriminate|].
  injection Hrun as _ <-.
  assert (Hid : Task.id task = taskId)
    by (now destruct (find_some_in_eqb Task.id taskId (tasks s) task Hfind)).
  unfold undoTaskCompletion.
  assert (Hfind1 :
            find (fun t => Task.id t === taskId)
                 (map (fun t => if Task.id t === taskId
                                then TaskUpd.completions' (Task.completions t + 1) t
                                else t) (tasks s))
            = Some (TaskUpd.completions' (Task.completions task + 1) task)).
  { pose proof (find_update_same Task.id taskId (fun t => Task.id t === taskId)
                  (fun t => TaskUpd.completions' (Task.completions t + 1) t)
                  (tasks s) task (fun t => eq_refl) Hfind) as Hupd.
    cbv beta in Hupd. now rewrite Hid, String.eqb_refl in Hupd. }
  cbn [tasks set_vault set_children set_tasks]. rewrite Hfind1.
  cbn [Task.completions TaskUpd.completions' Task.payout].
  destruct (Z.leb_spec (Task.completions task + 1) 0); [lia|].
  f_equal.
  assert (Htasks :
            map (fun t => if Task.id t === taskId
                          then TaskUpd.completions' (Task.completions t - 1) t
                          else t)
                (map (fun t => if Task.id t === taskId
                               then TaskUpd.completions' (Task.completions t + 1) t
                               else t) (tasks s)) = tasks s).
  { apply (map_update_twice (fun t => Task.id t === taskId)); [now intros t|].
    intros t _ _. destruct t; unfold TaskUpd.completions'; simpl.
    f_equal. lia. }
  assert (Hchildren :
            forall who,
              map (fun c => if isChild who c
                            then ChildUpd.pendingEarnings'
                                   (Z.max 0 (ChildProfile.pendingEarnings c
                                             - Task.payout task)) c
                            else c)
                  (map (fun c => if isChild who c
                                 then ChildUpd.pendingEarnings'
                                        (ChildProfile.pendingEarnings c
                                         + Task.payout task) c
                                 else c) (children s)) = children s).
  { intros who. apply (map_update_twice (isChild who)).
    - intros c Hp. destruct who; [exact Hp | discriminate].
    - intros c Hin _. rewrite Forall_forall in Hc.
      destruct (Hc c Hin) as (_ & _ & Hp).
      destruct c; unfold ChildUpd.pendingEarnings'; simpl in *. f_equal. lia. }
  assert (Hwho : forall l,
             isChild (getCurrentChild
                        (set_vault
                           (vault_balance' (Vault.balance (vault s) - Task.payout task)
                                           (vault s))
                           (set_children
                              (map (fun c => if isChild (getCurrentChild s) c
                                             then ChildUpd.pendingEarnings'
                                                    (ChildProfile.pendingEarnings c
                                                     + Task.payout task) c
                                             else c) (children s))
                              (set_tasks l s))))
             = isChild (getCurrentChild s)).
  { intros l. destruct (getCurrentChild s) as [child|] eqn:Hchild.
    - rewrite (getCurrentChild_update s _ child
                 (fun c => ChildUpd.pendingEarnings'
                             (ChildProfile.pendingEarnings c + Task.payout task) c));
        reflexivity || assumption.
    - apply getCurrentChild_none in Hchild. unfold getCurrentChild; simpl.
      now rewrite Hchild. }
  rewrite Hwho. unfold set_vault, set_children, set_tasks; simpl.
  rewrite Htasks, Hchildren.
  replace (Z.min VAULT_MAX (Vault.balance (vault s) - Task.payout task
                            + Task.payout task))
    with (Vault.balance (vault s)) by lia.
  unfold vault_balance'; simpl. destruct s as [? ? ? [? ? ?] ? ? ? ? ? ? ? ? ?].
  reflexivity.
Qed.

Lemma undo_reverts_completion_witness :
  undoTaskCompletion "task-0"
    (stateAfter (completeTask env0 "task-0" (initialState env0)) (initialState env0))
  = (succeeded MsgUndone, initialState env0).
Proof.
  apply (undo_reverts_completion env0 "task-0" (initialState env0) _
           (mkResult true (MsgGreatJob 2) (Some 2) None None)
           (Task.mk "task-0" "Clean up after yourself" "🧹" 2 5 0 true chores)).
  - apply initialState_solvent.
  - reflexivity.
  - simpl. lia.
  - reflexivity.
  - reflexivity.
Defined.

(** ** The reset in closed form *)

Lemma sumOver_app {A} (f : A -> Z) (l1 l2 : list A) :
  sumOver f (l1 ++ l2) = sumOver f l1 + sumOver f l2.
Proof. induction l1 as [|x l1 IH]; simpl; lia. Qed.

Lemma sumOver_ext_in {A} (f g : A -> Z) (l : list A) :
  (forall x, In x l -> f x = g x) -> sumOver f l = sumOver g l.
Proof.
  induction l as [|x l IH]; intros Hfg; simpl; [reflexivity|].
  rewrite (Hfg x (or_introl eq_refl)), IH; [reflexivity|].
  intros y Hy. apply Hfg. now right.
Qed.

Lemma resetChild_closed (e : Env) (today : DateString) (acc : ResetAcc)
  (c : ChildProfile.t) :
  let res := resetChild e today acc c in
  snd res = released today c
  /\ totalEarningsDeposited (fst res)
     = totalEarningsDeposited acc + Z.max 0 (ChildProfile.pendingEarnings c)
  /\ totalInterestEarned (fst res)
     = totalInterestEarned acc + Z.max 0 (interestOn c)
  /\ exists added,
      newTransactions (fst res) = newTransactions acc ++ added
      /\ Forall income added
      /\ sumOver Transaction.amount added
         = Z.max 0 (ChildProfile.pendingEarnings c) + Z.max 0 (interestOn c).
Proof.
  cbv zeta. unfold resetChild, released, interestOn, carryOn.
  destruct (calculateDailyInterest (ChildProfile.savings c))
    as [wholeAmount newAccrued].
  destruct (Z.ltb_spec 0 (ChildProfile.pendingEarnings c));
    destruct (Z.ltb_spec 0 wholeAmount); cbn [fst snd];
    (split; [f_equal; lia|]); cbn; (split; [lia|]); (split; [lia|]).
  - rewrite <- app_assoc. eexists. split; [reflexivity|]. split.
    + repeat constructor; simpl; lia.
    + simpl. lia.
  - eexists. split; [reflexivity|]. split.
    + repeat constructor; simpl; lia.
    + simpl. lia.
  - eexists. split; [reflexivity|]. split.
    + repeat constructor; simpl; lia.
    + simpl. lia.
  - exists []. split; [now rewrite app_nil_r|]. split; [constructor | simpl; lia].
Qed.

Lemma mapAccum_resetChild_closed (e : Env) (today : DateString)
  (l : list ChildProfile.t) (acc : ResetAcc) :
  let res := mapAccum (resetChild e today) acc l in
  snd res = map (released today) l
  /\ totalEarningsDeposited (fst res)
     = totalEarningsDeposited acc
       + sumOver (fun c => Z.max 0 (ChildProfile.pendingEarnings c)) l
  /\ totalInterestEarned (fst res)
     = totalInterestEarned acc + sumOver (fun c => Z.max 0 (interestOn c)) l
  /\ exists added,
      newTransactions (fst res) = newTransactions acc ++ added
      /\ Forall income added
      /\ sumOver Transaction.amount added
         = sumOver (fun c => Z.max 0 (ChildProfile.pendingEarnings c)) l
           + sumOver (fun c => Z.max 0 (interestOn c)) l.
Proof.
  revert acc. induction l as [|c l IH]; intros acc; cbv zeta; simpl.
  - split; [reflexivity|]. split; [lia|]. split; [lia|].
    exists []. split; [now rewrite app_nil_r|]. split; [constructor | reflexivity].
  - destruct (resetChild_closed e today acc c)
      as (Hc & Hd & Hi & added1 & Hn1 & Hin1 & Hs1).
    destruct (resetChild e today acc c) as [acc1 c']. cbn [fst snd] in *.
    destruct (IH acc1) as (Hl & Hd' & Hi' & added2 & Hn2 & Hin2 & Hs2).
    destruct (mapAccum (resetChild e today) acc1 l) as [acc2 l'].
    cbn [fst snd] in *. split; [now rewrite Hc, Hl|].
    split; [lia|]. split; [lia|].
    exists (added1 ++ added2). split; [now rewrite Hn2, Hn1, app_assoc|].
    split; [now apply Forall_app|]. rewrite sumOver_app. lia.
Qed.

(** X2. When the reset is due, every child gets its pending earnings on the
    balance, the whole interest the calculator returns for its savings on
    the savings and the calculator's carry as accrued interest, whatever
    the order of the children; the call reports the sums of both; every
    task is back at 0 completions and only strikes of today stay; and the
    earn and interest transactions it logs, all positive, add up to what it
    reports. *)
Theorem reset_in_closed_form (e : Env) (s : DadaState) :
  shouldResetToday e (lastResetDate s) = true ->
  let res := checkAndPerformDailyReset e s in
  let deposited :=
    sumOver (fun c => Z.max 0 (ChildProfile.pendingEarnings c)) (children s) in
  let paid := sumOver (fun c => Z.max 0 (interestOn c)) (children s) in
  children (snd res) = map (released (getTodayDate e)) (children s)
  /\ earningsDeposited (fst res) = Some deposited
  /\ interestEarned (fst res) = Some paid
  /\ Forall (fun t => Task.completions t = 0) (tasks (snd res))
  /\ Forall (fun k => Strike.day k = getTodayDate e) (strikes (snd res))
  /\ exists added,
      transactions (snd res) = added ++ transactions s
      /\ Forall income added
      /\ sumOver Transaction.amount added = deposited + paid.
Proof.
  intros Hdue. cbv zeta. unfold checkAndPerformDailyReset. rewrite Hdue.
  cbn [negb].
  destruct (mapAccum_resetChild_closed e (getTodayDate e) (children s)
              (mkResetAcc 0 0 [] 0)) as (Hc & Hd & Hi & added & Hn & Hin & Hs).
  destruct (mapAccum _ _ (children s)) as [acc updatedChildren].
  cbn [fst snd] in *. simpl in Hd, Hi, Hn.
  split; [exact Hc|]. split; [now rewrite Hd|]. split; [now rewrite Hi|].
  split; [|split].
  - simpl. apply Forall_forall. intros t Ht. apply in_map_iff in Ht.
    now destruct Ht as (t0 & <- & _).
  - simpl. apply Forall_forall. intros k Hk. apply filter_In in Hk.
    now apply Z.eqb_eq.
  - exists added. simpl. rewrite Hn. repeat split; assumption.
Qed.

Lemma reset_in_closed_form_witness :
  children (snd (checkAndPerformDailyReset env1 saver))
  = [ChildProfile.mk "child-a1b2c3" "Alex" "👧" 57 252 50 307 0 0 0 1].
Proof.
  rewrite (proj1 (reset_in_closed_form env1 saver eq_refl)).
  vm_compute. reflexivity.
Defined.

Lemma reset_adds_the_interest_witness :
  exists paid,
    interestEarned (fst (checkAndPerformDailyReset env1 saver)) = Some paid
    /\ totalCurrency (snd (checkAndPerformDailyReset env1 saver))
       = totalCurrency saver + paid.
Proof.
  refine (proj2 (proj2 (reset_adds_the_interest env1 saver _ eq_refl))).
  repeat constructor. simpl. lia.
Defined.

(** ** What the screens show *)

(** X21. The daily interest the savings screen announces,
    [Math.floor(child.savings / 100)], is what the reset pays.  With the
    savings of every child between 0 and [checkedSavings], it is the whole
    amount the calculator returns, and a reset that is due adds exactly that
    amount to the savings of each child and reports the sum of these
    amounts as the interest earned. *)
Theorem shown_interest_is_paid (e : Env) (s : DadaState) :
  Forall (fun c => 0 <= ChildProfile.savings c <= checkedSavings) (children s) ->
  Forall (fun c => dailyInterestShown c
                   = fst (calculateDailyInterest (ChildProfile.savings c)))
         (children s)
  /\ (shouldResetToday e (lastResetDate s) = true ->
      let res := checkAndPerformDailyReset e s in
      map ChildProfile.savings (children (snd res))
      = map (fun c => ChildProfile.savings c + dailyInterestShown c) (children s)
      /\ interestEarned (fst res)
         = Some (sumOver dailyInterestShown (children s))).
Proof.
  intros Hrange.
  assert (Hpaid : forall c, In c (children s) ->
                            Z.max 0 (interestOn c) = dailyInterestShown c).
  { intros c Hc. rewrite Forall_forall in Hrange. specialize (Hrange c Hc).
    unfold interestOn.
    rewrite (calculateDailyInterest_div_mod _ Hrange), (dailyInterestShown_div c Hrange).
    cbn [fst]. apply Z.max_r. apply Z.div_pos; lia. }
  split.
  - apply Forall_forall. intros c Hc. rewrite Forall_forall in Hrange.
    specialize (Hrange c Hc).
    now rewrite (calculateDailyInterest_div_mod _ Hrange), (dailyInterestShown_div c Hrange).
  - intros Hdue. cbv zeta. unfold checkAndPerformDailyReset. rewrite Hdue.
    cbn [negb].
    destruct (mapAccum_resetChild_closed e (getTodayDate e) (children s)
                (mkResetAcc 0 0 [] 0)) as (Hc & _ & Hi & _).
    destruct (mapAccum _ _ (children s)) as [acc updatedChildren].
    cbn [fst snd] in *. simpl in Hi. simpl. rewrite Hc, Hi, map_map. split.
    + apply map_ext_in. intros c Hin. unfold released. cbn [ChildProfile.savings].
      now rewrite (Hpaid c Hin).
    + f_equal. apply sumOver_ext_in. exact Hpaid.
Qed.

Lemma shown_interest_is_paid_witness :
  (map ChildProfile.savings
       (children (snd (checkAndPerformDailyReset env1 saver)))
   = map (fun c => ChildProfile.savings c + dailyInterestShown c) (children saver)
   /\ interestEarned (fst (checkAndPerformDailyReset env1 saver))
      = Some (sumOver dailyInterestShown (children saver)))
  /\ map dailyInterestShown (children saver) = [2]
  /\ map ChildProfile.savings (children saver) = [250]
  /\ map ChildProfile.savings
         (children (snd (checkAndPerformDailyReset env1 saver))) = [252]
  /\ interestEarned (fst (checkAndPerformDailyReset env1 saver)) = Some 2.
Proof.
  split; [|vm_compute; repeat split].
  refine (proj2 (shown_interest_is_paid env1 saver _) eq_refl).
  repeat constructor; vm_compute; discriminate.
Defined.

Lemma find_head_id (c0 : ChildProfile.t) (l : list ChildProfile.t) :
  find (fun c => ChildProfile.id c === ChildProfile.id c0) (c0 :: l) = Some c0.
Proof. simpl. now rewrite String.eqb_refl. Qed.

Lemma find_none_forall (k : string) (l : list ChildProfile.t) :
  Forall (fun c => ChildProfile.id c <> k) l ->
  find (fun c => ChildProfile.id c === k) l = None.
Proof.
  induction 1 as [|c l Hc _ IH]; simpl; [reflexivity|].
  apply String.eqb_neq in Hc. now rewrite Hc.
Qed.

(** X22. The start-up step of the application, in a store where no child has
    the empty id: it never changes who the acting child is; an empty
    [currentChildId] is replaced by the id of the acting child, after which
    [getChildTransactions()] lists exactly the acting child's transactions;
    a non-empty one is left alone; and running it again changes nothing. *)
Theorem initializeCurrentChild_names_the_acting_child (s : DadaState) :
  Forall (fun c => ChildProfile.id c <> "") (children s) ->
  let s' := initializeCurrentChild s in
  getCurrentChild s' = getCurrentChild s
  /\ initializeCurrentChild s' = s'
  /\ (currentChildId s <> "" -> s' = s)
  /\ forall child,
      getCurrentChild s = Some child ->
      currentChildId s = "" ->
      currentChildId s' = ChildProfile.id child
      /\ getChildTransactions None s'
         = filter (fun t => Transaction.childId t === ChildProfile.id child)
                  (transactions s).
Proof.
  intros Hids. cbv zeta. unfold initializeCurrentChild.
  destruct (children s) as [|c0 l] eqn:Hl.
  - rewrite Hl. split; [reflexivity|]. split; [reflexivity|].
    split; [reflexivity|].
    intros child Hchild. unfold getCurrentChild in Hchild. rewrite Hl in Hchild.
    discriminate.
  - inversion Hids as [|? ? Hc0 Hrest]; subst. cbn [truthy].
    destruct (String.eqb_spec (currentChildId s) "") as [Hcur | Hcur];
      cbn [negb].
    + assert (Hacting : getCurrentChild s = Some c0).
      { unfold getCurrentChild. rewrite Hl, Hcur.
        now rewrite (find_none_forall "" (c0 :: l) Hids). }
      assert (Hacting' : getCurrentChild (switchChild (ChildProfile.id c0) s)
                         = Some c0).
      { unfold getCurrentChild, switchChild; simpl. rewrite Hl.
        now rewrite find_head_id. }
      split; [congruence|]. split; [|split; [congruence|]].
      * simpl. rewrite Hl. apply String.eqb_neq in Hc0. now rewrite Hc0.
      * intros child Hchild _. rewrite Hacting in Hchild. injection Hchild as <-.
        split; [reflexivity|]. unfold getChildTransactions; simpl.
        apply String.eqb_neq in Hc0. now rewrite Hc0.
    + apply String.eqb_neq in Hcur. split; [reflexivity|].
      split; [rewrite Hl; cbn [truthy]; now rewrite Hcur|].
      split; [reflexivity|]. intros child _ Hempty.
      apply String.eqb_neq in Hcur. congruence.
Qed.

Lemma initializeCurrentChild_names_the_acting_child_witness :
  getCurrentChild (initializeCurrentChild (initialState env0))
  = getCurrentChild (initialState env0).
Proof.
  refine (proj1 (initializeCurrentChild_names_the_acting_child
                   (initialState env0) _)).
  repeat constructor. discriminate.
Defined.

(** ** Catalog edits and earning *)

Lemma task_eta (t : Task.t) :
  Task.mk (Task.id t) (Task.name t) (Task.icon t) (Task.payout t)
          (Task.dailyMax t) (Task.completions t) (Task.isActive t)
          (Task.category t) = t.
Proof. now destruct t. Qed.

(** X23. A deleted task can neither be completed nor undone: both calls answer
    with a failure and change nothing.  A task switched off is refused by
    [completeTask] until it is switched on again, and switching twice gives
    the store back. *)
Theorem catalog_edits_gate_earning (e : Env) (taskId : string) (s : DadaState) :
  completeTask e taskId (deleteTask taskId s)
  = Some (failure MsgTaskNotFound, deleteTask taskId s)
  /\ undoTaskCompletion taskId (deleteTask taskId s)
     = (failure MsgNoCompletions, deleteTask taskId s)
  /\ (forall task,
        find (fun t => Task.id t === taskId) (tasks s) = Some task ->
        Task.isActive task = true ->
        completeTask e taskId (toggleTaskActive taskId s)
        = Some (failure MsgTaskNotActive, toggleTaskActive taskId s))
  /\ toggleTaskActive taskId (toggleTaskActive taskId s) = s.
Proof.
  assert (Hgone : find (fun t => Task.id t === taskId) (tasks (deleteTask taskId s))
                  = None) by apply (find_filter_out Task.id).
  split; [unfold completeTask; now rewrite Hgone|].
  split; [unfold undoTaskCompletion; now rewrite Hgone|]. split.
  - intros task Hfind Hactive. unfold completeTask.
    pose proof (find_update_same Task.id taskId (fun t => Task.id t === taskId)
                  (fun t => TaskUpd.isActive' (negb (Task.isActive t)) t)
                  (tasks s) task (fun t => eq_refl) Hfind) as Hupd.
    cbv beta in Hupd.
    destruct (find_some_in_eqb Task.id taskId (tasks s) task Hfind) as [_ Hid].
    rewrite Hid, String.eqb_refl in Hupd.
    unfold toggleTaskActive at 1. cbn [tasks set_tasks]. rewrite Hupd.
    cbn [Task.isActive TaskUpd.isActive']. now rewrite Hactive.
  - unfold toggleTaskActive; simpl.
    rewrite (map_update_twice (fun t => Task.id t === taskId)).
    + unfold set_tasks; simpl. apply state_eta.
    + now intros t.
    + intros t _ _. unfold TaskUpd.isActive'; simpl. rewrite negb_involutive.
      apply task_eta.
Qed.

(** ** The dashboard figures *)

(** X24. The strike count of [getTodayStats] is the count [addStrike] and
    [completeTask] test: when it has reached MAX_STRIKES a further strike is
    refused and no task can be completed, and below MAX_STRIKES a strike is
    accepted. *)
Theorem todayStats_strikes_gate (e : Env) (reason taskId : string)
  (s : DadaState) (child : ChildProfile.t) :
  getCurrentChild s = Some child ->
  exists stats,
    getTodayStats e s = Some stats
    /\ Stats.strikes stats = strikesToday e child s
    /\ ((MAX_STRIKES <= Stats.strikes stats)%nat ->
        addStrike e reason s = Some (failure MsgMaxStrikes, s)
        /\ exists m, completeTask e taskId s = Some (failure m, s))
    /\ ((Stats.strikes stats < MAX_STRIKES)%nat ->
        exists r s',
          addStrike e reason s = Some (r, s')
          /\ success r = true
          /\ strikesToday e child s' = S (Stats.strikes stats)).
Proof.
  intros Hchild. unfold getTodayStats. rewrite Hchild.
  eexists. split; [reflexivity|]. cbn [Stats.strikes].
  fold (strikesToday e child s). split; [reflexivity|]. split.
  - intros Hcap. split.
    + unfold addStrike. rewrite (todayStrikesOf_current e s child Hchild).
      apply Nat.leb_le in Hcap. now rewrite Hcap.
    + unfold completeTask. rewrite (todayStrikesOf_current e s child Hchild).
      apply Nat.leb_le in Hcap. rewrite Hcap.
      destruct (find _ _); [|eauto]. destruct (negb _); eauto.
  - intros Hbelow. unfold addStrike.
    rewrite (todayStrikesOf_current e s child Hchild), Hchild.
    destruct (Nat.leb_spec MAX_STRIKES (strikesToday e child s)); [lia|].
    destruct (MAX_STRIKES <=? strikesToday e child s + 1)%nat.
    + eexists. eexists. split; [reflexivity|]. split; [reflexivity|].
      rewrite <- (strikesToday_after_strike e e child s
                    (String.append "strike-" (random e 0)) reason (now e) eq_refl).
      apply strikesToday_frame. reflexivity.
    + eexists. eexists. split; [reflexivity|]. split; [reflexivity|].
      apply (strikesToday_after_strike e e child s). reflexivity.
Qed.

Lemma todayStats_strikes_gate_witness :
  exists stats,
    getTodayStats env0 threeStrikes = Some stats
    /\ Stats.strikes stats = 3%nat.
Proof.
  destruct (todayStats_strikes_gate env0 "again" "task-0" threeStrikes
              (createDefaultChild env0 0 "Alex" "👧") eq_refl)
    as (stats & Hstats & Hcount & _).
  exists stats. split; [exact Hstats|]. rewrite Hcount. reflexivity.
Defined.

(** ** From the cart to the approval *)

Lemma find_snoc_new {A} (p : A -> bool) (l : list A) (x : A) :
  find p l = None -> p x = true -> find p (l ++ [x]) = Some x.
Proof.
  induction l as [|y l IH]; simpl; intros Hnone Hx; [now rewrite Hx|].
  destruct (p y); [discriminate | auto].
Qed.

Lemma find_own_id (l : list ChildProfile.t) (child : ChildProfile.t) :
  NoDup (map ChildProfile.id l) ->
  In child l ->
  find (fun c => ChildProfile.id c === ChildProfile.id child) l = Some child.
Proof.
  intros Hnd Hin.
  destruct (find (fun c => ChildProfile.id c === ChildProfile.id child) l)
    as [c|] eqn:Hfind.
  - destruct (find_some_in_eqb ChildProfile.id _ l c Hfind) as [Hc Hid].
    f_equal. now apply (same_id_same_child l).
  - pose proof (find_none _ _ Hfind child Hin) as Hno. simpl in Hno.
    now rewrite String.eqb_refl in Hno.
Qed.

(** X25. A request made and approved right away: in a household, when the
    acting child has no pending request and can afford the cart, and no
    pending request already has the id drawn, the approval of the new
    request succeeds, takes exactly the cart total from the child's balance
    and adds it to [totalSpent], credits the vault up to its cap, and leaves
    the pending list as it was before the request. *)
Theorem request_then_approval (e1 e2 : Env) (items : list RequestItem.t)
  (s : DadaState) (child : ChildProfile.t) :
  household s ->
  getCurrentChild s = Some child ->
  pendingOf (ChildProfile.id child) (pendingRequests s) = [] ->
  find (fun r => SpendRequest.id r === String.append "req-" (random e1 0))
       (pendingRequests s) = None ->
  let total :=
    sumOver (fun i => RequestItem.cost i * RequestItem.quantity i) items in
  total <= ChildProfile.balance child ->
  let s1 := step e1 (CreateSpendRequest items) s in
  let res := approveRequest e2 (String.append "req-" (random e1 0)) s1 in
  success (fst res) = true
  /\ getCurrentChild (snd res)
     = Some {| ChildProfile.id := ChildProfile.id child;
                ChildProfile.name := ChildProfile.name child;
                ChildProfile.avatar := ChildProfile.avatar child;
                ChildProfile.balance := ChildProfile.balance child - total;
                ChildProfile.savings := ChildProfile.savings child;
                ChildProfile.savingsInterestAccrued := ChildProfile.savingsInterestAccrued child;
                ChildProfile.totalEarned := ChildProfile.totalEarned child;
                ChildProfile.totalSpent := ChildProfile.totalSpent child + total;
                ChildProfile.strikes := ChildProfile.strikes child;
                ChildProfile.pendingEarnings := ChildProfile.pendingEarnings child;
                ChildProfile.lastInterestDate := ChildProfile.lastInterestDate child |}
  /\ Vault.balance (vault (snd res))
     = Z.min VAULT_MAX (Vault.balance (vault s) + total)
  /\ pendingRequests (snd res) = pendingRequests s.
Proof.
  intros [_ Hnd] Hchild Hnone Hfresh total Hafford s1 res.
  set (newId := String.append "req-" (random e1 0)) in *.
  set (request := SpendRequest.mk newId (ChildProfile.id child) items total
                                  pending (now e1) None None).
  assert (Hs1 : s1 = set_pendingRequests (pendingRequests s ++ [request]) s).
  { unfold s1. cbn [step]. unfold createSpendRequest. rewrite Hchild.
    fold (pendingOf (ChildProfile.id child) (pendingRequests s)). rewrite Hnone.
    cbn [List.length Nat.ltb Nat.leb]. rewrite fold_left_sum, Z.add_0_l.
    fold total. apply Z.ltb_ge in Hafford. rewrite Hafford. reflexivity. }
  assert (Hreq : find (fun r => SpendRequest.id r === newId) (pendingRequests s1)
                 = Some request).
  { rewrite Hs1. cbn [pendingRequests set_pendingRequests].
    apply find_snoc_new; [assumption|]. simpl. apply String.eqb_refl. }
  pose proof (getCurrentChild_in s child Hchild) as Hin.
  assert (Hfound : find (fun c => ChildProfile.id c === SpendRequest.childId request)
                        (children s1) = Some child).
  { rewrite Hs1. simpl. now apply find_own_id. }
  unfold res, approveRequest. rewrite Hreq, Hfound.
  cbn [SpendRequest.totalCost request].
  apply Z.ltb_ge in Hafford. rewrite Hafford. cbn [fst snd].
  split; [reflexivity|]. split; [|split].
  - apply (getCurrentChild_update s1 _ child
             (fun c => ChildUpd.totalSpent' (ChildProfile.totalSpent c + total)
                         (ChildUpd.balance' (ChildProfile.balance c - total) c)));
      [reflexivity | now rewrite Hs1 | reflexivity | reflexivity].
  - rewrite Hs1. reflexivity.
  - rewrite Hs1. simpl. rewrite filter_app. simpl.
    rewrite String.eqb_refl. simpl. rewrite app_nil_r.
    apply filter_all_true. intros r Hr.
    pose proof (find_none _ _ Hfresh r Hr) as Hno. simpl in Hno.
    now rewrite Hno.
Qed.

Lemma request_then_approval_witness :
  let res := approveRequest env2 "req-z9y8x7"
               (step env1 (CreateSpendRequest [tvEpisode]) saver) in
  (success (fst res) = true
   /\ getCurrentChild (snd res)
      = Some (ChildProfile.mk "child-a1b2c3" "Alex" "👧" 30 250 0 300 20 0 7 0)
   /\ Vault.balance (vault (snd res)) = 1000
   /\ pendingRequests (snd res) = [])
  /\ children saver
     = [ChildProfile.mk "child-a1b2c3" "Alex" "👧" 50 250 0 300 0 0 7 0]
  /\ map ChildProfile.balance (children (snd res)) = [30]
  /\ map ChildProfile.totalSpent (children (snd res)) = [20].
Proof.
  cbv zeta. split; [|vm_compute; repeat split].
  refine (request_then_approval env1 env2 [tvEpisode] saver
            (ChildProfile.mk "child-a1b2c3" "Alex" "👧" 50 250 0 300 0 0 7 0)
            _ eq_refl eq_refl eq_refl _).
  - split; [discriminate|]. simpl. constructor; [intros []|constructor].
  - vm_compute. discriminate.
Defined.

(** ** Undo, denial, new children, lifted strikes *)

(** X26. [undoTaskCompletion] fails and changes nothing when the task is absent
    or has no completion left.  Otherwise it succeeds: the task's count
    goes down by 1, the acting child's pending earnings lose the payout but
    stop at 0, the vault gets the payout back but stops at VAULT_MAX, and
    no transaction is logged. *)
Theorem undoTaskCompletion_spec (taskId : string) (s : DadaState)
  (child : ChildProfile.t) :
  getCurrentChild s = Some child ->
  (find (fun t => Task.id t === taskId) (tasks s) = None
   \/ (exists task,
         find (fun t => Task.id t === taskId) (tasks s) = Some task
         /\ Task.completions task <= 0) ->
   undoTaskCompletion taskId s = (failure MsgNoCompletions, s))
  /\ (forall task,
        find (fun t => Task.id t === taskId) (tasks s) = Some task ->
        0 < Task.completions task ->
        let res := undoTaskCompletion taskId s in
        success (fst res) = true
        /\ find (fun t => Task.id t === taskId) (tasks (snd res))
           = Some {| Task.id := Task.id task;
                      Task.name := Task.name task;
                      Task.icon := Task.icon task;
                      Task.payout := Task.payout task;
                      Task.dailyMax := Task.dailyMax task;
                      Task.completions := Task.completions task - 1;
                      Task.isActive := Task.isActive task;
                      Task.category := Task.category task |}
        /\ getCurrentChild (snd res)
           = Some {| ChildProfile.id := ChildProfile.id child;
                      ChildProfile.name := ChildProfile.name child;
                      ChildProfile.avatar := ChildProfile.avatar child;
                      ChildProfile.balance := ChildProfile.balance child;
                      ChildProfile.savings := ChildProfile.savings child;
                      ChildProfile.savingsInterestAccrued := ChildProfile.savingsInterestAccrued child;
                      ChildProfile.totalEarned := ChildProfile.totalEarned child;
                      ChildProfile.totalSpent := ChildProfile.totalSpent child;
                      ChildProfile.strikes := ChildProfile.strikes child;
                      ChildProfile.pendingEarnings := Z.max 0 (ChildProfile.pendingEarnings child - Task.payout task);
                      ChildProfile.lastInterestDate := ChildProfile.lastInterestDate child |}
        /\ Vault.balance (vault (snd res))
           = Z.min VAULT_MAX (Vault.balance (vault s) + Task.payout task)
        /\ transactions (snd res) = transactions s).
Proof.
  intros Hchild. split.
  - intros [Hnone | (task & Hfind & Hzero)]; unfold undoTaskCompletion.
    + now rewrite Hnone.
    + rewrite Hfind. apply Z.leb_le in Hzero. now rewrite Hzero.
  - intros task Hfind Hpos. cbv zeta. unfold undoTaskCompletion.
    rewrite Hfind. destruct (Z.leb_spec (Task.completions task) 0); [lia|].
    cbn [fst snd]. split; [reflexivity|]. split; [|split; [|split; reflexivity]].
    + simpl.
      pose proof (find_update_same Task.id taskId (fun t => Task.id t === taskId)
                    (fun t => TaskUpd.completions' (Task.completions t - 1) t)
                    (tasks s) task (fun t => eq_refl) Hfind) as Hupd.
      cbv beta in Hupd.
      destruct (find_some_in_eqb Task.id taskId (tasks s) task Hfind) as [_ Hid].
      now rewrite Hid, String.eqb_refl in Hupd.
    + rewrite Hchild.
      apply (getCurrentChild_update s _ child
               (fun c => ChildUpd.pendingEarnings'
                           (Z.max 0 (ChildProfile.pendingEarnings c
                                     - Task.payout task)) c));
        [reflexivity | assumption | reflexivity | reflexivity].
Qed.

Lemma undoTaskCompletion_spec_witness :
  let done := step env0 (CompleteTask "task-0") (initialState env0) in
  let res := undoTaskCompletion "task-0" done in
  undoTaskCompletion "task-0" (initialState env0)
  = (failure MsgNoCompletions, initialState env0)
  /\ (success (fst res) = true
      /\ find (fun t => Task.id t === "task-0") (tasks (snd res))
         = Some (Task.mk "task-0" "Clean up after yourself" "🧹" 2 5 0 true chores)
      /\ getCurrentChild (snd res)
         = Some (ChildProfile.mk "child-a1b2c3" "Alex" "👧" 0 0 0 0 0 0 0 0)
      /\ Vault.balance (vault (snd res)) = 1000)
  /\ map Task.completions (tasks done) = [1; 0; 0; 0; 0; 0; 0; 0; 0; 0; 0]
  /\ map ChildProfile.pendingEarnings (children done) = [2]
  /\ Vault.balance (vault done) = 998
  /\ map Task.completions (tasks (snd res)) = [0; 0; 0; 0; 0; 0; 0; 0; 0; 0; 0]
  /\ map ChildProfile.pendingEarnings (children (snd res)) = [0].
Proof.
  cbv zeta. split; [|split; [|vm_compute; repeat split]].
  - refine (proj1 (undoTaskCompletion_spec "task-0" (initialState env0)
                     (createDefaultChild env0 0 "Alex" "👧") eq_refl) _).
    right. eexists. split; [reflexivity|]. simpl. lia.
  - destruct (proj2 (undoTaskCompletion_spec "task-0"
                       (step env0 (CompleteTask "task-0") (initialState env0))
                       (ChildProfile.mk "child-a1b2c3" "Alex" "👧" 0 0 0 0 0 0 2 0)
                       eq_refl)
                (Task.mk "task-0" "Clean up after yourself" "🧹" 2 5 1 true chores)
                eq_refl)
      as (Hsucc & Htask & Hchild & Hvault & _).
    + vm_compute. reflexivity.
    + split; [exact Hsucc|]. split; [exact Htask|].
      split; [exact Hchild | exact Hvault].
Defined.

(** X27. [denyRequest] does nothing when no pending request has the id.
    Otherwise the first pending request of that id goes to the head of the
    history with status [denied] and the time of the answer, every pending
    request of that id leaves the pending list, and children, vault, log
    and notifications stay as they are. *)
Theorem denyRequest_spec (e : Env) (i : string) (s : DadaState) :
  (find (fun r => SpendRequest.id r === i) (pendingRequests s) = None ->
   denyRequest e i s = s)
  /\ forall request,
      find (fun r => SpendRequest.id r === i) (pendingRequests s) = Some request ->
      let s' := denyRequest e i s in
      (exists denied_,
          requestHistory s' = denied_ :: requestHistory s
          /\ SpendRequest.status denied_ = denied
          /\ SpendRequest.respondedAt denied_ = Some (now e)
          /\ SpendRequest.id denied_ = SpendRequest.id request
          /\ SpendRequest.childId denied_ = SpendRequest.childId request
          /\ SpendRequest.totalCost denied_ = SpendRequest.totalCost request
          /\ SpendRequest.items denied_ = SpendRequest.items request)
      /\ (forall r, In r (pendingRequests s') <->
                    In r (pendingRequests s) /\ SpendRequest.id r <> i)
      /\ children s' = children s
      /\ vault s' = vault s
      /\ transactions s' = transactions s
      /\ approvedNotifications s' = approvedNotifications s.
Proof.
  split.
  - intros Hnone. unfold denyRequest. now rewrite Hnone.
  - intros request Hfind. cbv zeta.
    destruct (denyRequest_found e i s request Hfind)
      as (Hp & Hh & Hc & Hv & Ht & Hn).
    split; [eexists; split; [exact Hh|]; repeat split|].
    split; [|repeat split; assumption].
    intros r. rewrite Hp, filter_In, negb_true_iff, String.eqb_neq. tauto.
Qed.

Lemma find_snoc {A} (p : A -> bool) (l : list A) (c : A) :
  find p (l ++ [c])
  = match find p l with
    | Some x => Some x
    | None => if p c then Some c else None
    end.
Proof.
  induction l as [|y l IH]; simpl; [reflexivity|]. now destruct (p y).
Qed.

(** X28. A new child starts with nothing, so the total currency is unchanged.
    Its arrival does not replace the acting child, unless [currentChildId]
    was a stale id that happens to be the new one; and when the new id is
    not yet in use, switching to the id [addChild] returned makes the new
    child the acting child. *)
Theorem addChild_then_switch (e : Env) (name avatar : string) (s : DadaState) :
  orderly e (AddChild name avatar) s = true ->
  let newId := fst (addChild e name avatar s) in
  let s1 := snd (addChild e name avatar s) in
  totalCurrency s1 = totalCurrency s
  /\ (forall child,
        getCurrentChild s = Some child ->
        currentChildId s <> newId ->
        getCurrentChild s1 = Some child)
  /\ getCurrentChild (switchChild newId s1)
     = Some (createDefaultChild e 0 name avatar).
Proof.
  intros Hfresh. cbv zeta. cbn [orderly] in Hfresh.
  apply negb_true_iff in Hfresh. unfold addChild; cbn [fst snd].
  set (newChild := createDefaultChild e 0 name avatar).
  assert (Hsum : forall l c, sumHoldings (l ++ [c]) = sumHoldings l + holdings c).
  { intros l c. induction l as [|x l IH]; simpl; lia. }
  split; [|split].
  - unfold totalCurrency; simpl. rewrite Hsum. unfold holdings; simpl. lia.
  - intros child Hchild Hcur. unfold getCurrentChild in *; simpl.
    rewrite find_snoc.
    destruct (find _ (children s)) as [c|]; [exact Hchild|].
    destruct (String.eqb_spec (ChildProfile.id newChild) (currentChildId s))
      as [Heq | _]; [now rewrite Heq in Hcur|].
    destruct (children s); [discriminate | exact Hchild].
  - unfold getCurrentChild, switchChild; simpl. rewrite find_snoc.
    destruct (find _ (children s)) as [c|] eqn:Hfind.
    + apply find_some in Hfind. destruct Hfind as [Hin Hid].
      assert (Hex : existsb (fun c => ChildProfile.id c
                                      === String.append "child-" (random e 0))
                            (children s) = true)
        by (apply existsb_exists; eauto).
      congruence.
    + now rewrite String.eqb_refl.
Qed.

Lemma addChild_then_switch_witness :
  getCurrentChild
    (switchChild (fst (addChild env1 "Sam" "👦" (initialState env0)))
                 (snd (addChild env1 "Sam" "👦" (initialState env0))))
  = Some (createDefaultChild env1 0 "Sam" "👦").
Proof.
  refine (proj2 (proj2 (addChild_then_switch env1 "Sam" "👦" (initialState env0) _))).
  reflexivity.
Defined.

(** X29. Lifting the strikes re-opens earning and restores nothing:
    [resetStrikes] and [removeStrike] leave children, vault and log as they
    are, so forfeited earnings stay forfeited; and after [resetStrikes] an
    active task below its daily cap that the vault can pay is completed
    whatever the strikes were. *)
Theorem resetStrikes_reopens_earning (e : Env) (taskId strikeId : string)
  (s : DadaState) (child : ChildProfile.t) (task : Task.t) :
  getCurrentChild s = Some child ->
  find (fun t => Task.id t === taskId) (tasks s) = Some task ->
  Task.isActive task = true ->
  Task.completions task < Task.dailyMax task ->
  Task.payout task <= Vault.balance (vault s) ->
  (exists r s',
      completeTask e taskId (resetStrikes s) = Some (r, s')
      /\ success r = true
      /\ earned r = Some (Task.payout task))
  /\ children (resetStrikes s) = children s
  /\ vault (resetStrikes s) = vault s
  /\ transactions (resetStrikes s) = transactions s
  /\ children (removeStrike strikeId s) = children s
  /\ vault (removeStrike strikeId s) = vault s
  /\ transactions (removeStrike strikeId s) = transactions s
  /\ (strikesToday e child (removeStrike strikeId s) <= strikesToday e child s)%nat.
Proof.
  intros Hchild Hfind Hactive Hcap Hvault. split; [|repeat split].
  - unfold completeTask.
    change (tasks (resetStrikes s)) with (tasks s).
    change (getCurrentChild (resetStrikes s)) with (getCurrentChild s).
    change (strikes (resetStrikes s)) with (@nil Strike.t).
    change (vault (resetStrikes s)) with (vault s).
    rewrite Hfind, Hactive, Hchild. cbn [negb todayStrikesOf filter List.length].
    change (MAX_STRIKES <=? 0)%nat with false. cbv iota.
    apply Z.leb_gt in Hcap. apply Z.ltb_ge in Hvault. rewrite Hcap, Hvault.
    eexists. eexists. split; [reflexivity|]. now split.
  - unfold strikesToday, removeStrike; simpl. apply filter_filter_length.
Qed.

Lemma resetStrikes_reopens_earning_witness :
  exists r s',
    completeTask env0 "task-0" (resetStrikes threeStrikes) = Some (r, s')
    /\ success r = true
    /\ earned r = Some 2.
Proof.
  refine (proj1 (resetStrikes_reopens_earning env0 "task-0" "strike-a1b2c3"
                   threeStrikes (createDefaultChild env0 0 "Alex" "👧")
                   (Task.mk "task-0" "Clean up after yourself" "🧹" 2 5 0 true chores)
                   eq_refl eq_refl eq_refl _ _)).
  - vm_compute. reflexivity.
  - vm_compute. discriminate.
Defined.

Lemma sumAmounts_cons (f : Z -> Z) (t : Transaction.t) (l : list Transaction.t) :
  sumAmounts f (t :: l) = f (Transaction.amount t) + sumAmounts f l.
Proof.
  unfold sumAmounts. simpl. rewrite !fold_left_sum. lia.
Qed.

(** X30. An approved purchase shows on the dashboard: when the parent approves
    a request of the acting child, today's [spent] figure of
    [getTodayStats] grows by the absolute value of the request's total,
    while [earned] and the strike count stay as they are. *)
Theorem approved_spend_shows_in_stats (e : Env) (i : string) (s : DadaState)
  (child : ChildProfile.t) (request : SpendRequest.t) :
  household s ->
  getCurrentChild s = Some child ->
  find (fun r => SpendRequest.id r === i) (pendingRequests s) = Some request ->
  SpendRequest.childId request = ChildProfile.id child ->
  SpendRequest.totalCost request <= ChildProfile.balance child ->
  exists before after,
    getTodayStats e s = Some before
    /\ getTodayStats e (snd (approveRequest e i s)) = Some after
    /\ Stats.spent after
       = Stats.spent before + Z.abs (SpendRequest.totalCost request)
    /\ Stats.earned after = Stats.earned before
    /\ Stats.strikes after = Stats.strikes before.
Proof.
  intros [_ Hnd] Hchild Hreq Hid Hafford.
  pose proof (getCurrentChild_in s child Hchild) as Hin.
  assert (Hfound : find (fun c => ChildProfile.id c === SpendRequest.childId request)
                        (children s) = Some child)
    by (rewrite Hid; now apply find_own_id).
  unfold approveRequest. rewrite Hreq, Hfound.
  apply Z.ltb_ge in Hafford. rewrite Hafford. cbn [snd].
  set (s' := set_transactions _ _).
  assert (Hchild' : getCurrentChild s'
                    = Some (ChildUpd.totalSpent'
                              (ChildProfile.totalSpent child
                               + SpendRequest.totalCost request)
                              (ChildUpd.balance'
                                 (ChildProfile.balance child
                                  - SpendRequest.totalCost request) child))).
  { apply (getCurrentChild_update s s' child
             (fun c => ChildUpd.totalSpent'
                         (ChildProfile.totalSpent c + SpendRequest.totalCost request)
                         (ChildUpd.balance'
                            (ChildProfile.balance c - SpendRequest.totalCost request)
                            c)));
      [reflexivity | assumption | reflexivity | reflexivity]. }
  unfold getTodayStats. rewrite Hchild, Hchild'.
  eexists. eexists. split; [reflexivity|]. split; [reflexivity|].
  cbn [Stats.spent Stats.earned Stats.strikes ChildProfile.id
       ChildUpd.totalSpent' ChildUpd.balance'].
  unfold s'. cbn [transactions strikes set_transactions set_vault set_children
                  set_approvedNotifications set_requestHistory
                  set_pendingRequests filter Transaction.timestamp
                  Transaction.childId].
  unfold isoDate, getTodayDate. rewrite Z.eqb_refl, String.eqb_refl.
  cbn [andb filter Transaction.type isIncome isSpend].
  rewrite sumAmounts_cons. cbn [Transaction.amount].
  rewrite Z.abs_opp. split; [lia|]. split; reflexivity.
Qed.

Lemma approved_spend_shows_in_stats_witness :
  exists before after,
    getTodayStats env1 readyToApprove = Some before
    /\ getTodayStats env1 (snd (approveRequest env1 "req-z9y8x7" readyToApprove))
       = Some after
    /\ Stats.spent after = Stats.spent before + 20.
Proof.
  destruct (approved_spend_shows_in_stats env1 "req-z9y8x7" readyToApprove
              alexWithTwenty tvRequest)
    as (before & after & Hb & Ha & Hspent & _).
  - split; [discriminate|]. simpl. constructor; [intros []|constructor].
  - reflexivity.
  - reflexivity.
  - reflexivity.
  - vm_compute. discriminate.
  - exists before, after. split; [exact Hb|]. split; [exact Ha | exact Hspent].
Defined.
